(** * GC2145 CMOS image sensor driver (gc2145.c): shallow embedding

    The driver talks to the sensor through three kinds of hardware
    effects: I2C transfers, GPIO lines (power-down, reset) and busy-wait
    delays.  They are modelled by an explicit hardware state [hw] that is
    threaded through every function by a small state monad; the I2C log
    plays the part of a transport spy.  C [int] return codes are kept as
    integers ([0] success, negative errno on failure). *)

From Stdlib Require Import ZArith List Bool Lia.
Import ListNotations.
Local Open Scope Z_scope.

(** ** C integer types, with their wrap-around written out *)

Definition wrap_u32 (x : Z) : Z := x mod 2 ^ 32.
Definition wrap_int (x : Z) : Z := (x + 2 ^ 31) mod 2 ^ 32 - 2 ^ 31.
Definition wrap_u8 (x : Z) : Z := x mod 2 ^ 8.

(** [!x] of C on an [int]. *)
Definition c_not (x : Z) : Z := if x =? 0 then 1 else 0.

(** ** Constants of the kernel headers used by the driver

    The driver takes these names from the Linux headers
    ([errno-base.h], [media-bus-format.h], [videodev2.h],
    [v4l2-subdev.h], [v4l2-controls.h]); the values are those of the
    user-space ABI. *)

Definition EINVAL : Z := 22.
Definition ENXIO : Z := 6.

Definition MEDIA_BUS_FMT_RGB565_2X8_BE : Z := 0x1007.
Definition MEDIA_BUS_FMT_UYVY8_2X8 : Z := 0x2006.
Definition MEDIA_BUS_FMT_VYUY8_2X8 : Z := 0x2007.
Definition MEDIA_BUS_FMT_YUYV8_2X8 : Z := 0x2008.
Definition MEDIA_BUS_FMT_YVYU8_2X8 : Z := 0x2009.
Definition MEDIA_BUS_FMT_SBGGR8_1X8 : Z := 0x3001.

Definition V4L2_COLORSPACE_SMPTE240M : Z := 2.
Definition V4L2_COLORSPACE_REC709 : Z := 3.
Definition V4L2_COLORSPACE_JPEG : Z := 7.
Definition V4L2_COLORSPACE_SRGB : Z := 8.
Definition V4L2_COLORSPACE_OPRGB : Z := 9.
Definition V4L2_COLORSPACE_BT2020 : Z := 10.
Definition V4L2_COLORSPACE_RAW : Z := 11.
Definition V4L2_COLORSPACE_DCI_P3 : Z := 12.

Definition V4L2_XFER_FUNC_709 : Z := 1.
Definition V4L2_XFER_FUNC_SRGB : Z := 2.
Definition V4L2_XFER_FUNC_OPRGB : Z := 3.
Definition V4L2_XFER_FUNC_SMPTE240M : Z := 4.
Definition V4L2_XFER_FUNC_NONE : Z := 5.
Definition V4L2_XFER_FUNC_DCI_P3 : Z := 6.

Definition V4L2_YCBCR_ENC_601 : Z := 1.
Definition V4L2_YCBCR_ENC_709 : Z := 2.
Definition V4L2_YCBCR_ENC_BT2020 : Z := 6.
Definition V4L2_YCBCR_ENC_SMPTE240M : Z := 8.

Definition V4L2_QUANTIZATION_FULL_RANGE : Z := 1.
Definition V4L2_QUANTIZATION_LIM_RANGE : Z := 2.

Definition V4L2_FIELD_NONE : Z := 1.

Definition V4L2_SUBDEV_FORMAT_TRY : Z := 0.
Definition V4L2_SUBDEV_FORMAT_ACTIVE : Z := 1.

Definition V4L2_CID_HFLIP : Z := 0x00980914.
Definition V4L2_CID_VFLIP : Z := 0x00980915.

(** The colorimetry defaults of videodev2.h, as the macros are written. *)
Definition V4L2_MAP_XFER_FUNC_DEFAULT (colsp : Z) : Z :=
  if colsp =? V4L2_COLORSPACE_OPRGB then V4L2_XFER_FUNC_OPRGB
  else if colsp =? V4L2_COLORSPACE_SMPTE240M then V4L2_XFER_FUNC_SMPTE240M
  else if colsp =? V4L2_COLORSPACE_DCI_P3 then V4L2_XFER_FUNC_DCI_P3
  else if colsp =? V4L2_COLORSPACE_RAW then V4L2_XFER_FUNC_NONE
  else if (colsp =? V4L2_COLORSPACE_SRGB) || (colsp =? V4L2_COLORSPACE_JPEG)
       then V4L2_XFER_FUNC_SRGB
  else V4L2_XFER_FUNC_709.

Definition V4L2_MAP_YCBCR_ENC_DEFAULT (colsp : Z) : Z :=
  if (colsp =? V4L2_COLORSPACE_REC709) || (colsp =? V4L2_COLORSPACE_DCI_P3)
  then V4L2_YCBCR_ENC_709
  else if colsp =? V4L2_COLORSPACE_BT2020 then V4L2_YCBCR_ENC_BT2020
  else if colsp =? V4L2_COLORSPACE_SMPTE240M then V4L2_YCBCR_ENC_SMPTE240M
  else V4L2_YCBCR_ENC_601.

Definition V4L2_MAP_QUANTIZATION_DEFAULT
    (is_rgb_or_hsv : bool) (colsp ycbcr_enc : Z) : Z :=
  if is_rgb_or_hsv && (colsp =? V4L2_COLORSPACE_BT2020)
  then V4L2_QUANTIZATION_LIM_RANGE
  else if is_rgb_or_hsv || (colsp =? V4L2_COLORSPACE_JPEG)
  then V4L2_QUANTIZATION_FULL_RANGE
  else V4L2_QUANTIZATION_LIM_RANGE.

(** ** Driver constants *)

Definition GC2145_CHIP_ID : Z := 0x2145.

(* Page 0 *)
Definition GC2145_REG_OUTPUT_FORMAT : Z := 0x84.
Definition GC2145_REG_CHIP_ID_H : Z := 0xF0.
Definition GC2145_REG_CHIP_ID_L : Z := 0xF1.
Definition GC2145_REG_PAD_MODE : Z := 0xF2.
Definition GC2145_REG_PAGE_SELECT : Z := 0xFE.
Definition GC2145_REG_NULL : Z := 0xFF. (* Array end token *)

Definition GC2145_OUTPUT_FMT_UYVY : Z := 0x00.
Definition GC2145_OUTPUT_FMT_VYUY : Z := 0x01.
Definition GC2145_OUTPUT_FMT_YUYV : Z := 0x02.
Definition GC2145_OUTPUT_FMT_YVYU : Z := 0x03.
Definition GC2145_OUTPUT_FMT_RGB : Z := 0x06.
Definition GC2145_OUTPUT_FMT_DNDD : Z := 0x18.
Definition GC2145_OUTPUT_FMT_LSC : Z := 0x19.

(** [struct gc2145_reg]: both fields are [unsigned char]. *)
Record gc2145_reg : Type := R { addr : Z; val : Z }.

(** ** Register tables *)

Definition gc2145_init_regs : list gc2145_reg :=
  [ R 0xfe 0xf0; R 0xfe 0xf0; R 0xfe 0xf0; R 0xfc 0x06; R 0xf6 0x00; R 0xf7 0x1d;
    R 0xf8 0x83; R 0xfa 0x00; R 0xf9 0xfe; R 0xf2 0x00; R 0xfe 0x00; R 0x03 0x04;
    R 0x04 0xe2; R 0x09 0x00; R 0x0a 0x00; R 0x0b 0x00; R 0x0c 0x00; R 0x0d 0x04;
    R 0x0e 0xc0; R 0x0f 0x06; R 0x10 0x52; R 0x12 0x2e; R 0x17 0x17; R 0x18 0x22;
    R 0x19 0x0e; R 0x1a 0x01; R 0x1b 0x4b; R 0x1c 0x07; R 0x1d 0x10; R 0x1e 0x88;
    R 0x1f 0x78; R 0x20 0x03; R 0x21 0x40; R 0x22 0xa0; R 0x24 0x16; R 0x25 0x01;
    R 0x26 0x10; R 0x2d 0x60; R 0x30 0x01; R 0x31 0x90; R 0x33 0x06; R 0x34 0x01;
    R 0xfe 0x00; R 0x80 0x7f; R 0x81 0x26; R 0x82 0xfa; R 0x83 0x00; R 0x84 0x02;
    R 0x86 0x03; R 0x88 0x03; R 0x89 0x03; R 0x85 0x08; R 0x8a 0x00; R 0x8b 0x00;
    R 0xb0 0x55; R 0xc3 0x00; R 0xc4 0x80; R 0xc5 0x90; R 0xc6 0x3b; R 0xc7 0x46;
    R 0xec 0x06; R 0xed 0x04; R 0xee 0x60; R 0xef 0x90; R 0xb6 0x01; R 0x90 0x01;
    R 0x91 0x00; R 0x92 0x00; R 0x93 0x00; R 0x94 0x00; R 0x95 0x04; R 0x96 0xb0;
    R 0x97 0x06; R 0x98 0x40; R 0xfe 0x00; R 0x40 0x42; R 0x41 0x00; R 0x43 0x5b;
    R 0x5e 0x00; R 0x5f 0x00; R 0x60 0x00; R 0x61 0x00; R 0x62 0x00; R 0x63 0x00;
    R 0x64 0x00; R 0x65 0x00; R 0x66 0x20; R 0x67 0x20; R 0x68 0x20; R 0x69 0x20;
    R 0x76 0x00; R 0x6a 0x08; R 0x6b 0x08; R 0x6c 0x08; R 0x6d 0x08; R 0x6e 0x08;
    R 0x6f 0x08; R 0x70 0x08; R 0x71 0x08; R 0x76 0x00; R 0x72 0xf0; R 0x7e 0x3c;
    R 0x7f 0x00; R 0xfe 0x02; R 0x48 0x15; R 0x49 0x00; R 0x4b 0x0b; R 0xfe 0x00;
    R 0xfe 0x01; R 0x01 0x04; R 0x02 0xc0; R 0x03 0x04; R 0x04 0x90; R 0x05 0x30;
    R 0x06 0x90; R 0x07 0x30; R 0x08 0x80; R 0x09 0x00; R 0x0a 0x82; R 0x0b 0x11;
    R 0x0c 0x10; R 0x11 0x10; R 0x13 0x7b; R 0x17 0x00; R 0x1c 0x11; R 0x1e 0x61;
    R 0x1f 0x35; R 0x20 0x40; R 0x22 0x40; R 0x23 0x20; R 0xfe 0x02; R 0x0f 0x04;
    R 0xfe 0x01; R 0x12 0x35; R 0x15 0xb0; R 0x10 0x31; R 0x3e 0x28; R 0x3f 0xb0;
    R 0x40 0x90; R 0x41 0x0f; R 0xfe 0x02; R 0x90 0x6c; R 0x91 0x03; R 0x92 0xcb;
    R 0x94 0x33; R 0x95 0x84; R 0x97 0x65; R 0xa2 0x11; R 0xfe 0x00; R 0xfe 0x02;
    R 0x80 0xc1; R 0x81 0x08; R 0x82 0x05; R 0x83 0x08; R 0x84 0x0a; R 0x86 0xf0;
    R 0x87 0x50; R 0x88 0x15; R 0x89 0xb0; R 0x8a 0x30; R 0x8b 0x10; R 0xfe 0x01;
    R 0x21 0x04; R 0xfe 0x02; R 0xa3 0x50; R 0xa4 0x20; R 0xa5 0x40; R 0xa6 0x80;
    R 0xab 0x40; R 0xae 0x0c; R 0xb3 0x46; R 0xb4 0x64; R 0xb6 0x38; R 0xb7 0x01;
    R 0xb9 0x2b; R 0x3c 0x04; R 0x3d 0x15; R 0x4b 0x06; R 0x4c 0x20; R 0xfe 0x00;
    R 0xfe 0x02; R 0x10 0x09; R 0x11 0x0d; R 0x12 0x13; R 0x13 0x19; R 0x14 0x27;
    R 0x15 0x37; R 0x16 0x45; R 0x17 0x53; R 0x18 0x69; R 0x19 0x7d; R 0x1a 0x8f;
    R 0x1b 0x9d; R 0x1c 0xa9; R 0x1d 0xbd; R 0x1e 0xcd; R 0x1f 0xd9; R 0x20 0xe3;
    R 0x21 0xea; R 0x22 0xef; R 0x23 0xf5; R 0x24 0xf9; R 0x25 0xff; R 0xfe 0x00;
    R 0xc6 0x20; R 0xc7 0x2b; R 0xfe 0x02; R 0x26 0x0f; R 0x27 0x14; R 0x28 0x19;
    R 0x29 0x1e; R 0x2a 0x27; R 0x2b 0x33; R 0x2c 0x3b; R 0x2d 0x45; R 0x2e 0x59;
    R 0x2f 0x69; R 0x30 0x7c; R 0x31 0x89; R 0x32 0x98; R 0x33 0xae; R 0x34 0xc0;
    R 0x35 0xcf; R 0x36 0xda; R 0x37 0xe2; R 0x38 0xe9; R 0x39 0xf3; R 0x3a 0xf9;
    R 0x3b 0xff; R 0xfe 0x02; R 0xd1 0x32; R 0xd2 0x32; R 0xd3 0x40; R 0xd6 0xf0;
    R 0xd7 0x10; R 0xd8 0xda; R 0xdd 0x14; R 0xde 0x86; R 0xed 0x80; R 0xee 0x00;
    R 0xef 0x3f; R 0xd8 0xd8; R 0xfe 0x01; R 0x9f 0x40; R 0xfe 0x01; R 0xc2 0x14;
    R 0xc3 0x0d; R 0xc4 0x0c; R 0xc8 0x15; R 0xc9 0x0d; R 0xca 0x0a; R 0xbc 0x24;
    R 0xbd 0x10; R 0xbe 0x0b; R 0xb6 0x25; R 0xb7 0x16; R 0xb8 0x15; R 0xc5 0x00;
    R 0xc6 0x00; R 0xc7 0x00; R 0xcb 0x00; R 0xcc 0x00; R 0xcd 0x00; R 0xbf 0x07;
    R 0xc0 0x00; R 0xc1 0x00; R 0xb9 0x00; R 0xba 0x00; R 0xbb 0x00; R 0xaa 0x01;
    R 0xab 0x01; R 0xac 0x00; R 0xad 0x05; R 0xae 0x06; R 0xaf 0x0e; R 0xb0 0x0b;
    R 0xb1 0x07; R 0xb2 0x06; R 0xb3 0x17; R 0xb4 0x0e; R 0xb5 0x0e; R 0xd0 0x09;
    R 0xd1 0x00; R 0xd2 0x00; R 0xd6 0x08; R 0xd7 0x00; R 0xd8 0x00; R 0xd9 0x00;
    R 0xda 0x00; R 0xdb 0x00; R 0xd3 0x0a; R 0xd4 0x00; R 0xd5 0x00; R 0xa4 0x00;
    R 0xa5 0x00; R 0xa6 0x77; R 0xa7 0x77; R 0xa8 0x77; R 0xa9 0x77; R 0xa1 0x80;
    R 0xa2 0x80; R 0xfe 0x01; R 0xdf 0x0d; R 0xdc 0x25; R 0xdd 0x30; R 0xe0 0x77;
    R 0xe1 0x80; R 0xe2 0x77; R 0xe3 0x90; R 0xe6 0x90; R 0xe7 0xa0; R 0xe8 0x90;
    R 0xe9 0xa0; R 0xfe 0x00; R 0xfe 0x01; R 0x4f 0x00; R 0x4f 0x00; R 0x4b 0x01;
    R 0x4f 0x00; R 0x4c 0x01; R 0x4d 0x71; R 0x4e 0x01; R 0x4c 0x01; R 0x4d 0x91;
    R 0x4e 0x01; R 0x4c 0x01; R 0x4d 0x70; R 0x4e 0x01; R 0x4c 0x01; R 0x4d 0x90;
    R 0x4e 0x02; R 0x4c 0x01; R 0x4d 0xb0; R 0x4e 0x02; R 0x4c 0x01; R 0x4d 0x8f;
    R 0x4e 0x02; R 0x4c 0x01; R 0x4d 0x6f; R 0x4e 0x02; R 0x4c 0x01; R 0x4d 0xaf;
    R 0x4e 0x02; R 0x4c 0x01; R 0x4d 0xd0; R 0x4e 0x02; R 0x4c 0x01; R 0x4d 0xf0;
    R 0x4e 0x02; R 0x4c 0x01; R 0x4d 0xcf; R 0x4e 0x02; R 0x4c 0x01; R 0x4d 0xef;
    R 0x4e 0x02; R 0x4c 0x01; R 0x4d 0x6e; R 0x4e 0x03; R 0x4c 0x01; R 0x4d 0x8e;
    R 0x4e 0x03; R 0x4c 0x01; R 0x4d 0xae; R 0x4e 0x03; R 0x4c 0x01; R 0x4d 0xce;
    R 0x4e 0x03; R 0x4c 0x01; R 0x4d 0x4d; R 0x4e 0x03; R 0x4c 0x01; R 0x4d 0x6d;
    R 0x4e 0x03; R 0x4c 0x01; R 0x4d 0x8d; R 0x4e 0x03; R 0x4c 0x01; R 0x4d 0xad;
    R 0x4e 0x03; R 0x4c 0x01; R 0x4d 0xcd; R 0x4e 0x03; R 0x4c 0x01; R 0x4d 0x4c;
    R 0x4e 0x03; R 0x4c 0x01; R 0x4d 0x6c; R 0x4e 0x03; R 0x4c 0x01; R 0x4d 0x8c;
    R 0x4e 0x03; R 0x4c 0x01; R 0x4d 0xac; R 0x4e 0x03; R 0x4c 0x01; R 0x4d 0xcc;
    R 0x4e 0x03; R 0x4c 0x01; R 0x4d 0xcb; R 0x4e 0x03; R 0x4c 0x01; R 0x4d 0x4b;
    R 0x4e 0x03; R 0x4c 0x01; R 0x4d 0x6b; R 0x4e 0x03; R 0x4c 0x01; R 0x4d 0x8b;
    R 0x4e 0x03; R 0x4c 0x01; R 0x4d 0xab; R 0x4e 0x03; R 0x4c 0x01; R 0x4d 0x8a;
    R 0x4e 0x04; R 0x4c 0x01; R 0x4d 0xaa; R 0x4e 0x04; R 0x4c 0x01; R 0x4d 0xca;
    R 0x4e 0x04; R 0x4c 0x01; R 0x4d 0xca; R 0x4e 0x04; R 0x4c 0x01; R 0x4d 0xc9;
    R 0x4e 0x04; R 0x4c 0x01; R 0x4d 0x8a; R 0x4e 0x04; R 0x4c 0x01; R 0x4d 0x89;
    R 0x4e 0x04; R 0x4c 0x01; R 0x4d 0xa9; R 0x4e 0x04; R 0x4c 0x02; R 0x4d 0x0b;
    R 0x4e 0x05; R 0x4c 0x02; R 0x4d 0x0a; R 0x4e 0x05; R 0x4c 0x01; R 0x4d 0xeb;
    R 0x4e 0x05; R 0x4c 0x01; R 0x4d 0xea; R 0x4e 0x05; R 0x4c 0x02; R 0x4d 0x09;
    R 0x4e 0x05; R 0x4c 0x02; R 0x4d 0x29; R 0x4e 0x05; R 0x4c 0x02; R 0x4d 0x2a;
    R 0x4e 0x05; R 0x4c 0x02; R 0x4d 0x4a; R 0x4e 0x05; R 0x4c 0x02; R 0x4d 0x8a;
    R 0x4e 0x06; R 0x4c 0x02; R 0x4d 0x49; R 0x4e 0x06; R 0x4c 0x02; R 0x4d 0x69;
    R 0x4e 0x06; R 0x4c 0x02; R 0x4d 0x89; R 0x4e 0x06; R 0x4c 0x02; R 0x4d 0xa9;
    R 0x4e 0x06; R 0x4c 0x02; R 0x4d 0x48; R 0x4e 0x06; R 0x4c 0x02; R 0x4d 0x68;
    R 0x4e 0x06; R 0x4c 0x02; R 0x4d 0x69; R 0x4e 0x06; R 0x4c 0x02; R 0x4d 0xca;
    R 0x4e 0x07; R 0x4c 0x02; R 0x4d 0xc9; R 0x4e 0x07; R 0x4c 0x02; R 0x4d 0xe9;
    R 0x4e 0x07; R 0x4c 0x03; R 0x4d 0x09; R 0x4e 0x07; R 0x4c 0x02; R 0x4d 0xc8;
    R 0x4e 0x07; R 0x4c 0x02; R 0x4d 0xe8; R 0x4e 0x07; R 0x4c 0x02; R 0x4d 0xa7;
    R 0x4e 0x07; R 0x4c 0x02; R 0x4d 0xc7; R 0x4e 0x07; R 0x4c 0x02; R 0x4d 0xe7;
    R 0x4e 0x07; R 0x4c 0x03; R 0x4d 0x07; R 0x4e 0x07; R 0x4f 0x01; R 0x50 0x80;
    R 0x51 0xa8; R 0x52 0x47; R 0x53 0x38; R 0x54 0xc7; R 0x56 0x0e; R 0x58 0x08;
    R 0x5b 0x00; R 0x5c 0x74; R 0x5d 0x8b; R 0x61 0xdb; R 0x62 0xb8; R 0x63 0x86;
    R 0x64 0xc0; R 0x65 0x04; R 0x67 0xa8; R 0x68 0xb0; R 0x69 0x00; R 0x6a 0xa8;
    R 0x6b 0xb0; R 0x6c 0xaf; R 0x6d 0x8b; R 0x6e 0x50; R 0x6f 0x18; R 0x73 0xf0;
    R 0x70 0x0d; R 0x71 0x60; R 0x72 0x80; R 0x74 0x01; R 0x75 0x01; R 0x7f 0x0c;
    R 0x76 0x70; R 0x77 0x58; R 0x78 0xa0; R 0x79 0x5e; R 0x7a 0x54; R 0x7b 0x58;
    R 0xfe 0x00; R 0xfe 0x02; R 0xc0 0x01; R 0xc1 0x44; R 0xc2 0xfd; R 0xc3 0x04;
    R 0xc4 0xf0; R 0xc5 0x48; R 0xc6 0xfd; R 0xc7 0x46; R 0xc8 0xfd; R 0xc9 0x02;
    R 0xca 0xe0; R 0xcb 0x45; R 0xcc 0xec; R 0xcd 0x48; R 0xce 0xf0; R 0xcf 0xf0;
    R 0xe3 0x0c; R 0xe4 0x4b; R 0xe5 0xe0; R 0xfe 0x01; R 0x9f 0x40; R 0xfe 0x00;
    R 0xfe 0x00; R 0xf2 0x0f; R 0xfe 0x02; R 0x40 0xbf; R 0x46 0xcf; R 0xfe 0x00;
    R 0xfe 0x00; R 0x05 0x01; R 0x06 0x56; R 0x07 0x00; R 0x08 0x32; R 0xfe 0x01;
    R 0x25 0x00; R 0x26 0xfa; R 0x27 0x04; R 0x28 0xe2; R 0x29 0x06; R 0x2a 0xd6;
    R 0x2b 0x07; R 0x2c 0xd0; R 0x2d 0x0b; R 0x2e 0xb8; R 0xfe 0x00; R 0xfe 0x00;
    R 0xfd 0x01; R 0xfa 0x00; R 0xfe 0x00; R 0x90 0x01; R 0x91 0x00; R 0x92 0x00;
    R 0x93 0x00; R 0x94 0x00; R 0x95 0x02; R 0x96 0x58; R 0x97 0x03; R 0x98 0x20;
    R 0x99 0x11; R 0x9a 0x06; R 0xfe 0x00; R 0xec 0x02; R 0xed 0x02; R 0xee 0x30;
    R 0xef 0x48; R 0xfe 0x02; R 0x9d 0x08; R 0xfe 0x01; R 0x74 0x00; R 0xfe 0x01;
    R 0x01 0x04; R 0x02 0x60; R 0x03 0x02; R 0x04 0x48; R 0x05 0x18; R 0x06 0x50;
    R 0x07 0x10; R 0x08 0x38; R 0x0a 0x80; R 0x21 0x04; R 0xfe 0x00; R 0x20 0x03;
    R 0xfe 0x00; R GC2145_REG_NULL 0x00 ].

Definition gc2145_setting_qvga : list gc2145_reg :=
  [ R 0xfe 0x00; R 0xb6 0x01; R 0xfd 0x01; R 0xfa 0x00; R 0xfe 0x00; R 0x90 0x01;
    R 0x91 0x00; R 0x92 0x00; R 0x93 0x00; R 0x94 0x00; R 0x95 0x00; R 0x96 0xf0;
    R 0x97 0x01; R 0x98 0x40; R 0x99 0x55; R 0x9a 0x06; R 0x9b 0x01; R 0x9c 0x00;
    R 0x9d 0x00; R 0x9e 0x00; R 0x9f 0x01; R 0xa0 0x00; R 0xa1 0x00; R 0xa2 0x00;
    R 0xfe 0x00; R 0xec 0x02; R 0xed 0x02; R 0xee 0x30; R 0xef 0x48; R 0xfe 0x02;
    R 0x9d 0x08; R 0xfe 0x01; R 0x74 0x00; R 0xfe 0x01; R 0x01 0x04; R 0x02 0x60;
    R 0x03 0x02; R 0x04 0x48; R 0x05 0x18; R 0x06 0x50; R 0x07 0x10; R 0x08 0x38;
    R 0x0a 0x80; R 0x21 0x04; R 0xfe 0x00; R 0x20 0x03; R 0xfe 0x00; R GC2145_REG_NULL 0x00 ].

Definition gc2145_setting_vga : list gc2145_reg :=
  [ R 0xfe 0x00; R 0xb6 0x01; R 0xfd 0x01; R 0xfa 0x00; R 0xfe 0x00; R 0x90 0x01;
    R 0x91 0x00; R 0x92 0x00; R 0x93 0x00; R 0x94 0x00; R 0x95 0x01; R 0x96 0xe0;
    R 0x97 0x02; R 0x98 0x80; R 0x99 0x55; R 0x9a 0x06; R 0x9b 0x01; R 0x9c 0x23;
    R 0x9d 0x00; R 0x9e 0x00; R 0x9f 0x01; R 0xa0 0x23; R 0xa1 0x00; R 0xa2 0x00;
    R 0xfe 0x00; R 0xec 0x02; R 0xed 0x02; R 0xee 0x30; R 0xef 0x48; R 0xfe 0x02;
    R 0x9d 0x08; R 0xfe 0x01; R 0x74 0x00; R 0xfe 0x01; R 0x01 0x04; R 0x02 0x60;
    R 0x03 0x02; R 0x04 0x48; R 0x05 0x18; R 0x06 0x50; R 0x07 0x10; R 0x08 0x38;
    R 0x0a 0x80; R 0x21 0x04; R 0xfe 0x00; R 0x20 0x03; R 0xfe 0x00; R GC2145_REG_NULL 0x00 ].

Definition gc2145_setting_svga : list gc2145_reg :=
  [ R 0xfe 0x00; R 0x05 0x02; R 0x06 0x20; R 0x07 0x03; R 0x08 0x80; R 0xb6 0x01;
    R 0xfd 0x03; R 0xfa 0x00; R 0x18 0x42; R 0xfe 0x00; R 0x90 0x01; R 0x91 0x00;
    R 0x92 0x00; R 0x93 0x00; R 0x94 0x00; R 0x95 0x02; R 0x96 0x58; R 0x97 0x03;
    R 0x98 0x20; R 0x99 0x11; R 0x9a 0x06; R 0xfe 0x00; R 0xec 0x02; R 0xed 0x02;
    R 0xee 0x30; R 0xef 0x48; R 0xfe 0x02; R 0x9d 0x08; R 0xfe 0x01; R 0x74 0x00;
    R 0xfe 0x01; R 0x01 0x04; R 0x02 0x60; R 0x03 0x02; R 0x04 0x48; R 0x05 0x18;
    R 0x06 0x50; R 0x07 0x10; R 0x08 0x38; R 0x0a 0x80; R 0x21 0x04; R 0xfe 0x00;
    R 0x20 0x03; R 0xfe 0x00; R GC2145_REG_NULL 0x00 ].

Definition gc2145_setting_uxga : list gc2145_reg :=
  [ R 0xfe 0x00; R 0xfd 0x00; R 0xfa 0x11; R 0xfe 0x00; R 0x90 0x01; R 0x91 0x00;
    R 0x92 0x00; R 0x93 0x00; R 0x94 0x00; R 0x95 0x04; R 0x96 0xb0; R 0x97 0x06;
    R 0x98 0x40; R 0x99 0x11; R 0x9a 0x06; R 0xfe 0x00; R 0xec 0x06; R 0xed 0x04;
    R 0xee 0x60; R 0xef 0x90; R 0xfe 0x01; R 0x74 0x01; R 0xfe 0x01; R 0x01 0x04;
    R 0x02 0xc0; R 0x03 0x04; R 0x04 0x90; R 0x05 0x30; R 0x06 0x90; R 0x07 0x30;
    R 0x08 0x80; R 0x0a 0x82; R 0xfe 0x01; R 0x21 0x15; R 0xfe 0x00; R 0x20 0x15;
    R 0xfe 0x00; R GC2145_REG_NULL 0x00 ].

Definition gc2145_fmt_yuv422_yuyv : list gc2145_reg :=
  [ R 0x84 0x02 ].

Definition gc2145_fmt_yuv422_yvyu : list gc2145_reg :=
  [ R 0x84 0x03 ].

Definition gc2145_fmt_yuv422_vyuy : list gc2145_reg :=
  [ R 0x84 0x01 ].

Definition gc2145_fmt_yuv422_uyvy : list gc2145_reg :=
  [ R 0x84 0x00 ].

Definition gc2145_fmt_raw : list gc2145_reg :=
  [ R 0x84 0x18 ].

(** ** Format and mode catalogs *)

Record gc2145_pixfmt : Type := mk_pixfmt {
  pix_code : Z;
  pix_colorspace : Z;
  output_fmt : Z;
  fmt_reg : list gc2145_reg
}.

Definition gc2145_format_list : list gc2145_pixfmt :=
  (* First one is the default format *)
  [ mk_pixfmt MEDIA_BUS_FMT_UYVY8_2X8 V4L2_COLORSPACE_SRGB
              GC2145_OUTPUT_FMT_UYVY gc2145_fmt_yuv422_uyvy;
    mk_pixfmt MEDIA_BUS_FMT_VYUY8_2X8 V4L2_COLORSPACE_JPEG
              GC2145_OUTPUT_FMT_VYUY gc2145_fmt_yuv422_vyuy;
    mk_pixfmt MEDIA_BUS_FMT_YUYV8_2X8 V4L2_COLORSPACE_SRGB
              GC2145_OUTPUT_FMT_YUYV gc2145_fmt_yuv422_yuyv;
    mk_pixfmt MEDIA_BUS_FMT_YVYU8_2X8 V4L2_COLORSPACE_JPEG
              GC2145_OUTPUT_FMT_YVYU gc2145_fmt_yuv422_yvyu;
    mk_pixfmt MEDIA_BUS_FMT_RGB565_2X8_BE V4L2_COLORSPACE_SRGB
              GC2145_OUTPUT_FMT_RGB gc2145_fmt_raw;
    mk_pixfmt MEDIA_BUS_FMT_SBGGR8_1X8 V4L2_COLORSPACE_RAW
              GC2145_OUTPUT_FMT_LSC gc2145_fmt_raw ].

Definition GC2145_QVGA_WIDTH : Z := 320.
Definition GC2145_QVGA_HEIGHT : Z := 240.
Definition GC2145_VGA_WIDTH : Z := 640.
Definition GC2145_VGA_HEIGHT : Z := 480.
Definition GC2145_SVGA_WIDTH : Z := 800.
Definition GC2145_SVGA_HEIGHT : Z := 600.
Definition GC2145_UXGA_WIDTH : Z := 1600.
Definition GC2145_UXGA_HEIGHT : Z := 1200.

Inductive gc2145_mode_id : Type :=
| GC2145_MODE_QVGA_320_240
| GC2145_MODE_VGA_640_480
| GC2145_MODE_SVGA_800_600
| GC2145_MODE_UXGA_1600_1200.

Definition GC2145_MODE_NUM : Z := 4.

Definition mode_index (m : gc2145_mode_id) : nat :=
  match m with
  | GC2145_MODE_QVGA_320_240 => 0%nat
  | GC2145_MODE_VGA_640_480 => 1%nat
  | GC2145_MODE_SVGA_800_600 => 2%nat
  | GC2145_MODE_UXGA_1600_1200 => 3%nat
  end.

Record gc2145_mode : Type := mk_mode {
  mode_id : gc2145_mode_id;
  hact : Z; (* Width *)
  htot : Z;
  vact : Z; (* Height *)
  vtot : Z;
  reg_list : list gc2145_reg;
  reg_list_size : Z
}.

Definition ARRAY_SIZE {A : Type} (a : list A) : Z := Z.of_nat (length a).

Definition gc2145_mode_list : list gc2145_mode :=
  [ mk_mode GC2145_MODE_QVGA_320_240 320 320 240 240
            gc2145_setting_qvga (ARRAY_SIZE gc2145_setting_qvga);
    mk_mode GC2145_MODE_VGA_640_480 640 640 480 480
            gc2145_setting_vga (ARRAY_SIZE gc2145_setting_vga);
    mk_mode GC2145_MODE_SVGA_800_600 800 800 600 600
            gc2145_setting_svga (ARRAY_SIZE gc2145_setting_svga);
    mk_mode GC2145_MODE_UXGA_1600_1200 1600 1600 1200 1200
            gc2145_setting_uxga (ARRAY_SIZE gc2145_setting_uxga) ].

(** ** Hardware state and the effect monad *)

(** One I2C message sequence handed to [i2c_transfer]: a register write
    (two bytes out) or a register read (one byte out, one byte in). *)
Inductive xfer : Type :=
| XWrite (reg value : Z)
| XRead (reg : Z).

(** The bus behind [struct i2c_client].  [adapter_ret] is the value
    [i2c_transfer] returns for a message, given every message dispatched
    before it (negative: NAK, timeout, ...); [adapter_rx] is the byte the
    device puts on the bus for a read. *)
Record i2c_client : Type := mk_client {
  adapter_ret : list xfer -> xfer -> Z;
  adapter_rx : list xfer -> Z -> Z
}.

Inductive gpio_line : Type := PWDN | RESET.

Record hw : Type := mk_hw {
  bus : list xfer;                  (* messages dispatched, oldest first *)
  slept_ms : Z;                     (* total of mdelay() *)
  slept_us : Z;                     (* total of udelay() *)
  pwdn_level : Z;                   (* power-down line *)
  reset_level : Z;                  (* reset line *)
  gpio_trace : list (gpio_line * Z);(* gpiod_set_value calls, oldest first *)
  xclk_enabled : Z;                 (* enable count of the reference clock *)
  warnings : Z                      (* WARN_ON() hits *)
}.

Definition M (A : Type) : Type := hw -> A * hw.

Definition mret {A : Type} (a : A) : M A := fun w => (a, w).

Definition mbind {A B : Type} (m : M A) (k : A -> M B) : M B :=
  fun w => let (a, w') := m w in k a w'.

Notation "x <- m ;; k" := (mbind m (fun x => k))
  (at level 61, m at next level, right associativity).
Notation "m ;;; k" := (mbind m (fun _ => k))
  (at level 61, right associativity).

Definition i2c_transfer (client : i2c_client) (msg : xfer) : M Z :=
  fun w =>
    (adapter_ret client (bus w) msg,
     mk_hw (bus w ++ [msg]) (slept_ms w) (slept_us w) (pwdn_level w)
           (reset_level w) (gpio_trace w) (xclk_enabled w) (warnings w)).

(** A read transfer: the return code, and the byte received in the
    message buffer. *)
Definition i2c_transfer_rx (client : i2c_client) (reg : Z) : M (Z * Z) :=
  fun w =>
    let (ret, w') := i2c_transfer client (XRead reg) w in
    ((ret, wrap_u8 (adapter_rx client (bus w) reg)), w').

Definition mdelay (ms : Z) : M unit :=
  fun w =>
    (tt, mk_hw (bus w) (slept_ms w + ms) (slept_us w) (pwdn_level w)
               (reset_level w) (gpio_trace w) (xclk_enabled w) (warnings w)).

Definition udelay (us : Z) : M unit :=
  fun w =>
    (tt, mk_hw (bus w) (slept_ms w) (slept_us w + us) (pwdn_level w)
               (reset_level w) (gpio_trace w) (xclk_enabled w) (warnings w)).

Definition gpiod_set_value_cansleep (line : gpio_line) (v : Z) : M unit :=
  fun w =>
    (tt, mk_hw (bus w) (slept_ms w) (slept_us w)
               (match line with PWDN => v | RESET => pwdn_level w end)
               (match line with RESET => v | PWDN => reset_level w end)
               (gpio_trace w ++ [(line, v)]) (xclk_enabled w) (warnings w)).

Definition clk_disable_unprepare : M unit :=
  fun w =>
    (tt, mk_hw (bus w) (slept_ms w) (slept_us w) (pwdn_level w)
               (reset_level w) (gpio_trace w) (xclk_enabled w - 1) (warnings w)).

Definition WARN_ON (cond : bool) : M unit :=
  fun w =>
    (tt, mk_hw (bus w) (slept_ms w) (slept_us w) (pwdn_level w)
               (reset_level w) (gpio_trace w) (xclk_enabled w)
               (if cond then warnings w + 1 else warnings w)).

(** ** Register access *)

Definition gc2145_write_reg (client : i2c_client) (reg value : Z) : M Z :=
  ret <- i2c_transfer client (XWrite reg value) ;;
  if ret <? 0 then mret ret else mret 0.

(** [gc2145_read_reg client reg val]: the result pairs the return code with
    the content of [*val] afterwards; [old] is its content before the
    call, kept when the transfer fails. *)
Definition gc2145_read_reg (client : i2c_client) (reg old : Z) : M (Z * Z) :=
  r <- i2c_transfer_rx client reg ;;
  if fst r <? 0 then mret (fst r, old) else mret (0, snd r).

(** The body of the [for] loop of [gc2145_write_array]; [ret] is the
    local of that name, the recursion on the rows still to visit is the
    loop counter, and the early [mret] is the [break]. *)
Fixpoint write_array_loop (client : i2c_client) (regs : list gc2145_reg)
    (ret : Z) : M Z :=
  match regs with
  | [] => mret ret
  | r :: rest =>
      if addr r =? GC2145_REG_NULL then
        mdelay (val r) ;;; write_array_loop client rest ret
      else
        ret' <- gc2145_write_reg client (addr r) (val r) ;;
        if ret' <? 0 then mret ret'
        else write_array_loop client rest ret'
  end.

(** [gc2145_write_array client regs size].  A C array argument is a
    pointer with its length: [None] is the NULL pointer, a list stands for
    the rows [regs[0..size-1]] ([size] is its length, as at every call
    site, which passes ARRAY_SIZE). *)
Definition gc2145_write_array (client : option i2c_client)
    (regs : option (list gc2145_reg)) : M Z :=
  match client with
  | None => mret (- EINVAL)
  | Some c =>
      match regs with
      | None => mret (- EINVAL)
      | Some rows =>
          if ARRAY_SIZE rows =? 0 then mret (- EINVAL)
          else write_array_loop c rows 0
      end
  end.

(** ** Driver state and the structures of the pad operations *)

Record v4l2_mbus_framefmt : Type := mk_framefmt {
  width : Z;
  height : Z;
  code : Z;
  field : Z;
  colorspace : Z;
  ycbcr_enc : Z;
  quantization : Z;
  xfer_func : Z
}.

Record v4l2_subdev_pad_config : Type := mk_cfg {
  try_fmt : v4l2_mbus_framefmt
}.

Record v4l2_subdev_format : Type := mk_format {
  which : Z;
  pad : Z;
  format : v4l2_mbus_framefmt
}.

Record v4l2_subdev_mbus_code_enum : Type := mk_code_enum {
  mce_pad : Z;
  mce_index : Z;
  mce_code : Z
}.

Record v4l2_subdev_frame_size_enum : Type := mk_fse {
  fse_index : Z;
  fse_pad : Z;
  fse_code : Z;
  min_width : Z;
  max_width : Z;
  min_height : Z;
  max_height : Z
}.

(** [struct gc2145_dev].  The two GPIO descriptors are optional in the
    device tree: [false] is the NULL descriptor.  Mode pointers are either
    NULL or point into [gc2145_mode_list]. *)
Record gc2145_dev : Type := mk_dev {
  fmt : v4l2_mbus_framefmt;
  client_of : i2c_client;
  reset_gpio : bool;
  pwdn_gpio : bool;
  current_mode : option gc2145_mode;
  last_mode : option gc2145_mode;
  power_count : Z
}.

Definition set_fmt_field (s : gc2145_dev) (f : v4l2_mbus_framefmt) : gc2145_dev :=
  mk_dev f (client_of s) (reset_gpio s) (pwdn_gpio s) (current_mode s)
         (last_mode s) (power_count s).

Definition set_current_mode (s : gc2145_dev) (m : option gc2145_mode) : gc2145_dev :=
  mk_dev (fmt s) (client_of s) (reset_gpio s) (pwdn_gpio s) m
         (last_mode s) (power_count s).

Definition set_last_mode (s : gc2145_dev) (m : option gc2145_mode) : gc2145_dev :=
  mk_dev (fmt s) (client_of s) (reset_gpio s) (pwdn_gpio s) (current_mode s)
         m (power_count s).

Definition set_power_count (s : gc2145_dev) (n : Z) : gc2145_dev :=
  mk_dev (fmt s) (client_of s) (reset_gpio s) (pwdn_gpio s) (current_mode s)
         (last_mode s) n.

(** A C function whose array subscript can leave the array either returns
    or has no defined behaviour. *)
Inductive outcome (A : Type) : Type :=
| Returns (a : A)
| OutOfBounds.
Arguments Returns {A} a.
Arguments OutOfBounds {A}.

(** ** Enumeration and lookup *)

Definition gc2145_enum_mbus_code (e : v4l2_subdev_mbus_code_enum)
    : Z * v4l2_subdev_mbus_code_enum :=
  if negb (mce_pad e =? 0) then (- EINVAL, e)
  else if mce_index e >=? ARRAY_SIZE gc2145_format_list then (- EINVAL, e)
  else
    match nth_error gc2145_format_list (Z.to_nat (mce_index e)) with
    | Some p => (0, mk_code_enum (mce_pad e) (mce_index e) (pix_code p))
    | None => (- EINVAL, e) (* excluded by the bound above *)
    end.

(** The [for] loop of [gc2145_find_pixfmt]: the value of [i] when the loop
    is left, either by [break] at the first row whose code matches or at the
    end of the array. *)
Fixpoint find_pixfmt_loop (rows : list gc2145_pixfmt) (c : Z) (i : Z) : Z :=
  match rows with
  | [] => i
  | p :: rest => if pix_code p =? c then i else find_pixfmt_loop rest c (i + 1)
  end.

Definition find_pixfmt_index (c : Z) : Z :=
  let i := find_pixfmt_loop gc2145_format_list c 0 in
  if i >=? ARRAY_SIZE gc2145_format_list then 0 else i.

Definition gc2145_find_pixfmt (c : Z) : gc2145_pixfmt :=
  nth (Z.to_nat (find_pixfmt_index c)) gc2145_format_list
      (mk_pixfmt 0 0 0 []).

Definition gc2145_enum_frame_size (fse : v4l2_subdev_frame_size_enum)
    : outcome (Z * v4l2_subdev_frame_size_enum) :=
  if fse_index fse >=? ARRAY_SIZE gc2145_format_list then Returns (- EINVAL, fse)
  else
    let gc2145_pixfmt := gc2145_find_pixfmt (fse_code fse) in
    let c := pix_code gc2145_pixfmt in
    if negb (fse_code fse =? c) then Returns (- EINVAL, fse)
    else
      match nth_error gc2145_mode_list (Z.to_nat (fse_index fse)) with
      | None => OutOfBounds
      | Some m =>
          Returns (0, mk_fse (fse_index fse) (fse_pad fse) (fse_code fse)
                             (hact m) (hact m) (vact m) (vact m))
      end.

(** Modelled from the spec: [v4l2_find_nearest_size] is a helper of the
    media framework whose source is not part of the driver.  Section 4.4
    step 2 of the specification describes it: search the catalog for the
    entry nearest the requested (width, height), ties broken by catalog
    order (the first listed wins).  [size_error] is the distance used for
    "nearest": the sum of the absolute width and height differences. *)
Definition size_error (m : gc2145_mode) (w h : Z) : Z :=
  Z.abs (hact m - w) + Z.abs (vact m - h).

(** Modelled from the spec: the scan of [v4l2_find_nearest_size]; [best] is
    the nearest entry so far, replaced only by a strictly nearer one. *)
Fixpoint nearest_size_loop (array : list gc2145_mode) (w h : Z)
    (best : option gc2145_mode) : option gc2145_mode :=
  match array with
  | [] => best
  | m :: rest =>
      match best with
      | None => nearest_size_loop rest w h (Some m)
      | Some b =>
          if size_error m w h <? size_error b w h
          then nearest_size_loop rest w h (Some m)
          else nearest_size_loop rest w h best
      end
  end.

(** Modelled from the spec: [v4l2_find_nearest_size], the framework helper
    missing from the source; NULL ([None]) on an empty catalog. *)
Definition v4l2_find_nearest_size (array : list gc2145_mode) (w h : Z)
    : option gc2145_mode :=
  nearest_size_loop array w h None.

(** [width] and [height] are [int]; the mode's dimensions are
    [unsigned int], so the comparisons convert the request. *)
Definition gc2145_find_mode (sensor : gc2145_dev) (w h : Z) (nearest : bool)
    : option gc2145_mode :=
  match v4l2_find_nearest_size gc2145_mode_list w h with
  | None => None
  | Some mode =>
      if negb nearest
         && (negb (hact mode =? wrap_u32 w) || negb (vact mode =? wrap_u32 h))
      then None
      else Some mode
  end.

(** [new_mode] is an out-pointer: [None] is NULL, [Some slot] a pointer to
    a slot holding [slot].  The result carries the return code, [*mbus_fmt]
    and the slot afterwards. *)
Definition gc2145_try_fmt_internal (sensor : gc2145_dev)
    (mbus_fmt : v4l2_mbus_framefmt) (new_mode : option (option gc2145_mode))
    : Z * v4l2_mbus_framefmt * option (option gc2145_mode) :=
  match new_mode with
  | None => (- EINVAL, mbus_fmt, new_mode)
  | Some _ =>
      (* Find mode *)
      match gc2145_find_mode sensor (wrap_int (width mbus_fmt))
                             (wrap_int (height mbus_fmt)) true with
      | None => (- EINVAL, mbus_fmt, new_mode)
      | Some mode =>
          (* Find pix_fmt *)
          let pix_fmt := gc2145_find_pixfmt (code mbus_fmt) in
          let cs := pix_colorspace pix_fmt in
          let enc := V4L2_MAP_YCBCR_ENC_DEFAULT cs in
          (0,
           mk_framefmt (hact mode) (vact mode) (pix_code pix_fmt)
                       V4L2_FIELD_NONE cs enc
                       (V4L2_MAP_QUANTIZATION_DEFAULT true cs enc)
                       (V4L2_MAP_XFER_FUNC_DEFAULT cs),
           Some (Some mode))
      end
  end.

Definition gc2145_get_fmt (sensor : gc2145_dev) (cfg : v4l2_subdev_pad_config)
    (f : v4l2_subdev_format) : Z * v4l2_subdev_format :=
  if negb (pad f =? 0) then (- EINVAL, f)
  else
    let src := if which f =? V4L2_SUBDEV_FORMAT_TRY then try_fmt cfg
               else fmt sensor in
    (0, mk_format (which f) (pad f) src).

(** The second argument of the source is only printed. *)
Definition gc2145_params_set (sensor : gc2145_dev) (f : v4l2_mbus_framefmt)
    : M Z :=
  let pixfmt := gc2145_find_pixfmt (code (fmt sensor)) in
  (* Init *)
  ret <- gc2145_write_array (Some (client_of sensor)) (Some gc2145_init_regs) ;;
  if ret <? 0 then mret ret else
  (* Set the output format *)
  ret <- gc2145_write_reg (client_of sensor) GC2145_REG_PAGE_SELECT 0x00 ;;
  if ret <? 0 then mret ret else
  let row := hd (R 0 0) (fmt_reg pixfmt) in
  ret <- gc2145_write_reg (client_of sensor) (addr row) (val row) ;;
  if ret <? 0 then mret ret else
  mret 0.

(** Everything [gc2145_set_fmt] can change: the driver state, the try
    format of the file handle and the caller's request structure. *)
Record set_fmt_result : Type := mk_set_fmt_result {
  sf_ret : Z;
  sf_sensor : gc2145_dev;
  sf_cfg : v4l2_subdev_pad_config;
  sf_format : v4l2_subdev_format
}.

Definition gc2145_set_fmt (sensor : gc2145_dev) (cfg : v4l2_subdev_pad_config)
    (f : v4l2_subdev_format) : M set_fmt_result :=
  if negb (pad f =? 0) then mret (mk_set_fmt_result (- EINVAL) sensor cfg f)
  else
    let requested := format f in
    let mbus_fmt_in :=
      mk_framefmt 800 600 (code requested) (field requested)
                  (colorspace requested) (ycbcr_enc requested)
                  (quantization requested) (xfer_func requested) in
    match gc2145_try_fmt_internal sensor mbus_fmt_in (Some None) with
    | (ret, mbus_fmt_in, new_mode) =>
        let f := mk_format (which f) (pad f) mbus_fmt_in in
        if negb (ret =? 0) then mret (mk_set_fmt_result ret sensor cfg f)
        else
          (* *mbus_fmt_out = *mbus_fmt_in *)
          let cfg := if which f =? V4L2_SUBDEV_FORMAT_TRY
                     then mk_cfg mbus_fmt_in else cfg in
          let sensor := if which f =? V4L2_SUBDEV_FORMAT_TRY
                        then sensor else set_fmt_field sensor mbus_fmt_in in
          if which f =? V4L2_SUBDEV_FORMAT_ACTIVE then
            let sensor :=
              set_current_mode sensor
                (match new_mode with Some slot => slot | None => None end) in
            ret <- gc2145_params_set sensor (fmt sensor) ;;
            mret (mk_set_fmt_result ret sensor cfg f)
          else mret (mk_set_fmt_result ret sensor cfg f)
    end.

(** ** Power sequencing *)

Definition gc2145_power (sensor : gc2145_dev) (enable : bool) : M Z :=
  if negb (pwdn_gpio sensor) then mret (-1)
  else
    (if enable then
       gpiod_set_value_cansleep PWDN 1 ;;;
       udelay 100 ;;;
       gpiod_set_value_cansleep PWDN 0
     else
       gpiod_set_value_cansleep PWDN 1) ;;;
    udelay 100 ;;;
    mret 0.

Definition gc2145_reset (sensor : gc2145_dev) : M Z :=
  if negb (reset_gpio sensor) then mret (-1)
  else
    (* camera power cycle *)
    gpiod_set_value_cansleep RESET 1 ;;;
    udelay 100 ;;;
    gpiod_set_value_cansleep RESET 0 ;;;
    udelay 100 ;;;
    mret 0.

(** [None] is the NULL [sensor] pointer. *)
Definition gc2145_set_power_on (sensor : option gc2145_dev) : M Z :=
  match sensor with
  | None => mret (-1)
  | Some s =>
      r <- gc2145_power s true ;;
      if negb (r =? 0) then mret (-1) else
      r <- gc2145_reset s ;;
      if negb (r =? 0) then mret (-1) else
      mret 0
  end.

Definition gc2145_set_power_off (sensor : gc2145_dev) : M Z :=
  r <- gc2145_power sensor false ;;
  if negb (r =? 0) then mret (-1) else
  clk_disable_unprepare ;;;
  mret 0.

Definition gc2145_s_power (sensor : gc2145_dev) (on : Z) : M (Z * gc2145_dev) :=
  ret <- (if power_count sensor =? c_not on
          then gc2145_set_power_on (Some sensor)
          else mret 0) ;;
  if negb (ret =? 0) then mret (ret, sensor)
  else
    (* Update the power count. *)
    let sensor :=
      set_power_count sensor
        (wrap_int (power_count sensor + (if negb (on =? 0) then 1 else -1))) in
    WARN_ON (power_count sensor <? 0) ;;;
    mret (ret, sensor).

(** ** Flip controls *)

Definition gc2145_s_vflip (client : i2c_client) (value : Z) : M Z :=
  ret <- gc2145_write_reg client 0xfe 0x00 ;; (* page 0 *)
  if ret <? 0 then mret ret else
  r <- gc2145_read_reg client 0x17 0x00 ;;
  let (ret, regs_val) := r in
  if ret <? 0 then mret ret else
  match (if value =? 0 then Some (wrap_u8 (Z.land regs_val 0xfd))
         else if value =? 1 then Some (wrap_u8 (Z.lor regs_val 0x02))
         else None) with
  | None => mret (- EINVAL)
  | Some regs_val =>
      ret <- gc2145_write_reg client 0x17 regs_val ;;
      if ret <? 0 then mret ret else
      mdelay 20 ;;;
      mret 0
  end.

Definition gc2145_s_hflip (client : i2c_client) (value : Z) : M Z :=
  ret <- gc2145_write_reg client 0xfe 0x00 ;; (* page 0 *)
  if ret <? 0 then mret ret else
  r <- gc2145_read_reg client 0x17 0x00 ;;
  let (ret, regs_val) := r in
  if ret <? 0 then mret ret else
  match (if value =? 0 then Some (wrap_u8 (Z.land regs_val 0xfe))
         else if value =? 1 then Some (wrap_u8 (Z.lor regs_val 0x01))
         else None) with
  | None => mret (- EINVAL)
  | Some regs_val =>
      ret <- gc2145_write_reg client 0x17 regs_val ;;
      if ret <? 0 then mret ret else
      mdelay 20 ;;;
      mret 0
  end.

Definition gc2145_s_ctrl (client : i2c_client) (id value : Z) : M Z :=
  if id =? V4L2_CID_VFLIP then gc2145_s_vflip client value
  else if id =? V4L2_CID_HFLIP then gc2145_s_hflip client value
  else mret (- EINVAL).

(** ** Identification *)

(** [chip_id] is the content of the uninitialised local array of that
    name; a failed read leaves its byte as it was. *)
Definition gc2145_check_chip_id (sensor : gc2145_dev) (chip_id : Z * Z) : M Z :=
  ret <- gc2145_set_power_on (Some sensor) ;;
  if negb (ret =? 0) then mret ret else
  r0 <- gc2145_read_reg (client_of sensor) GC2145_REG_CHIP_ID_H (fst chip_id) ;;
  r1 <- gc2145_read_reg (client_of sensor) GC2145_REG_CHIP_ID_L (snd chip_id) ;;
  let chip_id0 := snd r0 in
  let chip_id1 := snd r1 in
  if negb (chip_id0 =? Z.land (Z.shiftr GC2145_CHIP_ID 8) 0xFF)
     && negb (chip_id1 =? Z.land GC2145_REG_CHIP_ID_L 0xFF)
  then
    gc2145_set_power_off sensor ;;;
    mret (- ENXIO)
  else mret 0.

(** ** Default state at probe time *)

Definition gc2145_mode_set_default (sensor : gc2145_dev) : gc2145_dev :=
  let f0 := nth 0 gc2145_format_list (mk_pixfmt 0 0 0 []) in
  let svga := nth_error gc2145_mode_list (mode_index GC2145_MODE_SVGA_800_600) in
  let cs := pix_colorspace f0 in
  let enc := V4L2_MAP_YCBCR_ENC_DEFAULT cs in
  let f :=
    mk_framefmt (match svga with Some m => hact m | None => 0 end)
                (match svga with Some m => vact m | None => 0 end)
                (pix_code f0) V4L2_FIELD_NONE cs enc
                (V4L2_MAP_QUANTIZATION_DEFAULT true cs enc)
                (V4L2_MAP_XFER_FUNC_DEFAULT cs) in
  set_last_mode (set_current_mode (set_fmt_field sensor f) svga) svga.

(** ** Specification vocabulary *)

(** A delay marker: a row whose address is the reserved [GC2145_REG_NULL]. *)
Definition is_delay (r : gc2145_reg) : bool := addr r =? GC2145_REG_NULL.

(** The bus writes a register program asks for, in program order. *)
Definition writes_of (regs : list gc2145_reg) : list xfer :=
  map (fun r => XWrite (addr r) (val r))
      (filter (fun r => negb (is_delay r)) regs).

(** The milliseconds encoded by the delay markers of a program. *)
Definition delay_of (regs : list gc2145_reg) : Z :=
  fold_right Z.add 0 (map val (filter is_delay regs)).

(** On a bus whose log is [log], the messages [ws] are dispatched in order
    and the [k]-th of them (counting from 1) is the first one the adapter
    refuses, with error [e]. *)
Definition fails_first_at (c : i2c_client) (log ws : list xfer)
    (k : nat) (e : Z) : Prop :=
  (1 <= k)%nat /\ e < 0 /\
  (forall j x, (j < k - 1)%nat -> nth_error ws j = Some x ->
               0 <= adapter_ret c (log ++ firstn j ws) x) /\
  (exists x, nth_error ws (k - 1) = Some x /\
             adapter_ret c (log ++ firstn (k - 1) ws) x = e).

(** The adapter accepts each of [ws] when they are dispatched in order. *)
Definition accepts_all (c : i2c_client) (log ws : list xfer) : Prop :=
  forall j x, nth_error ws j = Some x ->
              0 <= adapter_ret c (log ++ firstn j ws) x.

(** Reference semantics of fail-fast dispatch: send [ws] in order, stop at
    the first refusal.  The result is the return code and the bus log. *)
Fixpoint dispatch (c : i2c_client) (log ws : list xfer) : Z * list xfer :=
  match ws with
  | [] => (0, log)
  | x :: rest =>
      if adapter_ret c log x <? 0 then (adapter_ret c log x, log ++ [x])
      else dispatch c (log ++ [x]) rest
  end.

(** The rows of a program that the transport lets the driver reach, on a
    bus whose log is [log]: every row up to and including the first write
    the adapter refuses, all of the program when it refuses none.  Delay
    markers never stop the walk. *)
Fixpoint visited (c : i2c_client) (log : list xfer) (regs : list gc2145_reg)
    : list gc2145_reg :=
  match regs with
  | [] => []
  | r :: rest =>
      if is_delay r then r :: visited c log rest
      else if adapter_ret c log (XWrite (addr r) (val r)) <? 0 then [r]
      else r :: visited c (log ++ [XWrite (addr r) (val r)]) rest
  end.

(** Everything but the bus log and the millisecond clock. *)
Definition same_lines (w w' : hw) : Prop :=
  slept_us w' = slept_us w /\ pwdn_level w' = pwdn_level w /\
  reset_level w' = reset_level w /\ gpio_trace w' = gpio_trace w /\
  xclk_enabled w' = xclk_enabled w /\ warnings w' = warnings w.

(** Test doubles: an adapter that acknowledges everything, one that
    refuses everything, and one that refuses from the [n]-th message on. *)
Definition ack_client (rx : Z -> Z) : i2c_client :=
  mk_client (fun _ _ => 1) (fun _ reg => rx reg).

Definition nak_client : i2c_client :=
  mk_client (fun _ _ => -5) (fun _ _ => 0).

Definition nak_after (n : nat) : i2c_client :=
  mk_client (fun log _ => if (length log <? n)%nat then 1 else -5)
            (fun _ _ => 0).

(** A short program with a delay marker in the middle, and one made of
    delay markers only. *)
Definition sample_program : list gc2145_reg :=
  [R 0xfe 0x00; R GC2145_REG_NULL 0x0a; R 0x84 0x02; R 0x17 0x03; R 0x18 0x04].

Definition delay_program : list gc2145_reg :=
  [R GC2145_REG_NULL 0x0a; R GC2145_REG_NULL 0x14].

Definition hw0 : hw := mk_hw [] 0 0 1 1 [] 1 0.

Definition blank_fmt : v4l2_mbus_framefmt := mk_framefmt 0 0 0 0 0 0 0 0.

(** The state [gc2145_probe] leaves behind. *)
Definition probed (c : i2c_client) : gc2145_dev :=
  gc2145_mode_set_default (mk_dev blank_fmt c true true None None 0).

Definition svga_mode : gc2145_mode :=
  mk_mode GC2145_MODE_SVGA_800_600 800 800 600 600
          gc2145_setting_svga (ARRAY_SIZE gc2145_setting_svga).

(** The format [gc2145_try_fmt_internal] derives from a pixel format. *)
Definition resolved_fmt (p : gc2145_pixfmt) : v4l2_mbus_framefmt :=
  mk_framefmt 800 600 (pix_code p) V4L2_FIELD_NONE (pix_colorspace p)
    (V4L2_MAP_YCBCR_ENC_DEFAULT (pix_colorspace p))
    (V4L2_MAP_QUANTIZATION_DEFAULT true (pix_colorspace p)
       (V4L2_MAP_YCBCR_ENC_DEFAULT (pix_colorspace p)))
    (V4L2_MAP_XFER_FUNC_DEFAULT (pix_colorspace p)).

(** The writes of an active format change for pixel format [p]: the init
    program, the page select and the format patch. *)
Definition params_writes (p : gc2145_pixfmt) : list xfer :=
  writes_of gc2145_init_regs
  ++ [XWrite GC2145_REG_PAGE_SELECT 0x00;
      XWrite (addr (hd (R 0 0) (fmt_reg p))) (val (hd (R 0 0) (fmt_reg p)))].

(** The driver state once an active request has stored format [f]. *)
Definition committed (sensor : gc2145_dev) (f : v4l2_mbus_framefmt)
    : gc2145_dev :=
  set_current_mode (set_fmt_field sensor f) (Some svga_mode).

(** Requests used as concrete inputs. *)
Definition request (wh : Z) (w h c : Z) : v4l2_subdev_format :=
  mk_format wh 0 (mk_framefmt w h c 0 0 0 0 0).

Definition query_active : v4l2_subdev_format :=
  mk_format V4L2_SUBDEV_FORMAT_ACTIVE 0 blank_fmt.

(** A device that answers reads of the two identifier registers with [h]
    and [l]. *)
Definition chip_answers (h l : Z) (reg : Z) : Z :=
  if reg =? GC2145_REG_CHIP_ID_H then h
  else if reg =? GC2145_REG_CHIP_ID_L then l
  else 0.

(** The GPIO activity of [gc2145_set_power_on]. *)
Definition power_on_trace : list (gpio_line * Z) :=
  [(PWDN, 1); (PWDN, 0); (RESET, 1); (RESET, 0)].

(** Driver state and hardware after the first [gc2145_s_power(sd, 1)]. *)
Definition powered_once : gc2145_dev * hw :=
  let r := gc2145_s_power (probed nak_client) 1 hw0 in (snd (fst r), snd r).

(** ... and after a second one. *)
Definition powered_twice : gc2145_dev * hw :=
  let r := gc2145_s_power (fst powered_once) 1 (snd powered_once) in
  (snd (fst r), snd r).

(** The byte [gc2145_s_vflip] reads from the flip-control register: what
    the device answers after the page select of the same call. *)
Definition flip_read (c : i2c_client) (w : hw) : Z :=
  wrap_u8 (adapter_rx c (bus w ++ [XWrite 0xfe 0x00]) 0x17).

(** What format negotiation keeps true of the driver state: the current
    mode is SVGA and the stored format is 800x600, progressive, with a code
    of the catalog. *)
Definition fmt_invariant (s : gc2145_dev) : Prop :=
  current_mode s = Some svga_mode /\
  width (fmt s) = 800 /\ height (fmt s) = 600 /\
  field (fmt s) = V4L2_FIELD_NONE /\
  In (code (fmt s)) (map pix_code gc2145_format_list).

(** A register-file test double.  [last_written log reg init] is the value
    register [reg] holds after the messages of [log], [init] being its
    content before them. *)
Fixpoint last_written (log : list xfer) (reg init : Z) : Z :=
  match log with
  | [] => init
  | XWrite r v :: rest => last_written rest reg (if r =? reg then v else init)
  | XRead _ :: rest => last_written rest reg init
  end.

(** The device acknowledges every message and answers a read with what
    was last written to the register ([v0 reg] when nothing was). *)
Definition mem_client (v0 : Z -> Z) : i2c_client :=
  mk_client (fun _ _ => 1) (fun log reg => last_written log reg (v0 reg)).

(** A bus on which writes pass and every read is refused. *)
Definition deaf_client : i2c_client :=
  mk_client (fun _ x => match x with XWrite _ _ => 1 | XRead _ => -5 end)
            (fun _ _ => 0).

(** Driver states without the reset line, and without either line. *)
Definition no_reset (c : i2c_client) : gc2145_dev :=
  gc2145_mode_set_default (mk_dev blank_fmt c false true None None 0).

Definition no_gpio (c : i2c_client) : gc2145_dev :=
  gc2145_mode_set_default (mk_dev blank_fmt c false false None None 0).

(** The byte the flip controls write back, as a function of the control
    value (0 or 1) and of the byte read. *)
Definition vflip_value (value old : Z) : Z :=
  if value =? 0 then wrap_u8 (Z.land old 0xfd) else wrap_u8 (Z.lor old 0x02).

Definition hflip_value (value old : Z) : Z :=
  if value =? 0 then wrap_u8 (Z.land old 0xfe) else wrap_u8 (Z.lor old 0x01).

(** The content of the flip-control register of the register-file double,
    as a read would return it. *)
Definition reg17 (v0 : Z -> Z) (w : hw) : Z :=
  wrap_u8 (last_written (bus w) 0x17 (v0 0x17)).

(** * Properties *)

(** ** Register access *)

Lemma write_reg_run (c : i2c_client) (a v : Z) (w : hw) :
  let r := gc2145_write_reg c a v w in
  bus (snd r) = bus w ++ [XWrite a v] /\
  slept_ms (snd r) = slept_ms w /\ same_lines w (snd r) /\
  (0 <= adapter_ret c (bus w) (XWrite a v) -> fst r = 0) /\
  (adapter_ret c (bus w) (XWrite a v) < 0 ->
   fst r = adapter_ret c (bus w) (XWrite a v)).
Proof.
  unfold gc2145_write_reg, mbind, i2c_transfer, mret, same_lines; simpl.
  destruct (Z.ltb_spec (adapter_ret c (bus w) (XWrite a v)) 0); simpl;
    repeat split; intros; try reflexivity; lia.
Qed.

Lemma write_reg_ret (c : i2c_client) (a v : Z) (w : hw) :
  fst (gc2145_write_reg c a v w) = 0 \/
  (fst (gc2145_write_reg c a v w) < 0 /\
   fst (gc2145_write_reg c a v w) = adapter_ret c (bus w) (XWrite a v)).
Proof.
  destruct (write_reg_run c a v w) as (_ & _ & _ & Hok & Hko).
  destruct (Z_lt_le_dec (adapter_ret c (bus w) (XWrite a v)) 0) as [H | H].
  - right. rewrite (Hko H). auto.
  - left. auto.
Qed.

Lemma same_lines_refl (w : hw) : same_lines w w.
Proof. unfold same_lines; repeat split. Qed.

Lemma same_lines_trans (w1 w2 w3 : hw) :
  same_lines w1 w2 -> same_lines w2 w3 -> same_lines w1 w3.
Proof. unfold same_lines; intuition congruence. Qed.

Lemma writes_of_cons_delay (r : gc2145_reg) (regs : list gc2145_reg) :
  is_delay r = true -> writes_of (r :: regs) = writes_of regs.
Proof. unfold writes_of; simpl; intros ->; reflexivity. Qed.

Lemma writes_of_cons_write (r : gc2145_reg) (regs : list gc2145_reg) :
  is_delay r = false ->
  writes_of (r :: regs) = XWrite (addr r) (val r) :: writes_of regs.
Proof. unfold writes_of; simpl; intros ->; reflexivity. Qed.

Lemma delay_of_cons_delay (r : gc2145_reg) (regs : list gc2145_reg) :
  is_delay r = true -> delay_of (r :: regs) = val r + delay_of regs.
Proof. unfold delay_of; simpl; intros ->; reflexivity. Qed.

Lemma delay_of_cons_write (r : gc2145_reg) (regs : list gc2145_reg) :
  is_delay r = false -> delay_of (r :: regs) = delay_of regs.
Proof. unfold delay_of; simpl; intros ->; reflexivity. Qed.

Lemma writes_of_no_sentinel (regs : list gc2145_reg) (v : Z) :
  ~ In (XWrite GC2145_REG_NULL v) (writes_of regs).
Proof.
  unfold writes_of. intros H. apply in_map_iff in H.
  destruct H as (r & Heq & Hin). apply filter_In in Hin.
  destruct Hin as (_ & Hnd). injection Heq as Ha _.
  unfold is_delay in Hnd. rewrite Ha in Hnd. discriminate.
Qed.

Lemma loop_delay_eq (c : i2c_client) (r : gc2145_reg)
    (regs : list gc2145_reg) (ret : Z) (w : hw) :
  is_delay r = true ->
  write_array_loop c (r :: regs) ret w
  = write_array_loop c regs ret (snd (mdelay (val r) w)).
Proof. simpl. fold (is_delay r). intros ->. reflexivity. Qed.

Lemma loop_write_eq (c : i2c_client) (r : gc2145_reg)
    (regs : list gc2145_reg) (ret : Z) (w : hw) :
  is_delay r = false ->
  write_array_loop c (r :: regs) ret w
  = (if fst (gc2145_write_reg c (addr r) (val r) w) <? 0
     then gc2145_write_reg c (addr r) (val r) w
     else write_array_loop c regs
            (fst (gc2145_write_reg c (addr r) (val r) w))
            (snd (gc2145_write_reg c (addr r) (val r) w))).
Proof.
  simpl. fold (is_delay r). intros ->. unfold mbind at 1.
  destruct (gc2145_write_reg c (addr r) (val r) w) as [ret1 w1]. simpl.
  destruct (ret1 <? 0); reflexivity.
Qed.

(** The loop visits a prefix of the program: the writes of that prefix are
    on the bus, its delays have been slept, and the prefix is the whole
    program unless a write was refused. *)
Lemma write_array_loop_prefix (c : i2c_client) (regs : list gc2145_reg) :
  forall w : hw,
    let r := write_array_loop c regs 0 w in
    fst r <= 0 /\ same_lines w (snd r) /\
    exists n : nat,
      bus (snd r) = bus w ++ writes_of (firstn n regs) /\
      slept_ms (snd r) = slept_ms w + delay_of (firstn n regs) /\
      (0 <= fst r -> firstn n regs = regs).
Proof.
  induction regs as [| r regs IH]; intros w; cbn zeta.
  - simpl. split; [lia |]. split; [apply same_lines_refl |].
    exists 0%nat. simpl. rewrite app_nil_r. unfold delay_of; simpl.
    repeat split; lia.
  - destruct (is_delay r) eqn:Hd.
    + rewrite (loop_delay_eq _ _ _ _ _ Hd).
      specialize (IH (snd (mdelay (val r) w))); cbn zeta in IH.
      destruct IH as (Hle & Hl & n & Hb & Hs & Hall).
      split; [exact Hle |]. split; [exact Hl |].
      exists (S n). rewrite firstn_cons, (writes_of_cons_delay _ _ Hd),
        (delay_of_cons_delay _ _ Hd).
      split; [exact Hb |]. split; [rewrite Hs; simpl; lia |].
      intros H; rewrite (Hall H); reflexivity.
    + rewrite (loop_write_eq _ _ _ _ _ Hd).
      destruct (write_reg_run c (addr r) (val r) w) as (Hb1 & Hs1 & Hl1 & _).
      destruct (write_reg_ret c (addr r) (val r) w) as [H0 | (Hneg & _)].
      * rewrite H0. change (0 <? 0) with false. cbv iota.
        specialize (IH (snd (gc2145_write_reg c (addr r) (val r) w)));
          cbn zeta in IH.
        destruct IH as (Hle & Hl & n & Hb & Hs & Hall).
        split; [exact Hle |]. split; [eapply same_lines_trans; eauto |].
        exists (S n). rewrite firstn_cons, (writes_of_cons_write _ _ Hd),
          (delay_of_cons_write _ _ Hd).
        split; [rewrite Hb, Hb1, <- app_assoc; reflexivity |].
        split; [lia |]. intros H; rewrite (Hall H); reflexivity.
      * assert (E : (fst (gc2145_write_reg c (addr r) (val r) w) <? 0) = true)
          by (apply Z.ltb_lt; exact Hneg).
        rewrite E.
        split; [lia |]. split; [exact Hl1 |].
        exists 1%nat. simpl firstn. rewrite (writes_of_cons_write _ _ Hd),
          (delay_of_cons_write _ _ Hd).
        split; [exact Hb1 |]. split; [unfold delay_of; simpl; lia |]. lia.
Qed.

(** ** Fail-fast dispatch *)

Section Dispatch.

Variable c : i2c_client.

Lemma dispatch_nonpos (ws : list xfer) :
  forall log, fst (dispatch c log ws) <= 0.
Proof.
  induction ws as [| x ws IH]; intros log; simpl; [lia |].
  destruct (Z.ltb_spec (adapter_ret c log x) 0); simpl; [lia | apply IH].
Qed.

Lemma dispatch_app (ws1 ws2 : list xfer) :
  forall log,
    dispatch c log (ws1 ++ ws2)
    = (if fst (dispatch c log ws1) <? 0 then dispatch c log ws1
       else dispatch c (snd (dispatch c log ws1)) ws2).
Proof.
  induction ws1 as [| x ws1 IH]; intros log; simpl; [reflexivity |].
  destruct (Z.ltb_spec (adapter_ret c log x) 0) as [H | H]; simpl.
  - apply Z.ltb_lt in H. rewrite H. reflexivity.
  - apply IH.
Qed.

Lemma fails_first_at_head (log ws : list xfer)
    (x : xfer) (e : Z) :
  fails_first_at c log (x :: ws) 1 e -> adapter_ret c log x = e /\ e < 0.
Proof.
  intros (_ & He & _ & y & Hy & Hr). simpl in Hy, Hr.
  injection Hy as <-. rewrite app_nil_r in Hr. auto.
Qed.

Lemma fails_first_at_tail (log ws : list xfer)
    (x : xfer) (k : nat) (e : Z) :
  fails_first_at c log (x :: ws) (S (S k)) e ->
  0 <= adapter_ret c log x /\ fails_first_at c (log ++ [x]) ws (S k) e.
Proof.
  intros (_ & He & Hprior & y & Hy & Hr). split.
  - specialize (Hprior 0%nat x). simpl in Hprior. rewrite app_nil_r in Hprior.
    apply Hprior; [lia | reflexivity].
  - split; [lia |]. split; [exact He |]. split.
    + intros j z Hj Hz. rewrite <- app_assoc. simpl.
      apply (Hprior (S j) z); [lia | exact Hz].
    + exists y. simpl in Hy, Hr. replace (k - 0)%nat with k in Hy, Hr by lia.
      simpl. replace (k - 0)%nat with k by lia.
      split; [exact Hy |]. rewrite <- app_assoc. exact Hr.
Qed.

Lemma accepts_all_cons (log ws : list xfer) (x : xfer) :
  accepts_all c log (x :: ws) ->
  0 <= adapter_ret c log x /\ accepts_all c (log ++ [x]) ws.
Proof.
  intros H. split.
  - specialize (H 0%nat x). simpl in H. rewrite app_nil_r in H. auto.
  - intros j z Hz. rewrite <- app_assoc. apply (H (S j) z Hz).
Qed.

Lemma dispatch_fails (ws : list xfer) :
  forall log k e,
    fails_first_at c log ws k e ->
    dispatch c log ws = (e, log ++ firstn k ws).
Proof.
  induction ws as [| x ws IH]; intros log k e H.
  - destruct H as (_ & _ & _ & y & Hy & _).
    destruct (k - 1)%nat; discriminate.
  - destruct k as [| [| k]].
    + destruct H as (Hk & _). lia.
    + apply fails_first_at_head in H. destruct H as (Hr & He).
      simpl. rewrite Hr. apply Z.ltb_lt in He. rewrite He. reflexivity.
    + apply fails_first_at_tail in H. destruct H as (H0 & H).
      simpl dispatch. apply Z.ltb_ge in H0. rewrite H0.
      rewrite (IH _ _ _ H), <- app_assoc. reflexivity.
Qed.

Lemma dispatch_accepts (ws : list xfer) :
  forall log, accepts_all c log ws -> dispatch c log ws = (0, log ++ ws).
Proof.
  induction ws as [| x ws IH]; intros log H; simpl.
  - rewrite app_nil_r. reflexivity.
  - apply accepts_all_cons in H. destruct H as (H0 & H).
    apply Z.ltb_ge in H0. rewrite H0, (IH _ H), <- app_assoc. reflexivity.
Qed.

Lemma dispatch_fails_ret (ws log : list xfer)
    (k : nat) (e : Z) :
  fails_first_at c log ws k e -> fst (dispatch c log ws) = e.
Proof. intros H. rewrite (dispatch_fails _ _ _ _ H). reflexivity. Qed.

Lemma dispatch_fails_bus (ws log : list xfer)
    (k : nat) (e : Z) :
  fails_first_at c log ws k e ->
  snd (dispatch c log ws) = log ++ firstn k ws.
Proof. intros H. rewrite (dispatch_fails _ _ _ _ H). reflexivity. Qed.

Lemma dispatch_accepts_ret (ws log : list xfer) :
  accepts_all c log ws -> fst (dispatch c log ws) = 0.
Proof. intros H. rewrite (dispatch_accepts _ _ H). reflexivity. Qed.

Lemma dispatch_accepts_bus (ws log : list xfer) :
  accepts_all c log ws -> snd (dispatch c log ws) = log ++ ws.
Proof. intros H. rewrite (dispatch_accepts _ _ H). reflexivity. Qed.

End Dispatch.

Lemma write_reg_dispatch (c : i2c_client) (a v : Z) (w : hw) :
  fst (gc2145_write_reg c a v w) = fst (dispatch c (bus w) [XWrite a v]) /\
  bus (snd (gc2145_write_reg c a v w)) = snd (dispatch c (bus w) [XWrite a v]).
Proof.
  destruct (write_reg_run c a v w) as (Hb & _ & _ & Hok & Hko). simpl.
  destruct (Z.ltb_spec (adapter_ret c (bus w) (XWrite a v)) 0); simpl; auto.
Qed.

(** The loop of [gc2145_write_array] refines the reference dispatch of the
    program's writes. *)
Lemma write_array_loop_dispatch (c : i2c_client) (regs : list gc2145_reg) :
  forall w : hw,
    fst (write_array_loop c regs 0 w) = fst (dispatch c (bus w) (writes_of regs))
    /\ bus (snd (write_array_loop c regs 0 w))
       = snd (dispatch c (bus w) (writes_of regs)).
Proof.
  induction regs as [| r regs IH]; intros w.
  - simpl. auto.
  - destruct (is_delay r) eqn:Hd.
    + rewrite (loop_delay_eq _ _ _ _ _ Hd), (writes_of_cons_delay _ _ Hd).
      apply (IH (snd (mdelay (val r) w))).
    + rewrite (loop_write_eq _ _ _ _ _ Hd), (writes_of_cons_write _ _ Hd).
      destruct (write_reg_run c (addr r) (val r) w) as (Hb & _ & _ & Hok & Hko).
      simpl dispatch.
      destruct (Z.ltb_spec (adapter_ret c (bus w) (XWrite (addr r) (val r))) 0)
        as [H | H].
      * rewrite (Hko H). apply Z.ltb_lt in H. rewrite H. rewrite Hb.
        simpl. pose proof (Hko (proj1 (Z.ltb_lt _ _) H)) as E. auto.
      * rewrite (Hok H). change (0 <? 0) with false. cbv iota.
        rewrite <- Hb. apply IH.
Qed.

Lemma write_array_rows (c : i2c_client) (regs : list gc2145_reg) (w : hw) :
  regs <> [] ->
  gc2145_write_array (Some c) (Some regs) w = write_array_loop c regs 0 w.
Proof.
  intros H. unfold gc2145_write_array, ARRAY_SIZE.
  destruct regs as [| r regs]; [congruence |]. reflexivity.
Qed.

Lemma writes_of_nonempty (regs : list gc2145_reg) :
  writes_of regs <> [] -> regs <> [].
Proof. intros H ->. apply H. reflexivity. Qed.

(** C8.  Applying a register program fails fast.  If the [k]-th bus write of
    the program (delay markers not counted) is the first one the transport
    refuses, with error [e], then [gc2145_write_array] returns [e] and the
    bus has seen the first [k] writes of the program in program order and
    nothing else: the [k - 1] accepted ones, the refused one once (no
    retry), and no write after it. *)
Theorem write_array_fail_fast (c : i2c_client) (regs : list gc2145_reg)
    (w : hw) (k : nat) (e : Z) :
  fails_first_at c (bus w) (writes_of regs) k e ->
  fst (gc2145_write_array (Some c) (Some regs) w) = e /\
  bus (snd (gc2145_write_array (Some c) (Some regs) w))
  = bus w ++ firstn k (writes_of regs) /\
  length (bus (snd (gc2145_write_array (Some c) (Some regs) w)))
  = (length (bus w) + k)%nat.
Proof.
  intros H.
  assert (Hne : regs <> []).
  { apply writes_of_nonempty. intros E. rewrite E in H.
    destruct H as (_ & _ & _ & y & Hy & _). destruct (k - 1)%nat; discriminate. }
  rewrite (write_array_rows _ _ _ Hne).
  destruct (write_array_loop_dispatch c regs w) as (Hr & Hb).
  rewrite Hr, Hb, (dispatch_fails_ret _ _ _ _ _ H),
    (dispatch_fails_bus _ _ _ _ _ H).
  split; [reflexivity |]. split; [reflexivity |].
  rewrite length_app, length_firstn. f_equal.
  destruct H as (Hk1 & _ & _ & y & Hy & _).
  assert (k - 1 < length (writes_of regs))%nat.
  { apply nth_error_Some. rewrite Hy. discriminate. }
  lia.
Qed.

Lemma write_array_fail_fast_witness :
  fst (gc2145_write_array (Some (nak_after 2)) (Some sample_program) hw0) = -5
  /\ bus (snd (gc2145_write_array (Some (nak_after 2)) (Some sample_program) hw0))
     = [XWrite 0xfe 0x00; XWrite 0x84 0x02; XWrite 0x17 0x03]
  /\ length (bus (snd (gc2145_write_array (Some (nak_after 2))
                                          (Some sample_program) hw0)))
     = 3%nat.
Proof.
  apply (write_array_fail_fast (nak_after 2) sample_program hw0 3 (-5)).
  unfold fails_first_at. split; [lia |]. split; [lia |]. split.
  - intros j x Hj Hx. destruct j as [| [| j]]; simpl in *; lia.
  - exists (XWrite 0x17 0x03). split; reflexivity.
Defined.

(** ** Delay markers *)

Lemma loop_only_delays (c : i2c_client) (regs : list gc2145_reg) :
  forallb is_delay regs = true ->
  forall (ret : Z) (w : hw),
    fst (write_array_loop c regs ret w) = ret /\
    bus (snd (write_array_loop c regs ret w)) = bus w /\
    slept_ms (snd (write_array_loop c regs ret w))
    = slept_ms w + fold_right Z.add 0 (map val regs).
Proof.
  induction regs as [| r regs IH]; intros Hall ret w.
  - simpl. repeat split; lia.
  - simpl in Hall. apply andb_prop in Hall. destruct Hall as (Hd & Hall).
    rewrite (loop_delay_eq _ _ _ _ _ Hd).
    destruct (IH Hall ret (snd (mdelay (val r) w))) as (H1 & H2 & H3).
    split; [exact H1 |]. split; [exact H2 |]. rewrite H3. simpl. lia.
Qed.

Lemma visited_cons_delay (c : i2c_client) (log : list xfer)
    (r : gc2145_reg) (regs : list gc2145_reg) :
  is_delay r = true -> visited c log (r :: regs) = r :: visited c log regs.
Proof. simpl. intros ->. reflexivity. Qed.

Lemma visited_cons_write (c : i2c_client) (log : list xfer)
    (r : gc2145_reg) (regs : list gc2145_reg) :
  is_delay r = false ->
  visited c log (r :: regs)
  = (if adapter_ret c log (XWrite (addr r) (val r)) <? 0 then [r]
     else r :: visited c (log ++ [XWrite (addr r) (val r)]) regs).
Proof. simpl. intros ->. reflexivity. Qed.

Lemma visited_is_prefix (c : i2c_client) (regs : list gc2145_reg) :
  forall log, exists n : nat, visited c log regs = firstn n regs.
Proof.
  induction regs as [| r regs IH]; intros log.
  - exists 0%nat. reflexivity.
  - destruct (is_delay r) eqn:Hd.
    + rewrite (visited_cons_delay _ _ _ _ Hd).
      destruct (IH log) as (n & Hn). exists (S n). rewrite Hn. reflexivity.
    + rewrite (visited_cons_write _ _ _ _ Hd).
      destruct (adapter_ret c log (XWrite (addr r) (val r)) <? 0).
      * exists 1%nat. reflexivity.
      * destruct (IH (log ++ [XWrite (addr r) (val r)])) as (n & Hn).
        exists (S n). rewrite Hn. reflexivity.
Qed.

Lemma visited_all_accepted (c : i2c_client) (regs : list gc2145_reg) :
  forall log,
    accepts_all c log (writes_of regs) -> visited c log regs = regs.
Proof.
  induction regs as [| r regs IH]; intros log Hacc.
  - reflexivity.
  - destruct (is_delay r) eqn:Hd.
    + rewrite (visited_cons_delay _ _ _ _ Hd).
      rewrite (writes_of_cons_delay _ _ Hd) in Hacc.
      rewrite (IH _ Hacc). reflexivity.
    + rewrite (visited_cons_write _ _ _ _ Hd).
      rewrite (writes_of_cons_write _ _ Hd) in Hacc.
      apply accepts_all_cons in Hacc. destruct Hacc as (H0 & Hacc).
      apply Z.ltb_ge in H0. rewrite H0, (IH _ Hacc). reflexivity.
Qed.

(** The loop of [gc2145_write_array] reaches exactly the rows the
    transport lets it reach: their writes are on the bus and the delays of
    their markers have been slept. *)
Lemma write_array_loop_visited (c : i2c_client) (regs : list gc2145_reg) :
  forall w : hw,
    bus (snd (write_array_loop c regs 0 w))
    = bus w ++ writes_of (visited c (bus w) regs) /\
    slept_ms (snd (write_array_loop c regs 0 w))
    = slept_ms w + delay_of (visited c (bus w) regs).
Proof.
  induction regs as [| r regs IH]; intros w.
  - simpl. rewrite app_nil_r. unfold delay_of. simpl. split; [reflexivity | lia].
  - destruct (is_delay r) eqn:Hd.
    + rewrite (loop_delay_eq _ _ _ _ _ Hd), (visited_cons_delay _ _ _ _ Hd),
        (writes_of_cons_delay _ _ Hd), (delay_of_cons_delay _ _ Hd).
      destruct (IH (snd (mdelay (val r) w))) as (Hb & Hs).
      split; [exact Hb |]. rewrite Hs. simpl. lia.
    + rewrite (loop_write_eq _ _ _ _ _ Hd), (visited_cons_write _ _ _ _ Hd).
      destruct (write_reg_run c (addr r) (val r) w) as (Hb1 & Hs1 & _ & Hok & Hko).
      destruct (Z.ltb_spec (adapter_ret c (bus w) (XWrite (addr r) (val r))) 0)
        as [H | H].
      * rewrite (Hko H). apply Z.ltb_lt in H. rewrite H.
        rewrite (writes_of_cons_write _ _ Hd), (delay_of_cons_write _ _ Hd).
        split; [exact Hb1 |]. rewrite Hs1. unfold delay_of. simpl. lia.
      * rewrite (Hok H). change (0 <? 0) with false. cbv iota.
        rewrite (writes_of_cons_write _ _ Hd), (delay_of_cons_write _ _ Hd).
        destruct (IH (snd (gc2145_write_reg c (addr r) (val r) w))) as (Hb & Hs).
        rewrite Hb1 in Hb, Hs. split.
        -- rewrite Hb, <- app_assoc. reflexivity.
        -- rewrite Hs, Hs1. reflexivity.
Qed.

(** C9.  Delay markers never reach the transport, and each marker the
    driver comes to is slept.  [visited] is read off the transport alone:
    the rows up to and including the first write the adapter refuses, the
    whole program when it refuses none.  [gc2145_write_array] dispatches
    the writes of exactly these rows and sleeps the milliseconds encoded by
    exactly their markers.  Hence: when the transport accepts every write,
    all writes are dispatched and the delays of all markers are slept; no
    write to the reserved address [0xFF] is ever dispatched; and a program
    made of markers only performs no bus write and blocks for the sum of
    the encoded delays. *)
Theorem write_array_delay_markers (c : i2c_client) (regs : list gc2145_reg)
    (w : hw) :
  let r := gc2145_write_array (Some c) (Some regs) w in
  (bus (snd r) = bus w ++ writes_of (visited c (bus w) regs) /\
   slept_ms (snd r) = slept_ms w + delay_of (visited c (bus w) regs)) /\
  (exists n : nat, visited c (bus w) regs = firstn n regs) /\
  (accepts_all c (bus w) (writes_of regs) ->
   bus (snd r) = bus w ++ writes_of regs /\
   slept_ms (snd r) = slept_ms w + delay_of regs) /\
  (forall new v, bus (snd r) = bus w ++ new ->
                 ~ In (XWrite GC2145_REG_NULL v) new) /\
  (forallb is_delay regs = true ->
   bus (snd r) = bus w /\
   slept_ms (snd r) = slept_ms w + fold_right Z.add 0 (map val regs)).
Proof.
  cbn zeta.
  assert (Hrun :
    bus (snd (gc2145_write_array (Some c) (Some regs) w))
    = bus w ++ writes_of (visited c (bus w) regs) /\
    slept_ms (snd (gc2145_write_array (Some c) (Some regs) w))
    = slept_ms w + delay_of (visited c (bus w) regs)).
  { destruct regs as [| r regs].
    - simpl. rewrite app_nil_r. unfold delay_of. simpl.
      split; [reflexivity | lia].
    - rewrite write_array_rows by discriminate.
      apply write_array_loop_visited. }
  split; [exact Hrun |]. split; [apply visited_is_prefix |]. split; [| split].
  - intros Hacc. destruct Hrun as (Hb & Hs).
    rewrite (visited_all_accepted _ _ _ Hacc) in Hb, Hs. auto.
  - intros new v Hnew. destruct Hrun as (Hb & _).
    rewrite Hb in Hnew. apply app_inv_head in Hnew. subst new.
    apply writes_of_no_sentinel.
  - intros Hall. destruct regs as [| r regs].
    + simpl. split; [reflexivity | lia].
    + rewrite write_array_rows by discriminate.
      destruct (loop_only_delays c (r :: regs) Hall 0 w) as (_ & H2 & H3).
      auto.
Qed.

Lemma write_array_delay_markers_witness :
  bus (snd (gc2145_write_array (Some (ack_client (fun _ => 0)))
                               (Some sample_program) hw0))
  = [XWrite 0xfe 0x00; XWrite 0x84 0x02; XWrite 0x17 0x03; XWrite 0x18 0x04]
  /\ slept_ms (snd (gc2145_write_array (Some (ack_client (fun _ => 0)))
                                       (Some sample_program) hw0))
     = 10.
Proof.
  apply (proj1 (proj2 (proj2 (write_array_delay_markers
                                (ack_client (fun _ => 0)) sample_program hw0)))).
  intros j x _. simpl. lia.
Defined.

(** ** Pixel-format lookup *)

Lemma find_pixfmt_loop_spec (rows : list gc2145_pixfmt) (c : Z) :
  forall i0 : Z,
    let i := find_pixfmt_loop rows c i0 in
    i0 <= i <= i0 + Z.of_nat (length rows) /\
    (forall j q, (j < Z.to_nat (i - i0))%nat -> nth_error rows j = Some q ->
                 pix_code q <> c) /\
    (i < i0 + Z.of_nat (length rows) ->
     exists p, nth_error rows (Z.to_nat (i - i0)) = Some p /\ pix_code p = c).
Proof.
  induction rows as [| p rows IH]; intros i0; cbn zeta.
  - simpl. rewrite Z.sub_diag. split; [lia |]. split.
    + intros j q Hj. simpl in Hj. lia.
    + lia.
  - simpl find_pixfmt_loop. destruct (Z.eqb_spec (pix_code p) c) as [E | E].
    + rewrite Z.sub_diag. split; [simpl length; lia |]. split.
      * intros j q Hj. simpl in Hj. lia.
      * intros _. exists p. auto.
    + specialize (IH (i0 + 1)). cbn zeta in IH.
      destruct IH as (Hrange & Hbefore & Hat).
      set (i := find_pixfmt_loop rows c (i0 + 1)) in *.
      assert (Hi : Z.to_nat (i - i0) = S (Z.to_nat (i - (i0 + 1)))) by lia.
      rewrite Hi. split; [simpl length; lia |]. split.
      * intros [| j] q Hj Hq; simpl in Hq.
        -- injection Hq as <-. exact E.
        -- apply (Hbefore j q); [lia | exact Hq].
      * intros Hlt. simpl. apply Hat. simpl length in Hlt. lia.
Qed.

Lemma format_list_size : ARRAY_SIZE gc2145_format_list = 6.
Proof. reflexivity. Qed.

Lemma mode_list_size : ARRAY_SIZE gc2145_mode_list = 4.
Proof. reflexivity. Qed.

(** The catalog has the requested code: the lookup returns the first entry
    that carries it. *)
Lemma find_pixfmt_present (c : Z) :
  In c (map pix_code gc2145_format_list) ->
  exists i : nat,
    nth_error gc2145_format_list i = Some (gc2145_find_pixfmt c) /\
    pix_code (gc2145_find_pixfmt c) = c /\
    forall j q, (j < i)%nat -> nth_error gc2145_format_list j = Some q ->
                pix_code q <> c.
Proof.
  intros Hin.
  destruct (find_pixfmt_loop_spec gc2145_format_list c 0)
    as (Hrange & Hbefore & Hat).
  unfold gc2145_find_pixfmt, find_pixfmt_index.
  set (i := find_pixfmt_loop gc2145_format_list c 0) in *.
  rewrite Z.sub_0_r in Hbefore, Hat. fold (ARRAY_SIZE gc2145_format_list) in *.
  destruct (Z.geb_spec i (ARRAY_SIZE gc2145_format_list)) as [Hge | Hlt].
  - exfalso. apply in_map_iff in Hin. destruct Hin as (q & Hq & Hin).
    apply In_nth_error in Hin. destruct Hin as (j & Hj).
    apply (Hbefore j q); [| exact Hj | exact Hq].
    assert (j < length gc2145_format_list)%nat
      by (apply nth_error_Some; rewrite Hj; discriminate).
    unfold ARRAY_SIZE in Hge. lia.
  - destruct (Hat ltac:(lia)) as (p & Hp & Hc).
    exists (Z.to_nat i). rewrite (nth_error_nth _ _ _ Hp). auto.
Qed.

(** The catalog lacks the requested code: the lookup returns entry 0. *)
Lemma find_pixfmt_absent (c : Z) :
  ~ In c (map pix_code gc2145_format_list) ->
  nth_error gc2145_format_list 0 = Some (gc2145_find_pixfmt c) /\
  pix_code (gc2145_find_pixfmt c) = MEDIA_BUS_FMT_UYVY8_2X8.
Proof.
  intros Hout.
  destruct (find_pixfmt_loop_spec gc2145_format_list c 0)
    as (Hrange & Hbefore & Hat).
  unfold gc2145_find_pixfmt, find_pixfmt_index.
  set (i := find_pixfmt_loop gc2145_format_list c 0) in *.
  rewrite Z.sub_0_r in Hat. fold (ARRAY_SIZE gc2145_format_list) in *.
  destruct (Z.geb_spec i (ARRAY_SIZE gc2145_format_list)) as [Hge | Hlt].
  - split; reflexivity.
  - exfalso. destruct (Hat ltac:(lia)) as (p & Hp & Hc). apply Hout.
    apply in_map_iff. exists p. split; [exact Hc |].
    eapply nth_error_In; eauto.
Qed.

Lemma find_pixfmt_in (c : Z) : In (gc2145_find_pixfmt c) gc2145_format_list.
Proof.
  destruct (in_dec Z.eq_dec c (map pix_code gc2145_format_list)) as [H | H].
  - destruct (find_pixfmt_present c H) as (i & Hi & _).
    eapply nth_error_In; eauto.
  - destruct (find_pixfmt_absent c H) as (H0 & _).
    eapply nth_error_In; eauto.
Qed.

Lemma find_pixfmt_idem (c : Z) :
  gc2145_find_pixfmt (pix_code (gc2145_find_pixfmt c)) = gc2145_find_pixfmt c.
Proof.
  pose proof (find_pixfmt_in c) as H. simpl in H.
  repeat (destruct H as [H | H]; [rewrite <- H; reflexivity |]).
  contradiction.
Qed.

(** ** Enumeration *)

Lemma enum_mbus_code_bad_pad (e : v4l2_subdev_mbus_code_enum) :
  mce_pad e <> 0 -> gc2145_enum_mbus_code e = (- EINVAL, e).
Proof.
  intros H. unfold gc2145_enum_mbus_code.
  apply Z.eqb_neq in H. rewrite H. reflexivity.
Qed.

Lemma get_fmt_bad_pad (sensor : gc2145_dev) (cfg : v4l2_subdev_pad_config)
    (f : v4l2_subdev_format) :
  pad f <> 0 -> gc2145_get_fmt sensor cfg f = (- EINVAL, f).
Proof.
  intros H. unfold gc2145_get_fmt.
  apply Z.eqb_neq in H. rewrite H. reflexivity.
Qed.

Lemma set_fmt_bad_pad (sensor : gc2145_dev) (cfg : v4l2_subdev_pad_config)
    (f : v4l2_subdev_format) (w : hw) :
  pad f <> 0 ->
  gc2145_set_fmt sensor cfg f w = (mk_set_fmt_result (- EINVAL) sensor cfg f, w).
Proof.
  intros H. unfold gc2145_set_fmt.
  apply Z.eqb_neq in H. rewrite H. reflexivity.
Qed.

(** The frame-size enumeration never looks at the pad of its request. *)
Lemma enum_frame_size_any_pad (fse : v4l2_subdev_frame_size_enum) (p : Z) :
  match gc2145_enum_frame_size fse,
        gc2145_enum_frame_size
          (mk_fse (fse_index fse) p (fse_code fse) (min_width fse)
                  (max_width fse) (min_height fse) (max_height fse)) with
  | Returns (r1, _), Returns (r2, _) => r1 = r2
  | OutOfBounds, OutOfBounds => True
  | _, _ => False
  end.
Proof.
  unfold gc2145_enum_frame_size. simpl fse_index. simpl fse_code.
  destruct (fse_index fse >=? ARRAY_SIZE gc2145_format_list); [reflexivity |].
  destruct (negb (fse_code fse =? pix_code (gc2145_find_pixfmt (fse_code fse))));
    [reflexivity |].
  destruct (nth_error gc2145_mode_list (Z.to_nat (fse_index fse)));
    [reflexivity | exact I].
Qed.

(** C5.  The pad check is missing from [gc2145_enum_frame_size]: a request
    on pad 1 (index 0, code UYVY) is not refused with [-EINVAL] but
    answered with the 320x240 frame size and return code 0. *)
Theorem enum_frame_size_pad_unchecked :
  gc2145_enum_frame_size (mk_fse 0 1 MEDIA_BUS_FMT_UYVY8_2X8 0 0 0 0)
  = Returns (0, mk_fse 0 1 MEDIA_BUS_FMT_UYVY8_2X8 320 320 240 240).
Proof. reflexivity. Qed.

(** C6.  [gc2145_enum_frame_size] bounds its index by the six entries of
    the pixel-format list and then subscripts the four-entry mode list with
    it.  For a supported code and index 4 or 5 the bounds check passes and
    the mode-table access lies outside the table. *)
Theorem enum_frame_size_index_past_mode_list
    (fse : v4l2_subdev_frame_size_enum) :
  In (fse_code fse) (map pix_code gc2145_format_list) ->
  fse_index fse = 4 \/ fse_index fse = 5 ->
  ARRAY_SIZE gc2145_format_list = 6 /\
  ARRAY_SIZE gc2145_mode_list = 4 /\
  (fse_index fse >=? ARRAY_SIZE gc2145_format_list) = false /\
  nth_error gc2145_mode_list (Z.to_nat (fse_index fse)) = None /\
  gc2145_enum_frame_size fse = OutOfBounds.
Proof.
  intros Hcode Hidx.
  destruct (find_pixfmt_present _ Hcode) as (_ & _ & Hc & _).
  unfold gc2145_enum_frame_size. rewrite Hc, Z.eqb_refl.
  destruct Hidx as [-> | ->]; repeat split; reflexivity.
Qed.

Lemma enum_frame_size_index_past_mode_list_witness :
  ARRAY_SIZE gc2145_format_list = 6 /\
  ARRAY_SIZE gc2145_mode_list = 4 /\
  (4 >=? ARRAY_SIZE gc2145_format_list) = false /\
  nth_error gc2145_mode_list (Z.to_nat 4) = None /\
  gc2145_enum_frame_size (mk_fse 4 0 MEDIA_BUS_FMT_YUYV8_2X8 0 0 0 0)
  = OutOfBounds.
Proof.
  apply (enum_frame_size_index_past_mode_list
           (mk_fse 4 0 MEDIA_BUS_FMT_YUYV8_2X8 0 0 0 0)).
  - simpl. right. right. left. reflexivity.
  - left. reflexivity.
Defined.

(** ** Format negotiation *)

Lemma find_mode_svga (sensor : gc2145_dev) :
  gc2145_find_mode sensor (wrap_int 800) (wrap_int 600) true = Some svga_mode.
Proof. reflexivity. Qed.

Lemma try_fmt_internal_svga (sensor : gc2145_dev) (m : v4l2_mbus_framefmt) :
  width m = 800 -> height m = 600 ->
  gc2145_try_fmt_internal sensor m (Some None)
  = (0, resolved_fmt (gc2145_find_pixfmt (code m)), Some (Some svga_mode)).
Proof.
  intros Hw Hh. unfold gc2145_try_fmt_internal.
  rewrite Hw, Hh, find_mode_svga. reflexivity.
Qed.

Lemma init_regs_rows : gc2145_init_regs <> [].
Proof. unfold gc2145_init_regs. discriminate. Qed.

Lemma params_set_eq (sensor : gc2145_dev) (f : v4l2_mbus_framefmt) (w : hw) :
  let c := client_of sensor in
  let row := hd (R 0 0) (fmt_reg (gc2145_find_pixfmt (code (fmt sensor)))) in
  let r1 := write_array_loop c gc2145_init_regs 0 w in
  let r2 := gc2145_write_reg c GC2145_REG_PAGE_SELECT 0x00 (snd r1) in
  let r3 := gc2145_write_reg c (addr row) (val row) (snd r2) in
  gc2145_params_set sensor f w
  = (if fst r1 <? 0 then r1
     else if fst r2 <? 0 then r2
     else if fst r3 <? 0 then r3
     else (0, snd r3)).
Proof.
  cbn zeta. unfold gc2145_params_set, mbind.
  rewrite (write_array_rows _ _ _ init_regs_rows).
  destruct (write_array_loop (client_of sensor) gc2145_init_regs 0 w)
    as [ret1 w1].
  cbn [fst snd]. destruct (ret1 <? 0); [reflexivity |].
  destruct (gc2145_write_reg (client_of sensor) GC2145_REG_PAGE_SELECT 0 w1)
    as [ret2 w2].
  cbn [fst snd]. destruct (ret2 <? 0); [reflexivity |].
  match goal with |- context [gc2145_write_reg ?c ?a ?v w2] =>
    destruct (gc2145_write_reg c a v w2) as [ret3 w3] end.
  cbn [fst snd]. destruct (ret3 <? 0); reflexivity.
Qed.

(** [gc2145_params_set] refines the reference dispatch of the init
    program, the page select and the format patch. *)
Lemma params_set_dispatch (sensor : gc2145_dev) (f : v4l2_mbus_framefmt)
    (w : hw) :
  let ws := params_writes (gc2145_find_pixfmt (code (fmt sensor))) in
  fst (gc2145_params_set sensor f w)
  = fst (dispatch (client_of sensor) (bus w) ws) /\
  bus (snd (gc2145_params_set sensor f w))
  = snd (dispatch (client_of sensor) (bus w) ws).
Proof.
  cbn zeta. rewrite params_set_eq. cbn zeta. unfold params_writes.
  set (c := client_of sensor).
  set (row := hd (R 0 0) (fmt_reg (gc2145_find_pixfmt (code (fmt sensor))))).
  rewrite dispatch_app.
  destruct (write_array_loop_dispatch c gc2145_init_regs w) as (Hr1 & Hb1).
  set (r1 := write_array_loop c gc2145_init_regs 0 w) in *.
  rewrite <- Hr1, <- Hb1.
  destruct (fst r1 <? 0); [auto |].
  change [XWrite GC2145_REG_PAGE_SELECT 0; XWrite (addr row) (val row)]
    with ([XWrite GC2145_REG_PAGE_SELECT 0] ++ [XWrite (addr row) (val row)]).
  rewrite dispatch_app.
  destruct (write_reg_dispatch c GC2145_REG_PAGE_SELECT 0 (snd r1))
    as (Hr2 & Hb2).
  set (r2 := gc2145_write_reg c GC2145_REG_PAGE_SELECT 0 (snd r1)) in *.
  rewrite <- Hr2, <- Hb2.
  destruct (fst r2 <? 0); [auto |].
  destruct (write_reg_dispatch c (addr row) (val row) (snd r2)) as (Hr3 & Hb3).
  destruct (write_reg_ret c (addr row) (val row) (snd r2)) as [H0 | (Hneg & _)].
  - rewrite H0. change (0 <? 0) with false. cbv iota. cbn [fst snd].
    rewrite <- Hr3, <- Hb3. auto.
  - apply Z.ltb_lt in Hneg. rewrite Hneg. auto.
Qed.

Lemma set_fmt_try_eq (sensor : gc2145_dev) (cfg : v4l2_subdev_pad_config)
    (f : v4l2_subdev_format) (w : hw) :
  pad f = 0 -> which f = V4L2_SUBDEV_FORMAT_TRY ->
  let rf := resolved_fmt (gc2145_find_pixfmt (code (format f))) in
  gc2145_set_fmt sensor cfg f w
  = (mk_set_fmt_result 0 sensor (mk_cfg rf) (mk_format (which f) (pad f) rf), w).
Proof.
  intros Hp Hw. cbn zeta. unfold gc2145_set_fmt.
  rewrite Hp. change (negb (0 =? 0)) with false. cbv iota.
  rewrite try_fmt_internal_svga by reflexivity.
  cbn [code which]. rewrite Hw. reflexivity.
Qed.

Lemma set_fmt_active_eq (sensor : gc2145_dev) (cfg : v4l2_subdev_pad_config)
    (f : v4l2_subdev_format) (w : hw) :
  pad f = 0 -> which f = V4L2_SUBDEV_FORMAT_ACTIVE ->
  let rf := resolved_fmt (gc2145_find_pixfmt (code (format f))) in
  gc2145_set_fmt sensor cfg f w
  = (let (ret, w') := gc2145_params_set (committed sensor rf) rf w in
     (mk_set_fmt_result ret (committed sensor rf) cfg
        (mk_format (which f) (pad f) rf), w')).
Proof.
  intros Hp Hw. cbn zeta. unfold gc2145_set_fmt.
  rewrite Hp. change (negb (0 =? 0)) with false. cbv iota.
  rewrite try_fmt_internal_svga by reflexivity.
  cbn [code which]. rewrite Hw.
  change (V4L2_SUBDEV_FORMAT_ACTIVE =? V4L2_SUBDEV_FORMAT_TRY) with false.
  change (V4L2_SUBDEV_FORMAT_ACTIVE =? V4L2_SUBDEV_FORMAT_ACTIVE) with true.
  change (negb (0 =? 0)) with false. cbv iota.
  reflexivity.
Qed.

Lemma set_fmt_other_eq (sensor : gc2145_dev) (cfg : v4l2_subdev_pad_config)
    (f : v4l2_subdev_format) (w : hw) :
  pad f = 0 -> which f <> V4L2_SUBDEV_FORMAT_TRY ->
  which f <> V4L2_SUBDEV_FORMAT_ACTIVE ->
  let rf := resolved_fmt (gc2145_find_pixfmt (code (format f))) in
  gc2145_set_fmt sensor cfg f w
  = (mk_set_fmt_result 0 (set_fmt_field sensor rf) cfg
       (mk_format (which f) (pad f) rf), w).
Proof.
  intros Hp Ht Ha. cbn zeta. unfold gc2145_set_fmt.
  rewrite Hp. change (negb (0 =? 0)) with false. cbv iota.
  rewrite try_fmt_internal_svga by reflexivity.
  cbn [code which]. apply Z.eqb_neq in Ht, Ha. rewrite Ht, Ha. reflexivity.
Qed.

Lemma committed_fmt (sensor : gc2145_dev) (f : v4l2_mbus_framefmt) :
  fmt (committed sensor f) = f.
Proof. reflexivity. Qed.

Lemma committed_client (sensor : gc2145_dev) (f : v4l2_mbus_framefmt) :
  client_of (committed sensor f) = client_of sensor.
Proof. reflexivity. Qed.

Lemma resolved_fmt_code (p : gc2145_pixfmt) :
  code (resolved_fmt p) = pix_code p.
Proof. reflexivity. Qed.

(** After the commit, [gc2145_params_set] looks the stored code up again
    and finds the pixel format the request resolved to. *)
Lemma params_set_committed (sensor : gc2145_dev) (p : gc2145_pixfmt) (w : hw) :
  gc2145_find_pixfmt (pix_code p) = p ->
  fst (gc2145_params_set (committed sensor (resolved_fmt p)) (resolved_fmt p) w)
  = fst (dispatch (client_of sensor) (bus w) (params_writes p)) /\
  bus (snd (gc2145_params_set (committed sensor (resolved_fmt p))
                              (resolved_fmt p) w))
  = snd (dispatch (client_of sensor) (bus w) (params_writes p)).
Proof.
  intros Hidem.
  pose proof (params_set_dispatch (committed sensor (resolved_fmt p))
                (resolved_fmt p) w) as H.
  cbv zeta in H.
  rewrite committed_fmt, committed_client, resolved_fmt_code, Hidem in H.
  exact H.
Qed.

(** An active request on pad 0, in terms of the reference dispatch. *)
Lemma set_fmt_active_run (sensor : gc2145_dev) (cfg : v4l2_subdev_pad_config)
    (f : v4l2_subdev_format) (w : hw) :
  pad f = 0 -> which f = V4L2_SUBDEV_FORMAT_ACTIVE ->
  let p := gc2145_find_pixfmt (code (format f)) in
  sf_ret (fst (gc2145_set_fmt sensor cfg f w))
  = fst (dispatch (client_of sensor) (bus w) (params_writes p)) /\
  bus (snd (gc2145_set_fmt sensor cfg f w))
  = snd (dispatch (client_of sensor) (bus w) (params_writes p)) /\
  sf_sensor (fst (gc2145_set_fmt sensor cfg f w))
  = committed sensor (resolved_fmt p) /\
  sf_cfg (fst (gc2145_set_fmt sensor cfg f w)) = cfg /\
  sf_format (fst (gc2145_set_fmt sensor cfg f w))
  = mk_format (which f) (pad f) (resolved_fmt p).
Proof.
  intros Hp Ha. cbv zeta.
  pose proof (set_fmt_active_eq sensor cfg f w Hp Ha) as E. cbv zeta in E.
  pose proof (params_set_committed sensor
                (gc2145_find_pixfmt (code (format f))) w
                (find_pixfmt_idem _)) as H.
  rewrite E. clear E. revert H.
  destruct (gc2145_params_set _ _ w) as [ret w'].
  cbn [fst snd sf_ret sf_sensor sf_cfg sf_format].
  intros (Hr & Hb). auto.
Qed.

(** C7.  Pixel-format resolution is permissive.  A code the catalog lacks
    resolves to catalog entry 0, a code it has resolves to the first entry
    carrying it, and [gc2145_set_fmt] on pad 0 answers with the resolved
    code and does not fail because of the code: a request that is not
    active returns 0, an active one returns 0 whenever the transport
    accepts the writes. *)
Theorem find_pixfmt_fallback (c : Z) :
  (~ In c (map pix_code gc2145_format_list) ->
   nth_error gc2145_format_list 0 = Some (gc2145_find_pixfmt c)) /\
  (In c (map pix_code gc2145_format_list) ->
   exists i : nat,
     nth_error gc2145_format_list i = Some (gc2145_find_pixfmt c) /\
     pix_code (gc2145_find_pixfmt c) = c /\
     forall j q, (j < i)%nat -> nth_error gc2145_format_list j = Some q ->
                 pix_code q <> c) /\
  (forall sensor cfg f w,
     pad f = 0 -> code (format f) = c ->
     code (format (sf_format (fst (gc2145_set_fmt sensor cfg f w))))
     = pix_code (gc2145_find_pixfmt c) /\
     (which f <> V4L2_SUBDEV_FORMAT_ACTIVE ->
      sf_ret (fst (gc2145_set_fmt sensor cfg f w)) = 0) /\
     (which f = V4L2_SUBDEV_FORMAT_ACTIVE ->
      accepts_all (client_of sensor) (bus w)
                  (params_writes (gc2145_find_pixfmt c)) ->
      sf_ret (fst (gc2145_set_fmt sensor cfg f w)) = 0)).
Proof.
  split; [intros H; apply (find_pixfmt_absent c H) |].
  split; [apply find_pixfmt_present |].
  intros sensor cfg f w Hp Hc.
  destruct (Z.eq_dec (which f) V4L2_SUBDEV_FORMAT_ACTIVE) as [Ha | Ha].
  - destruct (set_fmt_active_run sensor cfg f w Hp Ha)
      as (Hr & _ & _ & _ & Hf).
    rewrite Hf, Hr, Hc. cbn [format resolved_fmt code].
    split; [reflexivity |]. split; [congruence |].
    intros _ Hacc. apply (dispatch_accepts_ret _ _ _ Hacc).
  - destruct (Z.eq_dec (which f) V4L2_SUBDEV_FORMAT_TRY) as [Ht | Ht].
    + rewrite (set_fmt_try_eq _ _ _ _ Hp Ht). cbn zeta. cbn [fst sf_format sf_ret format].
      rewrite Hc. split; [reflexivity |]. split; [reflexivity | congruence].
    + rewrite (set_fmt_other_eq _ _ _ _ Hp Ht Ha). cbn zeta.
      cbn [fst sf_format sf_ret format].
      rewrite Hc. split; [reflexivity |]. split; [reflexivity | congruence].
Qed.

Lemma find_pixfmt_fallback_witness :
  nth_error gc2145_format_list 0 = Some (gc2145_find_pixfmt 0x9999).
Proof.
  apply (proj1 (find_pixfmt_fallback 0x9999)).
  vm_compute. intros H.
  repeat (destruct H as [H | H]; [discriminate H |]). exact H.
Defined.

(** C2, as the claim states it, fails: an active request for 640x480 YUYV
    on a bus that accepts every write returns 0, and the active format read
    back afterwards is not 640x480. *)
Lemma set_fmt_vga_counterexample :
  sf_ret (fst (gc2145_set_fmt (probed (ack_client (fun _ => 0)))
                 (mk_cfg blank_fmt)
                 (request V4L2_SUBDEV_FORMAT_ACTIVE 640 480
                          MEDIA_BUS_FMT_YUYV8_2X8) hw0)) = 0 /\
  ~ (width (format (snd (gc2145_get_fmt
        (sf_sensor (fst (gc2145_set_fmt (probed (ack_client (fun _ => 0)))
                           (mk_cfg blank_fmt)
                           (request V4L2_SUBDEV_FORMAT_ACTIVE 640 480
                                    MEDIA_BUS_FMT_YUYV8_2X8) hw0)))
        (mk_cfg blank_fmt) query_active))) = 640 /\
     height (format (snd (gc2145_get_fmt
        (sf_sensor (fst (gc2145_set_fmt (probed (ack_client (fun _ => 0)))
                           (mk_cfg blank_fmt)
                           (request V4L2_SUBDEV_FORMAT_ACTIVE 640 480
                                    MEDIA_BUS_FMT_YUYV8_2X8) hw0)))
        (mk_cfg blank_fmt) query_active))) = 480).
Proof.
  split.
  - vm_compute. reflexivity.
  - intros (Hw & _). vm_compute in Hw. discriminate Hw.
Qed.

(** C2, amended.  On pad 0, [gc2145_set_fmt] overwrites the requested
    width and height with 800 and 600 before it resolves the mode: whatever
    dimensions are requested, trial or active, it resolves to the SVGA mode
    and returns 800x600.  A trial request stores 800x600 as the try format;
    after an active request the current mode is SVGA and an active
    [gc2145_get_fmt] returns 800x600 with the resolved code. *)
Theorem set_fmt_always_svga (sensor : gc2145_dev)
    (cfg : v4l2_subdev_pad_config) (f : v4l2_subdev_format) (w : hw) :
  pad f = 0 ->
  width (format (sf_format (fst (gc2145_set_fmt sensor cfg f w)))) = 800 /\
  height (format (sf_format (fst (gc2145_set_fmt sensor cfg f w)))) = 600 /\
  (which f = V4L2_SUBDEV_FORMAT_TRY ->
   width (try_fmt (sf_cfg (fst (gc2145_set_fmt sensor cfg f w)))) = 800 /\
   height (try_fmt (sf_cfg (fst (gc2145_set_fmt sensor cfg f w)))) = 600) /\
  (which f = V4L2_SUBDEV_FORMAT_ACTIVE ->
   current_mode (sf_sensor (fst (gc2145_set_fmt sensor cfg f w)))
   = Some svga_mode /\
   forall cfg',
     gc2145_get_fmt (sf_sensor (fst (gc2145_set_fmt sensor cfg f w))) cfg'
                    query_active
     = (0, mk_format V4L2_SUBDEV_FORMAT_ACTIVE 0
             (resolved_fmt (gc2145_find_pixfmt (code (format f)))))).
Proof.
  intros Hp.
  destruct (Z.eq_dec (which f) V4L2_SUBDEV_FORMAT_ACTIVE) as [Ha | Ha].
  - destruct (set_fmt_active_run sensor cfg f w Hp Ha)
      as (_ & _ & Hs & _ & Hf).
    rewrite Hf, Hs. cbn [format resolved_fmt width height].
    split; [reflexivity |]. split; [reflexivity |]. split.
    + intros Ht. rewrite Ht in Ha. discriminate Ha.
    + intros _. split; reflexivity.
  - destruct (Z.eq_dec (which f) V4L2_SUBDEV_FORMAT_TRY) as [Ht | Ht].
    + rewrite (set_fmt_try_eq _ _ _ _ Hp Ht). cbn zeta.
      cbn [fst sf_format sf_sensor sf_cfg format try_fmt].
      split; [reflexivity |]. split; [reflexivity |]. split.
      * intros _. split; reflexivity.
      * intros H. contradiction.
    + rewrite (set_fmt_other_eq _ _ _ _ Hp Ht Ha). cbn zeta.
      cbn [fst sf_format sf_sensor sf_cfg format].
      split; [reflexivity |]. split; [reflexivity |].
      split; intros H; contradiction.
Qed.

Lemma set_fmt_always_svga_witness :
  width (format (sf_format (fst (gc2145_set_fmt (probed nak_client)
           (mk_cfg blank_fmt)
           (request V4L2_SUBDEV_FORMAT_TRY 640 480 MEDIA_BUS_FMT_YUYV8_2X8)
           hw0)))) = 800 /\
  height (format (sf_format (fst (gc2145_set_fmt (probed nak_client)
           (mk_cfg blank_fmt)
           (request V4L2_SUBDEV_FORMAT_TRY 640 480 MEDIA_BUS_FMT_YUYV8_2X8)
           hw0)))) = 600.
Proof.
  destruct (set_fmt_always_svga (probed nak_client) (mk_cfg blank_fmt)
              (request V4L2_SUBDEV_FORMAT_TRY 640 480 MEDIA_BUS_FMT_YUYV8_2X8)
              hw0 eq_refl) as (Hw & Hh & _).
  split; [exact Hw | exact Hh].
Defined.

(** C1, as the claim states it, fails: on a bus that refuses every write
    an active request for YUYV returns the transport error, and the
    committed format is no longer the one committed before the call. *)
Lemma set_fmt_failed_write_counterexample :
  sf_ret (fst (gc2145_set_fmt (probed nak_client) (mk_cfg blank_fmt)
                 (request V4L2_SUBDEV_FORMAT_ACTIVE 800 600
                          MEDIA_BUS_FMT_YUYV8_2X8) hw0)) = -5 /\
  code (fmt (probed nak_client)) = MEDIA_BUS_FMT_UYVY8_2X8 /\
  code (fmt (sf_sensor (fst (gc2145_set_fmt (probed nak_client)
                 (mk_cfg blank_fmt)
                 (request V4L2_SUBDEV_FORMAT_ACTIVE 800 600
                          MEDIA_BUS_FMT_YUYV8_2X8) hw0))))
  = MEDIA_BUS_FMT_YUYV8_2X8 /\
  fmt (sf_sensor (fst (gc2145_set_fmt (probed nak_client) (mk_cfg blank_fmt)
                 (request V4L2_SUBDEV_FORMAT_ACTIVE 800 600
                          MEDIA_BUS_FMT_YUYV8_2X8) hw0)))
  <> fmt (probed nak_client).
Proof.
  split; [vm_compute; reflexivity |].
  split; [vm_compute; reflexivity |].
  split; [vm_compute; reflexivity |].
  intros H. vm_compute in H. discriminate H.
Qed.

(** C1, amended.  An active [gc2145_set_fmt] on pad 0 stores the resolved
    format in [sensor->fmt] and the resolved mode in [sensor->current_mode]
    before the first register write, and nothing restores them: they hold
    the new format whatever the writes return.  The writes are the init
    program, the page select and the format patch; when all are accepted
    the call returns 0, and when the [k]-th is the first refused the call
    returns its error after exactly [k] writes. *)
Theorem set_fmt_active_commits_first (sensor : gc2145_dev)
    (cfg : v4l2_subdev_pad_config) (f : v4l2_subdev_format) (w : hw) :
  pad f = 0 -> which f = V4L2_SUBDEV_FORMAT_ACTIVE ->
  fmt (sf_sensor (fst (gc2145_set_fmt sensor cfg f w)))
  = resolved_fmt (gc2145_find_pixfmt (code (format f))) /\
  current_mode (sf_sensor (fst (gc2145_set_fmt sensor cfg f w)))
  = Some svga_mode /\
  (accepts_all (client_of sensor) (bus w)
               (params_writes (gc2145_find_pixfmt (code (format f)))) ->
   sf_ret (fst (gc2145_set_fmt sensor cfg f w)) = 0 /\
   bus (snd (gc2145_set_fmt sensor cfg f w))
   = bus w ++ params_writes (gc2145_find_pixfmt (code (format f)))) /\
  (forall k e,
     fails_first_at (client_of sensor) (bus w)
                    (params_writes (gc2145_find_pixfmt (code (format f)))) k e ->
     sf_ret (fst (gc2145_set_fmt sensor cfg f w)) = e /\
     bus (snd (gc2145_set_fmt sensor cfg f w))
     = bus w ++ firstn k (params_writes (gc2145_find_pixfmt (code (format f))))).
Proof.
  intros Hp Ha.
  destruct (set_fmt_active_run sensor cfg f w Hp Ha)
    as (Hr & Hb & Hs & _ & _).
  rewrite Hs, Hr, Hb.
  split; [apply committed_fmt |]. split; [reflexivity |]. split.
  - intros Hacc. split.
    + apply (dispatch_accepts_ret _ _ _ Hacc).
    + apply (dispatch_accepts_bus _ _ _ Hacc).
  - intros k e Hfail. split.
    + apply (dispatch_fails_ret _ _ _ _ _ Hfail).
    + apply (dispatch_fails_bus _ _ _ _ _ Hfail).
Qed.

Lemma set_fmt_active_commits_first_witness :
  fmt (sf_sensor (fst (gc2145_set_fmt (probed nak_client) (mk_cfg blank_fmt)
                         (request V4L2_SUBDEV_FORMAT_ACTIVE 800 600
                                  MEDIA_BUS_FMT_YUYV8_2X8) hw0)))
  = resolved_fmt (gc2145_find_pixfmt MEDIA_BUS_FMT_YUYV8_2X8) /\
  current_mode (sf_sensor (fst (gc2145_set_fmt (probed nak_client)
                         (mk_cfg blank_fmt)
                         (request V4L2_SUBDEV_FORMAT_ACTIVE 800 600
                                  MEDIA_BUS_FMT_YUYV8_2X8) hw0)))
  = Some svga_mode.
Proof.
  destruct (set_fmt_active_commits_first (probed nak_client) (mk_cfg blank_fmt)
              (request V4L2_SUBDEV_FORMAT_ACTIVE 800 600
                       MEDIA_BUS_FMT_YUYV8_2X8) hw0 eq_refl eq_refl)
    as (Hf & Hm & _).
  split; [exact Hf | exact Hm].
Defined.

(** ** Flip controls *)

Lemma testbit_two (i : Z) : Z.testbit 2 i = (i =? 1).
Proof.
  change 2 with (2 ^ 1). destruct (Z.eqb_spec i 1) as [-> | H].
  - reflexivity.
  - destruct (Z.lt_ge_cases i 0) as [Hn | Hp].
    + apply Z.testbit_neg_r. exact Hn.
    + apply Z.pow2_bits_false. congruence.
Qed.

Lemma testbit_0xfd (i : Z) : 0 <= i < 8 -> Z.testbit 0xfd i = negb (i =? 1).
Proof.
  intros H.
  assert (E : i = 0 \/ i = 1 \/ i = 2 \/ i = 3 \/ i = 4 \/ i = 5 \/ i = 6 \/ i = 7)
    by lia.
  repeat (destruct E as [-> | E]; [reflexivity |]). subst i. reflexivity.
Qed.

Lemma wrap_u8_testbit (x i : Z) :
  Z.testbit (wrap_u8 x) i = (if (0 <=? i) && (i <? 8) then Z.testbit x i else false).
Proof.
  unfold wrap_u8. destruct (Z.leb_spec 0 i) as [H0 | H0]; cbn [andb].
  - destruct (Z.ltb_spec i 8) as [H8 | H8].
    + apply Z.mod_pow2_bits_low. lia.
    + apply Z.mod_pow2_bits_high. lia.
  - apply Z.testbit_neg_r. exact H0.
Qed.

(** Setting bit 1 of a byte leaves its other bits as they were. *)
Lemma set_bit1_spec (x : Z) :
  Z.testbit (wrap_u8 (Z.lor (wrap_u8 x) 0x02)) 1 = true /\
  forall i, i <> 1 ->
    Z.testbit (wrap_u8 (Z.lor (wrap_u8 x) 0x02)) i = Z.testbit (wrap_u8 x) i.
Proof.
  split.
  - rewrite wrap_u8_testbit. change ((0 <=? 1) && (1 <? 8)) with true.
    cbv iota. rewrite Z.lor_spec, testbit_two. apply orb_true_r.
  - intros i Hi. rewrite (wrap_u8_testbit (Z.lor _ _)), Z.lor_spec, testbit_two.
    apply Z.eqb_neq in Hi. rewrite Hi, orb_false_r.
    rewrite (wrap_u8_testbit x).
    destruct ((0 <=? i) && (i <? 8)); reflexivity.
Qed.

(** Clearing bit 1 of a byte leaves its other bits as they were. *)
Lemma clear_bit1_spec (x : Z) :
  Z.testbit (wrap_u8 (Z.land (wrap_u8 x) 0xfd)) 1 = false /\
  forall i, i <> 1 ->
    Z.testbit (wrap_u8 (Z.land (wrap_u8 x) 0xfd)) i = Z.testbit (wrap_u8 x) i.
Proof.
  split.
  - rewrite wrap_u8_testbit. change ((0 <=? 1) && (1 <? 8)) with true.
    cbv iota. rewrite Z.land_spec.
    change (Z.testbit 0xfd 1) with false. apply andb_false_r.
  - intros i Hi. rewrite (wrap_u8_testbit (Z.land _ _)), Z.land_spec.
    rewrite (wrap_u8_testbit x).
    destruct (Z.leb_spec 0 i) as [H0 | H0]; [| reflexivity].
    destruct (Z.ltb_spec i 8) as [H8 | H8]; [| reflexivity].
    cbn [andb]. rewrite testbit_0xfd by lia.
    apply Z.eqb_neq in Hi. rewrite Hi. apply andb_true_r.
Qed.

(** [gc2145_s_vflip] once the page select and the register read have been
    accepted: the value computed from the byte read is written back, or the
    control value is refused. *)
Lemma s_vflip_eq (c : i2c_client) (value : Z) (w : hw) :
  0 <= adapter_ret c (bus w) (XWrite 0xfe 0x00) ->
  0 <= adapter_ret c (bus w ++ [XWrite 0xfe 0x00]) (XRead 0x17) ->
  let w2 := mk_hw (bus w ++ [XWrite 0xfe 0x00; XRead 0x17]) (slept_ms w)
                  (slept_us w) (pwdn_level w) (reset_level w) (gpio_trace w)
                  (xclk_enabled w) (warnings w) in
  gc2145_s_vflip c value w
  = (if value =? 0
     then (ret <- gc2145_write_reg c 0x17
                    (wrap_u8 (Z.land (flip_read c w) 0xfd)) ;;
           if ret <? 0 then mret ret else mdelay 20 ;;; mret 0) w2
     else if value =? 1
     then (ret <- gc2145_write_reg c 0x17
                    (wrap_u8 (Z.lor (flip_read c w) 0x02)) ;;
           if ret <? 0 then mret ret else mdelay 20 ;;; mret 0) w2
     else (- EINVAL, w2)).
Proof.
  intros H1 H2. cbn zeta.
  unfold gc2145_s_vflip, gc2145_read_reg, i2c_transfer_rx, flip_read.
  unfold mbind at 1. unfold gc2145_write_reg at 1. unfold mbind at 1.
  unfold i2c_transfer at 1. cbn [fst snd bus slept_ms slept_us pwdn_level
    reset_level gpio_trace xclk_enabled warnings].
  apply Z.ltb_ge in H1, H2. rewrite H1. unfold mret at 1.
  change (0 <? 0) with false. cbv iota.
  unfold mbind at 1. unfold mbind at 1. unfold i2c_transfer.
  cbn [fst snd bus slept_ms slept_us pwdn_level reset_level gpio_trace
       xclk_enabled warnings].
  rewrite H2. unfold mret at 1. change (0 <? 0) with false. cbv iota.
  rewrite <- app_assoc. cbn [app].
  destruct (value =? 0); [reflexivity |].
  destruct (value =? 1); reflexivity.
Qed.

Lemma flip_write_back_run (c : i2c_client) (v : Z) (w : hw) :
  let r := (ret <- gc2145_write_reg c 0x17 v ;;
            if ret <? 0 then mret ret else mdelay 20 ;;; mret 0) w in
  bus (snd r) = bus w ++ [XWrite 0x17 v] /\
  (0 <= adapter_ret c (bus w) (XWrite 0x17 v) ->
   fst r = 0 /\ slept_ms (snd r) = slept_ms w + 20) /\
  (adapter_ret c (bus w) (XWrite 0x17 v) < 0 ->
   fst r = adapter_ret c (bus w) (XWrite 0x17 v)).
Proof.
  cbn zeta. unfold mbind.
  destruct (write_reg_run c 0x17 v w) as (Hb & Hs & _ & Hok & Hko).
  destruct (gc2145_write_reg c 0x17 v w) as [ret w']. cbn [fst snd] in *.
  destruct (Z.ltb_spec ret 0) as [Hneg | Hpos].
  - unfold mret. cbn [fst snd]. split; [exact Hb |]. split.
    + intros H. specialize (Hok H). lia.
    + intros H. apply (Hko H).
  - unfold mdelay, mret. cbn [fst snd bus slept_ms].
    split; [exact Hb |]. split.
    + intros _. split; [reflexivity | lia].
    + intros H. specialize (Hko H). lia.
Qed.

Lemma read_reg_run (c : i2c_client) (reg old : Z) (w : hw) :
  let r := gc2145_read_reg c reg old w in
  bus (snd r) = bus w ++ [XRead reg] /\
  (adapter_ret c (bus w) (XRead reg) < 0 ->
   fst (fst r) = adapter_ret c (bus w) (XRead reg) /\ snd (fst r) = old) /\
  (0 <= adapter_ret c (bus w) (XRead reg) ->
   fst r = (0, wrap_u8 (adapter_rx c (bus w) reg))).
Proof.
  unfold gc2145_read_reg, mbind, i2c_transfer_rx, i2c_transfer, mret.
  cbn [fst snd bus].
  destruct (Z.ltb_spec (adapter_ret c (bus w) (XRead reg)) 0);
    cbn [fst snd bus]; repeat split; intros; try reflexivity; lia.
Qed.

(** [gc2145_s_vflip] when the bus refuses the page select, or accepts it
    and refuses the read: the transport error comes back before the
    control value is looked at. *)
Lemma s_vflip_refused (c : i2c_client) (value : Z) (w : hw) :
  (adapter_ret c (bus w) (XWrite 0xfe 0x00) < 0 ->
   fst (gc2145_s_vflip c value w) = adapter_ret c (bus w) (XWrite 0xfe 0x00) /\
   bus (snd (gc2145_s_vflip c value w)) = bus w ++ [XWrite 0xfe 0x00]) /\
  (0 <= adapter_ret c (bus w) (XWrite 0xfe 0x00) ->
   adapter_ret c (bus w ++ [XWrite 0xfe 0x00]) (XRead 0x17) < 0 ->
   fst (gc2145_s_vflip c value w)
   = adapter_ret c (bus w ++ [XWrite 0xfe 0x00]) (XRead 0x17) /\
   bus (snd (gc2145_s_vflip c value w))
   = bus w ++ [XWrite 0xfe 0x00; XRead 0x17]).
Proof.
  split.
  - intros H1. unfold gc2145_s_vflip, mbind.
    destruct (write_reg_run c 0xfe 0x00 w) as (Hb & _ & _ & _ & Hko).
    specialize (Hko H1).
    destruct (gc2145_write_reg c 0xfe 0x00 w) as [ret w1].
    cbn [fst snd] in *. subst ret.
    apply Z.ltb_lt in H1. rewrite H1. unfold mret. cbn [fst snd]. auto.
  - intros H1 H2. unfold gc2145_s_vflip, mbind.
    destruct (write_reg_run c 0xfe 0x00 w) as (Hb & _ & _ & Hok & _).
    specialize (Hok H1).
    destruct (gc2145_write_reg c 0xfe 0x00 w) as [ret w1].
    cbn [fst snd] in *. subst ret. change (0 <? 0) with false. cbv iota.
    destruct (read_reg_run c 0x17 0x00 w1) as (Hb2 & Hko2 & _).
    rewrite Hb in Hb2, Hko2. specialize (Hko2 H2).
    destruct (gc2145_read_reg c 0x17 0x00 w1) as [[ret2 v] w2].
    cbn [fst snd] in *. destruct Hko2 as (-> & _).
    apply Z.ltb_lt in H2. rewrite H2. unfold mret. cbn [fst snd].
    rewrite Hb2, <- app_assoc. auto.
Qed.

(** C10, as the claim states it, fails: on a bus that refuses every
    message, a VFLIP value of 2 is answered with the transport error -5,
    not with [-EINVAL]. *)
Lemma s_vflip_refusing_bus_counterexample :
  fst (gc2145_s_vflip nak_client 2 hw0) = -5 /\
  fst (gc2145_s_vflip nak_client 2 hw0) <> - EINVAL.
Proof.
  split; [reflexivity |]. intros H. vm_compute in H. discriminate H.
Qed.

(** C10, amended.  [gc2145_s_vflip] selects page 0 and reads register 0x17
    before it looks at the control value.  If the page select is refused,
    or accepted and the read refused, the transport error is returned
    whatever the value, and nothing is written back.  Once both are
    accepted, the value 1 (respectively 0) makes the driver write back the
    byte it has just read with bit 1 set (respectively cleared) and every
    other bit as read, returning 0 after a 20 ms wait when the write-back
    is accepted; any other value returns [-EINVAL] and nothing is written
    back. *)
Theorem s_vflip_read_modify_write (c : i2c_client) (value : Z) (w : hw) :
  (adapter_ret c (bus w) (XWrite 0xfe 0x00) < 0 ->
   fst (gc2145_s_vflip c value w) = adapter_ret c (bus w) (XWrite 0xfe 0x00) /\
   bus (snd (gc2145_s_vflip c value w)) = bus w ++ [XWrite 0xfe 0x00]) /\
  (0 <= adapter_ret c (bus w) (XWrite 0xfe 0x00) ->
   adapter_ret c (bus w ++ [XWrite 0xfe 0x00]) (XRead 0x17) < 0 ->
   fst (gc2145_s_vflip c value w)
   = adapter_ret c (bus w ++ [XWrite 0xfe 0x00]) (XRead 0x17) /\
   bus (snd (gc2145_s_vflip c value w))
   = bus w ++ [XWrite 0xfe 0x00; XRead 0x17]) /\
  (0 <= adapter_ret c (bus w) (XWrite 0xfe 0x00) ->
   0 <= adapter_ret c (bus w ++ [XWrite 0xfe 0x00]) (XRead 0x17) ->
   (value = 0 \/ value = 1 ->
    exists new : Z,
      bus (snd (gc2145_s_vflip c value w))
      = bus w ++ [XWrite 0xfe 0x00; XRead 0x17; XWrite 0x17 new] /\
      Z.testbit new 1 = (value =? 1) /\
      (forall i, i <> 1 -> Z.testbit new i = Z.testbit (flip_read c w) i) /\
      (0 <= adapter_ret c (bus w ++ [XWrite 0xfe 0x00; XRead 0x17])
                        (XWrite 0x17 new) ->
       fst (gc2145_s_vflip c value w) = 0 /\
       slept_ms (snd (gc2145_s_vflip c value w)) = slept_ms w + 20)) /\
   (value <> 0 -> value <> 1 ->
    fst (gc2145_s_vflip c value w) = - EINVAL /\
    bus (snd (gc2145_s_vflip c value w))
    = bus w ++ [XWrite 0xfe 0x00; XRead 0x17])).
Proof.
  destruct (s_vflip_refused c value w) as (Hsel & Hread).
  split; [exact Hsel |]. split; [exact Hread |].
  intros H1 H2. rewrite (s_vflip_eq c value w H1 H2). cbn zeta. split.
  - intros [-> | ->].
    + change (0 =? 0) with true. cbv iota.
      exists (wrap_u8 (Z.land (flip_read c w) 0xfd)).
      match goal with |- context [mbind ?m ?k ?w2] =>
        destruct (flip_write_back_run c
                    (wrap_u8 (Z.land (flip_read c w) 0xfd)) w2)
          as (Hb & Hok & _) end.
      cbn [bus slept_ms] in Hb, Hok.
      destruct (clear_bit1_spec (adapter_rx c (bus w ++ [XWrite 0xfe 0x00]) 0x17))
        as (Hbit & Hrest).
      split; [rewrite Hb, <- app_assoc; reflexivity |].
      split; [exact Hbit |]. split; [exact Hrest | exact Hok].
    + change (1 =? 0) with false. change (1 =? 1) with true. cbv iota.
      exists (wrap_u8 (Z.lor (flip_read c w) 0x02)).
      match goal with |- context [mbind ?m ?k ?w2] =>
        destruct (flip_write_back_run c
                    (wrap_u8 (Z.lor (flip_read c w) 0x02)) w2)
          as (Hb & Hok & _) end.
      cbn [bus slept_ms] in Hb, Hok.
      destruct (set_bit1_spec (adapter_rx c (bus w ++ [XWrite 0xfe 0x00]) 0x17))
        as (Hbit & Hrest).
      split; [rewrite Hb, <- app_assoc; reflexivity |].
      split; [exact Hbit |]. split; [exact Hrest | exact Hok].
  - intros N0 N1. apply Z.eqb_neq in N0, N1. rewrite N0, N1.
    split; reflexivity.
Qed.

Lemma s_vflip_read_modify_write_witness :
  exists new : Z,
    bus (snd (gc2145_s_vflip (ack_client (fun _ => 0x95)) 1 hw0))
    = bus hw0 ++ [XWrite 0xfe 0x00; XRead 0x17; XWrite 0x17 new] /\
    Z.testbit new 1 = (1 =? 1) /\
    (forall i, i <> 1 ->
       Z.testbit new i
       = Z.testbit (flip_read (ack_client (fun _ => 0x95)) hw0) i) /\
    (0 <= adapter_ret (ack_client (fun _ => 0x95))
            (bus hw0 ++ [XWrite 0xfe 0x00; XRead 0x17]) (XWrite 0x17 new) ->
     fst (gc2145_s_vflip (ack_client (fun _ => 0x95)) 1 hw0) = 0 /\
     slept_ms (snd (gc2145_s_vflip (ack_client (fun _ => 0x95)) 1 hw0))
     = slept_ms hw0 + 20).
Proof.
  apply (proj2 (proj2 (s_vflip_read_modify_write
                         (ack_client (fun _ => 0x95)) 1 hw0))).
  - simpl. lia.
  - simpl. lia.
  - right. reflexivity.
Defined.

(** A control value other than 0 and 1 never reaches the write-back,
    whatever the bus does: the call fails, after the page select alone or
    after the page select and the read. *)
Lemma s_vflip_invalid_value (c : i2c_client) (value : Z) (w : hw) :
  value <> 0 -> value <> 1 ->
  fst (gc2145_s_vflip c value w) < 0 /\
  (bus (snd (gc2145_s_vflip c value w)) = bus w ++ [XWrite 0xfe 0x00] \/
   bus (snd (gc2145_s_vflip c value w))
   = bus w ++ [XWrite 0xfe 0x00; XRead 0x17]).
Proof.
  intros N0 N1.
  destruct (Z.ltb_spec (adapter_ret c (bus w) (XWrite 0xfe 0x00)) 0)
    as [H1 | H1].
  - unfold gc2145_s_vflip, mbind.
    destruct (write_reg_run c 0xfe 0x00 w) as (Hb & _ & _ & _ & Hko).
    specialize (Hko H1).
    destruct (gc2145_write_reg c 0xfe 0x00 w) as [ret w1].
    cbn [fst snd] in *. subst ret.
    apply Z.ltb_lt in H1. rewrite H1. unfold mret. cbn [fst snd].
    apply Z.ltb_lt in H1. auto.
  - destruct (Z.ltb_spec (adapter_ret c (bus w ++ [XWrite 0xfe 0x00])
                                      (XRead 0x17)) 0) as [H2 | H2].
    + unfold gc2145_s_vflip, mbind.
      destruct (write_reg_run c 0xfe 0x00 w) as (Hb & _ & _ & Hok & _).
      specialize (Hok H1).
      destruct (gc2145_write_reg c 0xfe 0x00 w) as [ret w1].
      cbn [fst snd] in *. subst ret. change (0 <? 0) with false. cbv iota.
      destruct (read_reg_run c 0x17 0x00 w1) as (Hb2 & Hko2 & _).
      rewrite Hb in Hb2, Hko2. specialize (Hko2 H2).
      destruct (gc2145_read_reg c 0x17 0x00 w1) as [[ret2 v] w2].
      cbn [fst snd] in *. destruct Hko2 as (-> & _).
      apply Z.ltb_lt in H2. rewrite H2. unfold mret. cbn [fst snd].
      apply Z.ltb_lt in H2. rewrite Hb2, <- app_assoc. auto.
    + rewrite (s_vflip_eq c value w H1 H2). cbn zeta.
      apply Z.eqb_neq in N0, N1. rewrite N0, N1. cbn [fst snd bus].
      split; [unfold EINVAL; lia | auto].
Qed.

(** ** Identification *)

Lemma set_power_on_ok (sensor : gc2145_dev) (w : hw) :
  pwdn_gpio sensor = true -> reset_gpio sensor = true ->
  fst (gc2145_set_power_on (Some sensor) w) = 0.
Proof.
  intros Hp Hr. unfold gc2145_set_power_on, gc2145_power, gc2145_reset.
  rewrite Hp, Hr. reflexivity.
Qed.

Lemma read_reg_ack (rx : Z -> Z) (reg old : Z) (w : hw) :
  fst (gc2145_read_reg (ack_client rx) reg old w) = (0, wrap_u8 (rx reg)).
Proof. reflexivity. Qed.

(** On a bus that accepts every transfer, with both GPIO lines present,
    [gc2145_check_chip_id] refuses the device only when the high byte
    differs from 0x21 and the low byte differs from 0xF1 (the address of
    the identifier register, not the low byte 0x45 of the identifier). *)
Lemma check_chip_id_ack (sensor : gc2145_dev) (rx : Z -> Z)
    (garbage : Z * Z) (w : hw) :
  client_of sensor = ack_client rx ->
  pwdn_gpio sensor = true -> reset_gpio sensor = true ->
  fst (gc2145_check_chip_id sensor garbage w)
  = (if negb (wrap_u8 (rx GC2145_REG_CHIP_ID_H) =? 0x21)
        && negb (wrap_u8 (rx GC2145_REG_CHIP_ID_L) =? 0xF1)
     then - ENXIO else 0).
Proof.
  intros Hc Hp Hr. unfold gc2145_check_chip_id, mbind.
  pose proof (set_power_on_ok sensor w Hp Hr) as H0.
  destruct (gc2145_set_power_on (Some sensor) w) as [r w1].
  cbn [fst] in H0. subst r. change (negb (0 =? 0)) with false. cbv iota.
  rewrite Hc.
  pose proof (read_reg_ack rx GC2145_REG_CHIP_ID_H (fst garbage) w1) as E0.
  destruct (gc2145_read_reg (ack_client rx) GC2145_REG_CHIP_ID_H
                            (fst garbage) w1) as [r0 w2].
  cbn [fst] in E0. subst r0.
  pose proof (read_reg_ack rx GC2145_REG_CHIP_ID_L (snd garbage) w2) as E1.
  destruct (gc2145_read_reg (ack_client rx) GC2145_REG_CHIP_ID_L
                            (snd garbage) w2) as [r1 w3].
  cbn [fst] in E1. subst r1. cbn [snd].
  change (Z.land (Z.shiftr GC2145_CHIP_ID 8) 0xFF) with 0x21.
  change (Z.land GC2145_REG_CHIP_ID_L 0xFF) with 0xF1.
  destruct (negb (wrap_u8 (rx GC2145_REG_CHIP_ID_H) =? 0x21)
            && negb (wrap_u8 (rx GC2145_REG_CHIP_ID_L) =? 0xF1));
    [| reflexivity].
  destruct (gc2145_set_power_off sensor w3). reflexivity.
Qed.

(** C3.  The identifier check accepts devices whose identifier is wrong.
    A device answering 0x21 and 0x00 (low byte wrong), and one answering
    0x00 and 0xF1 (a wrong high byte, no byte of 0x2145 in the low one),
    both pass: the function returns 0, the power-down line stays
    deasserted and the reference clock stays enabled. *)
Theorem check_chip_id_accepts_wrong_id :
  fst (gc2145_check_chip_id (probed (ack_client (chip_answers 0x21 0x00)))
                            (0, 0) hw0) = 0 /\
  pwdn_level (snd (gc2145_check_chip_id
                     (probed (ack_client (chip_answers 0x21 0x00)))
                     (0, 0) hw0)) = 0 /\
  xclk_enabled (snd (gc2145_check_chip_id
                       (probed (ack_client (chip_answers 0x21 0x00)))
                       (0, 0) hw0)) = 1 /\
  fst (gc2145_check_chip_id (probed (ack_client (chip_answers 0x00 0xF1)))
                            (0, 0) hw0) = 0 /\
  pwdn_level (snd (gc2145_check_chip_id
                     (probed (ack_client (chip_answers 0x00 0xF1)))
                     (0, 0) hw0)) = 0.
Proof. repeat split; vm_compute; reflexivity. Qed.

(** What the check does get right: the genuine identifier passes, and a
    device with both bytes off is refused and powered down. *)
Lemma check_chip_id_sound_cases :
  fst (gc2145_check_chip_id (probed (ack_client (chip_answers 0x21 0x45)))
                            (0, 0) hw0) = 0 /\
  fst (gc2145_check_chip_id (probed (ack_client (chip_answers 0x00 0x45)))
                            (0, 0) hw0) = - ENXIO /\
  pwdn_level (snd (gc2145_check_chip_id
                     (probed (ack_client (chip_answers 0x00 0x45)))
                     (0, 0) hw0)) = 1 /\
  xclk_enabled (snd (gc2145_check_chip_id
                       (probed (ack_client (chip_answers 0x00 0x45)))
                       (0, 0) hw0)) = 0.
Proof. repeat split; vm_compute; reflexivity. Qed.

(** ** Power reference counting *)

(** [gc2145_s_power] never reaches [gc2145_set_power_off]: the reference
    clock is left alone whatever the call. *)
Lemma s_power_keeps_clock (sensor : gc2145_dev) (on : Z) (w : hw) :
  xclk_enabled (snd (gc2145_s_power sensor on w)) = xclk_enabled w.
Proof.
  unfold gc2145_s_power, gc2145_set_power_on, gc2145_power, gc2145_reset.
  destruct (power_count sensor =? c_not on);
    destruct (pwdn_gpio sensor); destruct (reset_gpio sensor); reflexivity.
Qed.

(** The first power-on call (count 0) runs the power-on sequence. *)
Lemma s_power_first_on (sensor : gc2145_dev) (on : Z) (w : hw) :
  power_count sensor = 0 -> on <> 0 ->
  pwdn_gpio sensor = true -> reset_gpio sensor = true ->
  fst (fst (gc2145_s_power sensor on w)) = 0 /\
  power_count (snd (fst (gc2145_s_power sensor on w))) = 1 /\
  pwdn_level (snd (gc2145_s_power sensor on w)) = 0 /\
  gpio_trace (snd (gc2145_s_power sensor on w))
  = gpio_trace w ++ power_on_trace.
Proof.
  intros Hc Hon Hp Hr.
  unfold gc2145_s_power, gc2145_set_power_on, gc2145_power, gc2145_reset, c_not.
  apply Z.eqb_neq in Hon. rewrite Hc, Hon, Hp, Hr. simpl.
  rewrite <- !app_assoc. repeat split.
Qed.

(** A call that does not meet the condition [power_count == !on] only
    moves the count. *)
Lemma s_power_counts_only (sensor : gc2145_dev) (on : Z) (w : hw) :
  power_count sensor <> c_not on ->
  fst (fst (gc2145_s_power sensor on w)) = 0 /\
  power_count (snd (fst (gc2145_s_power sensor on w)))
  = wrap_int (power_count sensor + (if on =? 0 then -1 else 1)) /\
  pwdn_level (snd (gc2145_s_power sensor on w)) = pwdn_level w /\
  gpio_trace (snd (gc2145_s_power sensor on w)) = gpio_trace w.
Proof.
  intros Hc. unfold gc2145_s_power. apply Z.eqb_neq in Hc. rewrite Hc.
  unfold mbind, mret, WARN_ON. cbn.
  destruct (on =? 0); repeat split.
Qed.

(** The last power-off call (count 1) runs the power-on sequence again. *)
Lemma s_power_last_off (sensor : gc2145_dev) (w : hw) :
  power_count sensor = 1 ->
  pwdn_gpio sensor = true -> reset_gpio sensor = true ->
  fst (fst (gc2145_s_power sensor 0 w)) = 0 /\
  power_count (snd (fst (gc2145_s_power sensor 0 w))) = 0 /\
  pwdn_level (snd (gc2145_s_power sensor 0 w)) = 0 /\
  gpio_trace (snd (gc2145_s_power sensor 0 w))
  = gpio_trace w ++ power_on_trace.
Proof.
  intros Hc Hp Hr.
  unfold gc2145_s_power, gc2145_set_power_on, gc2145_power, gc2145_reset, c_not.
  rewrite Hc, Hp, Hr. simpl.
  rewrite <- !app_assoc. repeat split.
Qed.

(** Two power-on calls followed by one power-off: the count is 1 and the
    device is still powered. *)
Lemma s_power_on_on_off :
  power_count (fst powered_twice) = 2 /\
  power_count (snd (fst (gc2145_s_power (fst powered_twice) 0
                                        (snd powered_twice)))) = 1 /\
  pwdn_level (snd (gc2145_s_power (fst powered_twice) 0 (snd powered_twice)))
  = 0 /\
  gpio_trace (snd (gc2145_s_power (fst powered_twice) 0 (snd powered_twice)))
  = power_on_trace.
Proof. repeat split; vm_compute; reflexivity. Qed.

(** C4.  The transition 1 -> 0 does not power the device off.  After one
    power-on call, a power-off call returns 0 and takes the count to 0, but
    what it runs is the power-on sequence a second time: the power-down
    line ends deasserted and the reference clock is still enabled. *)
Theorem s_power_off_runs_power_on :
  power_count (fst powered_once) = 1 /\
  fst (fst (gc2145_s_power (fst powered_once) 0 (snd powered_once))) = 0 /\
  power_count (snd (fst (gc2145_s_power (fst powered_once) 0
                                        (snd powered_once)))) = 0 /\
  pwdn_level (snd (gc2145_s_power (fst powered_once) 0 (snd powered_once)))
  = 0 /\
  xclk_enabled (snd (gc2145_s_power (fst powered_once) 0 (snd powered_once)))
  = xclk_enabled hw0 /\
  gpio_trace (snd (gc2145_s_power (fst powered_once) 0 (snd powered_once)))
  = power_on_trace ++ power_on_trace.
Proof. repeat split; vm_compute; reflexivity. Qed.

(** * Further properties of the driver *)

(** ** Register programs *)

(** X1.  [gc2145_write_array] refuses a NULL client, a NULL program and an
    empty program with [-EINVAL] before any I/O: the hardware state is the
    one it was called in. *)
Theorem write_array_rejects_bad_arguments (client : option i2c_client)
    (regs : option (list gc2145_reg)) (w : hw) :
  client = None \/ regs = None \/ regs = Some [] ->
  gc2145_write_array client regs w = (- EINVAL, w).
Proof.
  intros [-> | [-> | ->]].
  - reflexivity.
  - destruct client; reflexivity.
  - destruct client; reflexivity.
Qed.

Lemma write_array_rejects_bad_arguments_witness :
  gc2145_write_array None (Some sample_program) hw0 = (- EINVAL, hw0).
Proof.
  apply (write_array_rejects_bad_arguments None (Some sample_program) hw0).
  left. reflexivity.
Defined.

(** X2.  When the transport accepts every write of a program that is not
    empty, [gc2145_write_array] returns 0, has dispatched all the writes of
    the program in program order, has slept the delays of all its markers,
    and has touched nothing else. *)
Theorem write_array_all_accepted (c : i2c_client) (regs : list gc2145_reg)
    (w : hw) :
  regs <> [] ->
  accepts_all c (bus w) (writes_of regs) ->
  fst (gc2145_write_array (Some c) (Some regs) w) = 0 /\
  bus (snd (gc2145_write_array (Some c) (Some regs) w))
  = bus w ++ writes_of regs /\
  slept_ms (snd (gc2145_write_array (Some c) (Some regs) w))
  = slept_ms w + delay_of regs /\
  same_lines w (snd (gc2145_write_array (Some c) (Some regs) w)).
Proof.
  intros Hne Hacc. rewrite (write_array_rows _ _ _ Hne).
  destruct (write_array_loop_dispatch c regs w) as (Hr & Hb).
  destruct (write_array_loop_prefix c regs w) as (_ & Hl & n & _ & Hs & Hall).
  rewrite (dispatch_accepts_ret _ _ _ Hacc) in Hr.
  rewrite (dispatch_accepts_bus _ _ _ Hacc) in Hb.
  split; [exact Hr |]. split; [exact Hb |]. split; [| exact Hl].
  rewrite Hs, Hall; [reflexivity | lia].
Qed.

Lemma write_array_all_accepted_witness :
  fst (gc2145_write_array (Some (ack_client (fun _ => 0)))
                          (Some sample_program) hw0) = 0 /\
  bus (snd (gc2145_write_array (Some (ack_client (fun _ => 0)))
                               (Some sample_program) hw0))
  = bus hw0 ++ writes_of sample_program /\
  slept_ms (snd (gc2145_write_array (Some (ack_client (fun _ => 0)))
                                    (Some sample_program) hw0))
  = slept_ms hw0 + delay_of sample_program /\
  same_lines hw0 (snd (gc2145_write_array (Some (ack_client (fun _ => 0)))
                                          (Some sample_program) hw0)).
Proof.
  apply (write_array_all_accepted (ack_client (fun _ => 0)) sample_program hw0).
  - discriminate.
  - intros j x _. simpl. lia.
Defined.

(** X3.  Whatever its arguments and whatever the transport does,
    [gc2145_write_array] returns 0 or a negative code, only appends to the
    bus log, and leaves the GPIO lines, the reference clock and the
    microsecond delays alone. *)
Theorem write_array_frame (client : option i2c_client)
    (regs : option (list gc2145_reg)) (w : hw) :
  fst (gc2145_write_array client regs w) <= 0 /\
  same_lines w (snd (gc2145_write_array client regs w)) /\
  exists new : list xfer,
    bus (snd (gc2145_write_array client regs w)) = bus w ++ new /\
    (length new <= match regs with Some rows => length rows | None => 0 end)%nat.
Proof.
  destruct client as [c |]; [destruct regs as [[| r rows] |] |].
  - simpl. split; [unfold EINVAL; lia |]. split; [apply same_lines_refl |].
    exists []. rewrite app_nil_r. auto.
  - rewrite write_array_rows by discriminate.
    destruct (write_array_loop_prefix c (r :: rows) w) as (Hle & Hl & n & Hb & _).
    split; [exact Hle |]. split; [exact Hl |].
    exists (writes_of (firstn n (r :: rows))). split; [exact Hb |].
    unfold writes_of. rewrite length_map.
    eapply Nat.le_trans; [apply filter_length_le |].
    rewrite length_firstn. apply Nat.le_min_r.
  - simpl. split; [unfold EINVAL; lia |]. split; [apply same_lines_refl |].
    exists []. rewrite app_nil_r. auto.
  - simpl. split; [unfold EINVAL; lia |]. split; [apply same_lines_refl |].
    exists []. rewrite app_nil_r. split; [reflexivity | simpl; lia].
Qed.

(** ** Enumeration and lookup *)

Lemma format_codes_nodup : NoDup (map pix_code gc2145_format_list).
Proof.
  simpl. repeat constructor; simpl; intros H;
    repeat (destruct H as [H | H]; [discriminate H |]); exact H.
Qed.

(** X4.  On pad 0, [gc2145_enum_mbus_code] answers index [i] below 6 with
    the code of catalog entry [i], and looking that code up again with
    [gc2145_find_pixfmt] gives entry [i] back; an index of 6 or more is
    refused with [-EINVAL] and the request is left as it was. *)
Theorem enum_mbus_code_lookup (e : v4l2_subdev_mbus_code_enum) :
  mce_pad e = 0 -> 0 <= mce_index e ->
  (mce_index e < 6 ->
   exists p : gc2145_pixfmt,
     nth_error gc2145_format_list (Z.to_nat (mce_index e)) = Some p /\
     gc2145_enum_mbus_code e
     = (0, mk_code_enum (mce_pad e) (mce_index e) (pix_code p)) /\
     gc2145_find_pixfmt (pix_code p) = p) /\
  (6 <= mce_index e -> gc2145_enum_mbus_code e = (- EINVAL, e)).
Proof.
  destruct e as [p i c]. cbn [mce_pad mce_index]. intros -> Hi. split.
  - intros Hlt.
    assert (E : i = 0 \/ i = 1 \/ i = 2 \/ i = 3 \/ i = 4 \/ i = 5) by lia.
    repeat (destruct E as [-> | E];
            [eexists; split; [reflexivity |]; split; reflexivity |]).
    subst i. eexists; split; [reflexivity |]; split; reflexivity.
  - intros Hge. unfold gc2145_enum_mbus_code. cbn [mce_pad mce_index].
    change (negb (0 =? 0)) with false. cbv iota. rewrite format_list_size.
    apply Z.geb_le in Hge. rewrite Hge. reflexivity.
Qed.

Lemma enum_mbus_code_lookup_witness :
  exists p : gc2145_pixfmt,
    nth_error gc2145_format_list (Z.to_nat 2) = Some p /\
    gc2145_enum_mbus_code (mk_code_enum 0 2 0)
    = (0, mk_code_enum 0 2 (pix_code p)) /\
    gc2145_find_pixfmt (pix_code p) = p.
Proof.
  apply (proj1 (enum_mbus_code_lookup (mk_code_enum 0 2 0) eq_refl
                  ltac:(simpl; lia))).
  simpl. lia.
Defined.

Lemma find_pixfmt_code_absent (c : Z) :
  ~ In c (map pix_code gc2145_format_list) ->
  (c =? pix_code (gc2145_find_pixfmt c)) = false.
Proof.
  intros H. apply Z.eqb_neq. intros E. apply H. rewrite E.
  apply in_map. apply find_pixfmt_in.
Qed.

(** X5.  A frame-size request with a supported code and an index below 4 is
    answered with return code 0 and minimum = maximum = the active
    dimensions of mode [index]; the pad, index and code of the request are
    kept. *)
Theorem enum_frame_size_valid (fse : v4l2_subdev_frame_size_enum) :
  In (fse_code fse) (map pix_code gc2145_format_list) ->
  0 <= fse_index fse < 4 ->
  exists m : gc2145_mode,
    nth_error gc2145_mode_list (Z.to_nat (fse_index fse)) = Some m /\
    gc2145_enum_frame_size fse
    = Returns (0, mk_fse (fse_index fse) (fse_pad fse) (fse_code fse)
                         (hact m) (hact m) (vact m) (vact m)).
Proof.
  intros Hcode Hidx.
  destruct (find_pixfmt_present _ Hcode) as (_ & _ & Hc & _).
  unfold gc2145_enum_frame_size. rewrite Hc, Z.eqb_refl, format_list_size.
  assert (E : fse_index fse = 0 \/ fse_index fse = 1 \/ fse_index fse = 2
              \/ fse_index fse = 3) by lia.
  destruct E as [E | [E | [E | E]]]; rewrite E;
    eexists; split; reflexivity.
Qed.

Lemma enum_frame_size_valid_witness :
  exists m : gc2145_mode,
    nth_error gc2145_mode_list (Z.to_nat 3) = Some m /\
    gc2145_enum_frame_size (mk_fse 3 0 MEDIA_BUS_FMT_SBGGR8_1X8 0 0 0 0)
    = Returns (0, mk_fse 3 0 MEDIA_BUS_FMT_SBGGR8_1X8
                         (hact m) (hact m) (vact m) (vact m)).
Proof.
  apply (enum_frame_size_valid (mk_fse 3 0 MEDIA_BUS_FMT_SBGGR8_1X8 0 0 0 0)).
  - simpl. do 5 right. left. reflexivity.
  - simpl. lia.
Defined.

(** X6.  The error cases of [gc2145_enum_frame_size].  An index of 6 or
    more, or a code the catalog lacks with any index below 6, is refused
    with [-EINVAL] and the request left as it was; the function leaves the
    mode table exactly when the code is supported and the index is 4 or
    5. *)
Theorem enum_frame_size_errors (fse : v4l2_subdev_frame_size_enum) :
  0 <= fse_index fse ->
  (6 <= fse_index fse -> gc2145_enum_frame_size fse = Returns (- EINVAL, fse)) /\
  (fse_index fse < 6 ->
   ~ In (fse_code fse) (map pix_code gc2145_format_list) ->
   gc2145_enum_frame_size fse = Returns (- EINVAL, fse)) /\
  (gc2145_enum_frame_size fse = OutOfBounds <->
   In (fse_code fse) (map pix_code gc2145_format_list) /\
   (fse_index fse = 4 \/ fse_index fse = 5)).
Proof.
  intros H0. split; [| split].
  - intros Hge. unfold gc2145_enum_frame_size. rewrite format_list_size.
    apply Z.geb_le in Hge. rewrite Hge. reflexivity.
  - intros Hlt Hout. unfold gc2145_enum_frame_size. rewrite format_list_size.
    destruct (Z.geb_spec (fse_index fse) 6); [lia |].
    rewrite (find_pixfmt_code_absent _ Hout). reflexivity.
  - split.
    + intros Hoob.
      destruct (in_dec Z.eq_dec (fse_code fse) (map pix_code gc2145_format_list))
        as [Hin | Hout].
      * split; [exact Hin |].
        destruct (Z_lt_le_dec (fse_index fse) 4) as [Hlt | Hge4].
        -- destruct (enum_frame_size_valid fse Hin ltac:(lia)) as (m & _ & E).
           rewrite E in Hoob. discriminate Hoob.
        -- destruct (Z_lt_le_dec (fse_index fse) 6) as [Hlt6 | Hge6]; [lia |].
           exfalso. unfold gc2145_enum_frame_size in Hoob.
           rewrite format_list_size in Hoob.
           apply Z.geb_le in Hge6. rewrite Hge6 in Hoob. discriminate Hoob.
      * exfalso. unfold gc2145_enum_frame_size in Hoob.
        destruct (fse_index fse >=? ARRAY_SIZE gc2145_format_list);
          [discriminate Hoob |].
        rewrite (find_pixfmt_code_absent _ Hout) in Hoob. discriminate Hoob.
    + intros (Hin & Hidx).
      destruct (find_pixfmt_present _ Hin) as (_ & _ & Hc & _).
      unfold gc2145_enum_frame_size. rewrite Hc, Z.eqb_refl.
      destruct Hidx as [-> | ->]; reflexivity.
Qed.

Lemma enum_frame_size_errors_witness :
  gc2145_enum_frame_size (mk_fse 5 0 0x9999 0 0 0 0)
  = Returns (- EINVAL, mk_fse 5 0 0x9999 0 0 0 0).
Proof.
  apply (proj1 (proj2 (enum_frame_size_errors (mk_fse 5 0 0x9999 0 0 0 0)
                         ltac:(simpl; lia)))).
  - simpl. lia.
  - vm_compute. intros H.
    repeat (destruct H as [H | H]; [discriminate H |]). exact H.
Defined.

(** ** Mode lookup *)

Lemma nearest_size_loop_in (array : list gc2145_mode) (w h : Z) :
  forall best m,
    nearest_size_loop array w h best = Some m ->
    In m array \/ best = Some m.
Proof.
  induction array as [| a array IH]; intros best m H; simpl in H.
  - auto.
  - destruct best as [b |].
    + destruct (size_error a w h <? size_error b w h).
      * destruct (IH _ _ H) as [Hin | E]; [left; right; exact Hin |].
        injection E as <-. left. left. reflexivity.
      * destruct (IH _ _ H) as [Hin | E]; [left; right; exact Hin | auto].
    + destruct (IH _ _ H) as [Hin | E]; [left; right; exact Hin |].
      injection E as <-. left. left. reflexivity.
Qed.

Lemma nearest_size_loop_some (array : list gc2145_mode) (w h : Z) :
  forall b, exists m, nearest_size_loop array w h (Some b) = Some m.
Proof.
  induction array as [| a array IH]; intros b; simpl.
  - eauto.
  - destruct (size_error a w h <? size_error b w h); apply IH.
Qed.

Lemma find_mode_in (sensor : gc2145_dev) (w h : Z) (nearest : bool)
    (m : gc2145_mode) :
  gc2145_find_mode sensor w h nearest = Some m -> In m gc2145_mode_list.
Proof.
  unfold gc2145_find_mode, v4l2_find_nearest_size.
  destruct (nearest_size_loop gc2145_mode_list w h None) as [m' |] eqn:E;
    [| discriminate].
  destruct (negb nearest && _); [discriminate |].
  intros H. injection H as <-.
  destruct (nearest_size_loop_in _ _ _ _ _ E) as [Hin | Hb];
    [exact Hin | discriminate Hb].
Qed.

Lemma wrap_u32_of_int (x : Z) :
  - 2 ^ 31 <= x < 2 ^ 31 ->
  wrap_u32 x = (if x <? 0 then x + 2 ^ 32 else x).
Proof.
  intros H. unfold wrap_u32. destruct (Z.ltb_spec x 0) as [Hn | Hp].
  - symmetry. apply (Z.mod_unique x (2 ^ 32) (-1)); lia.
  - apply Z.mod_small. lia.
Qed.

Lemma mode_dimensions_small (m : gc2145_mode) :
  In m gc2145_mode_list -> 0 < hact m <= 1600 /\ 0 < vact m <= 1200.
Proof.
  intros Hin. simpl in Hin.
  repeat (destruct Hin as [<- | Hin]; [simpl; lia |]). contradiction.
Qed.

(** X7.  With [nearest] false, [gc2145_find_mode] is an exact lookup: for
    every width and height in the range of [int], negative ones included,
    it returns a mode if and only if that mode is in the catalog with
    exactly the requested width and height (NULL otherwise).  The
    nearest-size search itself is the framework helper, modelled from the
    specification. *)
Theorem find_mode_exact (sensor : gc2145_dev) (w h : Z) (m : gc2145_mode) :
  - 2 ^ 31 <= w < 2 ^ 31 -> - 2 ^ 31 <= h < 2 ^ 31 ->
  (gc2145_find_mode sensor w h false = Some m <->
   In m gc2145_mode_list /\ hact m = w /\ vact m = h).
Proof.
  intros Hw Hh. split.
  - intros H. pose proof (find_mode_in _ _ _ _ _ H) as Hin.
    split; [exact Hin |].
    destruct (mode_dimensions_small m Hin) as (Hha & Hva).
    unfold gc2145_find_mode in H.
    destruct (v4l2_find_nearest_size gc2145_mode_list w h) as [m' |];
      [| discriminate H].
    cbn [negb andb] in H.
    destruct (Z.eqb_spec (hact m') (wrap_u32 w)) as [E1 | E1];
      destruct (Z.eqb_spec (vact m') (wrap_u32 h)) as [E2 | E2];
      cbn [negb orb] in H; try discriminate H.
    injection H as <-.
    rewrite (wrap_u32_of_int w Hw) in E1. rewrite (wrap_u32_of_int h Hh) in E2.
    destruct (Z.ltb_spec w 0); destruct (Z.ltb_spec h 0); lia.
  - intros (Hin & <- & <-). simpl in Hin.
    repeat (destruct Hin as [<- | Hin]; [reflexivity |]). contradiction.
Qed.

Lemma find_mode_exact_witness :
  gc2145_find_mode (probed nak_client) 640 480 false
  = nth_error gc2145_mode_list 1.
Proof.
  apply (proj2 (find_mode_exact (probed nak_client) 640 480
                  (mk_mode GC2145_MODE_VGA_640_480 640 640 480 480
                     gc2145_setting_vga (ARRAY_SIZE gc2145_setting_vga))
                  ltac:(lia) ltac:(lia))).
  split; [simpl; right; left; reflexivity | split; reflexivity].
Defined.

(** X8.  With [nearest] true, [gc2145_find_mode] never returns NULL: for
    every requested width and height it returns a mode of the catalog. *)
Theorem find_mode_nearest_total (sensor : gc2145_dev) (w h : Z) :
  exists m : gc2145_mode,
    gc2145_find_mode sensor w h true = Some m /\ In m gc2145_mode_list.
Proof.
  destruct (nearest_size_loop_some (tl gc2145_mode_list) w h
              (hd svga_mode gc2145_mode_list)) as (m & Hm).
  assert (E : v4l2_find_nearest_size gc2145_mode_list w h = Some m)
    by exact Hm.
  assert (Hfm : gc2145_find_mode sensor w h true = Some m).
  { unfold gc2145_find_mode. rewrite E. reflexivity. }
  exists m. split; [exact Hfm | apply (find_mode_in _ _ _ _ _ Hfm)].
Qed.

(** ** Format resolution *)

Lemma find_mode_of_catalog (sensor : gc2145_dev) (m : gc2145_mode) :
  In m gc2145_mode_list ->
  gc2145_find_mode sensor (wrap_int (hact m)) (wrap_int (vact m)) true = Some m.
Proof.
  intros Hin. simpl in Hin.
  repeat (destruct Hin as [<- | Hin]; [reflexivity |]). contradiction.
Qed.

Lemma catalog_colorimetry (p : gc2145_pixfmt) :
  In p gc2145_format_list ->
  V4L2_MAP_YCBCR_ENC_DEFAULT (pix_colorspace p) = V4L2_YCBCR_ENC_601 /\
  V4L2_MAP_QUANTIZATION_DEFAULT true (pix_colorspace p)
    (V4L2_MAP_YCBCR_ENC_DEFAULT (pix_colorspace p))
  = V4L2_QUANTIZATION_FULL_RANGE /\
  V4L2_MAP_XFER_FUNC_DEFAULT (pix_colorspace p)
  = (if pix_colorspace p =? V4L2_COLORSPACE_RAW
     then V4L2_XFER_FUNC_NONE else V4L2_XFER_FUNC_SRGB).
Proof.
  intros Hin. simpl in Hin.
  repeat (destruct Hin as [<- | Hin]; [repeat split |]). contradiction.
Qed.

Lemma try_fmt_internal_shape (sensor : gc2145_dev) (f : v4l2_mbus_framefmt)
    (slot : option gc2145_mode) :
  exists m : gc2145_mode,
    In m gc2145_mode_list /\
    gc2145_try_fmt_internal sensor f (Some slot)
    = (0,
       mk_framefmt (hact m) (vact m) (pix_code (gc2145_find_pixfmt (code f)))
         V4L2_FIELD_NONE (pix_colorspace (gc2145_find_pixfmt (code f)))
         (V4L2_MAP_YCBCR_ENC_DEFAULT
            (pix_colorspace (gc2145_find_pixfmt (code f))))
         (V4L2_MAP_QUANTIZATION_DEFAULT true
            (pix_colorspace (gc2145_find_pixfmt (code f)))
            (V4L2_MAP_YCBCR_ENC_DEFAULT
               (pix_colorspace (gc2145_find_pixfmt (code f)))))
         (V4L2_MAP_XFER_FUNC_DEFAULT
            (pix_colorspace (gc2145_find_pixfmt (code f)))),
       Some (Some m)).
Proof.
  destruct (find_mode_nearest_total sensor (wrap_int (width f))
              (wrap_int (height f))) as (m & Hm & Hin).
  exists m. split; [exact Hin |].
  unfold gc2145_try_fmt_internal. rewrite Hm. reflexivity.
Qed.

(** X9.  [gc2145_try_fmt_internal] with a mode slot never fails.  Whatever
    is requested, it returns 0 with the dimensions of a catalog mode (the
    one stored in the slot), the code and colorspace of a catalog pixel
    format, progressive field order, BT.601 encoding, full-range
    quantization, and the sRGB transfer function unless the colorspace is
    RAW (then none).  With a NULL slot it returns [-EINVAL] and leaves the
    format as it was. *)
Theorem try_fmt_internal_result (sensor : gc2145_dev) (f : v4l2_mbus_framefmt)
    (slot : option gc2145_mode) :
  (exists (m : gc2145_mode) (p : gc2145_pixfmt),
     In m gc2145_mode_list /\ In p gc2145_format_list /\
     p = gc2145_find_pixfmt (code f) /\
     gc2145_try_fmt_internal sensor f (Some slot)
     = (0,
        mk_framefmt (hact m) (vact m) (pix_code p) V4L2_FIELD_NONE
          (pix_colorspace p) V4L2_YCBCR_ENC_601 V4L2_QUANTIZATION_FULL_RANGE
          (if pix_colorspace p =? V4L2_COLORSPACE_RAW
           then V4L2_XFER_FUNC_NONE else V4L2_XFER_FUNC_SRGB),
        Some (Some m))) /\
  gc2145_try_fmt_internal sensor f None = (- EINVAL, f, None).
Proof.
  split; [| reflexivity].
  destruct (try_fmt_internal_shape sensor f slot) as (m & Hin & E).
  exists m, (gc2145_find_pixfmt (code f)).
  split; [exact Hin |]. split; [apply find_pixfmt_in |].
  split; [reflexivity |].
  destruct (catalog_colorimetry _ (find_pixfmt_in (code f))) as (H1 & H2 & H3).
  rewrite E, H2, H1, H3. reflexivity.
Qed.

(** X10.  Format resolution is idempotent: feeding the format and the mode
    slot that [gc2145_try_fmt_internal] produced back into it returns the
    same result.  (The nearest-size search is the framework helper,
    modelled from the specification.) *)
Theorem try_fmt_internal_idempotent (sensor : gc2145_dev)
    (f : v4l2_mbus_framefmt) (slot : option gc2145_mode) :
  gc2145_try_fmt_internal sensor
    (snd (fst (gc2145_try_fmt_internal sensor f (Some slot))))
    (snd (gc2145_try_fmt_internal sensor f (Some slot)))
  = gc2145_try_fmt_internal sensor f (Some slot).
Proof.
  destruct (try_fmt_internal_shape sensor f slot) as (m & Hin & E).
  rewrite E. cbn [fst snd]. unfold gc2145_try_fmt_internal.
  cbn [width height code].
  rewrite (find_mode_of_catalog sensor m Hin), find_pixfmt_idem.
  reflexivity.
Qed.

(** ** Trial and active requests *)

(** X11.  A trial [gc2145_set_fmt] on pad 0 is pure negotiation: it returns
    0, leaves the hardware state and the driver state exactly as they were,
    and a trial [gc2145_get_fmt] on the same file handle then returns the
    very format the call handed back to its caller. *)
Theorem set_fmt_trial_round_trip (sensor : gc2145_dev)
    (cfg : v4l2_subdev_pad_config) (f : v4l2_subdev_format) (w : hw) :
  pad f = 0 -> which f = V4L2_SUBDEV_FORMAT_TRY ->
  snd (gc2145_set_fmt sensor cfg f w) = w /\
  sf_ret (fst (gc2145_set_fmt sensor cfg f w)) = 0 /\
  sf_sensor (fst (gc2145_set_fmt sensor cfg f w)) = sensor /\
  forall (sensor' : gc2145_dev) (q : v4l2_subdev_format),
    pad q = 0 -> which q = V4L2_SUBDEV_FORMAT_TRY ->
    gc2145_get_fmt sensor' (sf_cfg (fst (gc2145_set_fmt sensor cfg f w))) q
    = (0, mk_format (which q) (pad q)
            (format (sf_format (fst (gc2145_set_fmt sensor cfg f w))))).
Proof.
  intros Hp Hw. rewrite (set_fmt_try_eq _ _ _ _ Hp Hw). cbn zeta.
  cbn [fst snd sf_ret sf_sensor sf_cfg sf_format format].
  repeat split. intros sensor' q Hq Hwq. unfold gc2145_get_fmt.
  rewrite Hq, Hwq. reflexivity.
Qed.

Lemma set_fmt_trial_round_trip_witness :
  snd (gc2145_set_fmt (probed nak_client) (mk_cfg blank_fmt)
         (request V4L2_SUBDEV_FORMAT_TRY 320 240 MEDIA_BUS_FMT_YVYU8_2X8) hw0)
  = hw0.
Proof.
  apply (proj1 (set_fmt_trial_round_trip (probed nak_client) (mk_cfg blank_fmt)
                  (request V4L2_SUBDEV_FORMAT_TRY 320 240
                           MEDIA_BUS_FMT_YVYU8_2X8) hw0 eq_refl eq_refl)).
Defined.

Lemma delay_of_prefix_zero (regs : list gc2145_reg) :
  forallb (fun r => negb (is_delay r) || (val r =? 0)) regs = true ->
  forall n : nat, delay_of (firstn n regs) = 0.
Proof.
  induction regs as [| r regs IH]; intros Hall n.
  - destruct n; reflexivity.
  - simpl in Hall. apply andb_prop in Hall. destruct Hall as (Hr & Hall).
    destruct n as [| n]; [reflexivity |]. rewrite firstn_cons.
    destruct (is_delay r) eqn:Hd.
    + rewrite (delay_of_cons_delay _ _ Hd), (IH Hall n).
      simpl in Hr. apply Z.eqb_eq in Hr. lia.
    + rewrite (delay_of_cons_write _ _ Hd). apply (IH Hall n).
Qed.

Lemma init_regs_delays_zero (n : nat) :
  delay_of (firstn n gc2145_init_regs) = 0.
Proof. apply delay_of_prefix_zero. vm_compute. reflexivity. Qed.

Lemma write_reg_frame (c : i2c_client) (a v : Z) (w : hw) :
  fst (gc2145_write_reg c a v w) <= 0 /\
  slept_ms (snd (gc2145_write_reg c a v w)) = slept_ms w /\
  same_lines w (snd (gc2145_write_reg c a v w)).
Proof.
  destruct (write_reg_run c a v w) as (_ & Hs & Hl & _).
  destruct (write_reg_ret c a v w) as [H | (H & _)];
    (split; [lia | split; [exact Hs | exact Hl]]).
Qed.

(** [gc2145_params_set] returns 0 or a negative code, never sleeps (the one
    delay marker of the init program encodes 0 ms) and leaves the GPIO
    lines and the clock alone. *)
Lemma params_set_frame (sensor : gc2145_dev) (f : v4l2_mbus_framefmt) (w : hw) :
  fst (gc2145_params_set sensor f w) <= 0 /\
  slept_ms (snd (gc2145_params_set sensor f w)) = slept_ms w /\
  same_lines w (snd (gc2145_params_set sensor f w)).
Proof.
  rewrite params_set_eq. cbv zeta.
  set (c := client_of sensor).
  set (row := hd (R 0 0) (fmt_reg (gc2145_find_pixfmt (code (fmt sensor))))).
  destruct (write_array_loop_prefix c gc2145_init_regs w)
    as (Hle1 & Hl1 & n & _ & Hs1 & _).
  rewrite init_regs_delays_zero, Z.add_0_r in Hs1.
  destruct (write_array_loop c gc2145_init_regs 0 w) as [ret1 w1].
  cbn [fst snd] in *.
  destruct (ret1 <? 0); [cbn [fst snd]; auto |].
  destruct (write_reg_frame c GC2145_REG_PAGE_SELECT 0 w1) as (Hle2 & Hs2 & Hl2).
  destruct (gc2145_write_reg c GC2145_REG_PAGE_SELECT 0 w1) as [ret2 w2].
  cbn [fst snd] in *.
  destruct (ret2 <? 0).
  { cbn [fst snd]. split; [exact Hle2 |]. split; [congruence |].
    eapply same_lines_trans; eauto. }
  destruct (write_reg_frame c (addr row) (val row) w2) as (Hle3 & Hs3 & Hl3).
  destruct (gc2145_write_reg c (addr row) (val row) w2) as [ret3 w3].
  cbn [fst snd] in *.
  destruct (ret3 <? 0); cbn [fst snd];
    (split; [lia |]; split; [congruence |];
     eapply same_lines_trans; [exact Hl1 |];
     eapply same_lines_trans; eauto).
Qed.

Lemma set_fmt_active_hw (sensor : gc2145_dev) (cfg : v4l2_subdev_pad_config)
    (f : v4l2_subdev_format) (w : hw) :
  pad f = 0 -> which f = V4L2_SUBDEV_FORMAT_ACTIVE ->
  snd (gc2145_set_fmt sensor cfg f w)
  = snd (gc2145_params_set
           (committed sensor
              (resolved_fmt (gc2145_find_pixfmt (code (format f)))))
           (resolved_fmt (gc2145_find_pixfmt (code (format f)))) w) /\
  sf_ret (fst (gc2145_set_fmt sensor cfg f w))
  = fst (gc2145_params_set
           (committed sensor
              (resolved_fmt (gc2145_find_pixfmt (code (format f)))))
           (resolved_fmt (gc2145_find_pixfmt (code (format f)))) w).
Proof.
  intros Hp Ha.
  pose proof (set_fmt_active_eq sensor cfg f w Hp Ha) as E. cbv zeta in E.
  rewrite E. clear E.
  destruct (gc2145_params_set _ _ w) as [ret w']. split; reflexivity.
Qed.

(** X12.  An active [gc2145_set_fmt] on pad 0 touches only the stored
    format, the current mode and the I2C bus.  The try format of the file
    handle, the power count, the last mode, the GPIO lines and the
    reference clock are as before, the call never sleeps, and it returns 0
    or a negative code. *)
Theorem set_fmt_active_frame (sensor : gc2145_dev)
    (cfg : v4l2_subdev_pad_config) (f : v4l2_subdev_format) (w : hw) :
  pad f = 0 -> which f = V4L2_SUBDEV_FORMAT_ACTIVE ->
  sf_cfg (fst (gc2145_set_fmt sensor cfg f w)) = cfg /\
  power_count (sf_sensor (fst (gc2145_set_fmt sensor cfg f w)))
  = power_count sensor /\
  last_mode (sf_sensor (fst (gc2145_set_fmt sensor cfg f w)))
  = last_mode sensor /\
  same_lines w (snd (gc2145_set_fmt sensor cfg f w)) /\
  slept_ms (snd (gc2145_set_fmt sensor cfg f w)) = slept_ms w /\
  sf_ret (fst (gc2145_set_fmt sensor cfg f w)) <= 0.
Proof.
  intros Hp Ha.
  destruct (set_fmt_active_run sensor cfg f w Hp Ha) as (_ & _ & Hs & Hc & _).
  destruct (set_fmt_active_hw sensor cfg f w Hp Ha) as (Hw & Hr).
  destruct (params_set_frame
              (committed sensor
                 (resolved_fmt (gc2145_find_pixfmt (code (format f)))))
              (resolved_fmt (gc2145_find_pixfmt (code (format f)))) w)
    as (Hle & Hms & Hl).
  rewrite Hs, Hc, Hw, Hr. repeat split; try assumption; apply Hl.
Qed.

Lemma set_fmt_active_frame_witness :
  sf_cfg (fst (gc2145_set_fmt (probed nak_client) (mk_cfg blank_fmt)
                 (request V4L2_SUBDEV_FORMAT_ACTIVE 640 480
                          MEDIA_BUS_FMT_YUYV8_2X8) hw0))
  = mk_cfg blank_fmt.
Proof.
  apply (proj1 (set_fmt_active_frame (probed nak_client) (mk_cfg blank_fmt)
                  (request V4L2_SUBDEV_FORMAT_ACTIVE 640 480
                           MEDIA_BUS_FMT_YUYV8_2X8) hw0 eq_refl eq_refl)).
Defined.

Lemma s_power_cases (sensor : gc2145_dev) (on : Z) (w : hw) :
  (fst (fst (gc2145_s_power sensor on w)) = 0 /\
   snd (fst (gc2145_s_power sensor on w))
   = set_power_count sensor
       (wrap_int (power_count sensor + (if negb (on =? 0) then 1 else -1)))) \/
  (fst (fst (gc2145_s_power sensor on w)) = -1 /\
   snd (fst (gc2145_s_power sensor on w)) = sensor /\
   power_count sensor = c_not on /\
   (pwdn_gpio sensor = false \/ reset_gpio sensor = false)).
Proof.
  unfold gc2145_s_power, mbind.
  destruct (Z.eqb_spec (power_count sensor) (c_not on)) as [E | E].
  - unfold gc2145_set_power_on, gc2145_power, gc2145_reset.
    destruct (pwdn_gpio sensor); destruct (reset_gpio sensor); cbn;
      auto 6.
  - cbn. auto.
Qed.

(** X13.  Format negotiation keeps its invariant.  The state set up at
    probe time has SVGA as current mode and an 800x600 progressive format
    with a catalog code, and every [gc2145_set_fmt] (any pad, any kind, any
    outcome of the register writes) and every [gc2145_s_power] call leaves
    a state that satisfies this again. *)
Theorem fmt_invariant_preserved :
  (forall s : gc2145_dev, fmt_invariant (gc2145_mode_set_default s)) /\
  (forall s cfg f w,
     fmt_invariant s ->
     fmt_invariant (sf_sensor (fst (gc2145_set_fmt s cfg f w)))) /\
  (forall s on w,
     fmt_invariant s -> fmt_invariant (snd (fst (gc2145_s_power s on w)))).
Proof.
  split; [| split].
  - intros s. unfold fmt_invariant. cbn. repeat split. left. reflexivity.
  - intros s cfg f w Hinv.
    assert (Hres : forall s', current_mode s' = Some svga_mode ->
              fmt s' = resolved_fmt (gc2145_find_pixfmt (code (format f))) ->
              fmt_invariant s').
    { intros s' Hm Hf. unfold fmt_invariant. rewrite Hm, Hf.
      cbn [resolved_fmt width height field code]. repeat split.
      apply in_map. apply find_pixfmt_in. }
    destruct (Z.eq_dec (pad f) 0) as [Hp | Hp].
    + destruct (Z.eq_dec (which f) V4L2_SUBDEV_FORMAT_ACTIVE) as [Ha | Ha].
      * destruct (set_fmt_active_run s cfg f w Hp Ha) as (_ & _ & Hs & _).
        rewrite Hs. apply Hres; reflexivity.
      * destruct (Z.eq_dec (which f) V4L2_SUBDEV_FORMAT_TRY) as [Ht | Ht].
        -- rewrite (set_fmt_try_eq _ _ _ _ Hp Ht). exact Hinv.
        -- rewrite (set_fmt_other_eq _ _ _ _ Hp Ht Ha). cbn zeta.
           cbn [fst sf_sensor]. apply Hres; [apply Hinv | reflexivity].
    + rewrite (set_fmt_bad_pad _ _ _ _ Hp). exact Hinv.
  - intros s on w Hinv.
    destruct (s_power_cases s on w) as [(_ & E) | (_ & E & _)];
      rewrite E; exact Hinv.
Qed.

Lemma fmt_invariant_preserved_witness :
  fmt_invariant
    (sf_sensor (fst (gc2145_set_fmt (probed nak_client) (mk_cfg blank_fmt)
                       (request V4L2_SUBDEV_FORMAT_ACTIVE 1600 1200 0x9999)
                       hw0))).
Proof.
  apply (proj1 (proj2 fmt_invariant_preserved)).
  apply (proj1 fmt_invariant_preserved).
Defined.

(** X14.  An active [gc2145_set_fmt] is idempotent on the driver state:
    repeating the request (on any hardware state, with any file handle)
    leaves the state the first call produced.  In the state set up at
    probe time, a request whose code resolves to catalog entry 0 changes
    nothing at all. *)
Theorem set_fmt_active_idempotent (sensor : gc2145_dev)
    (cfg : v4l2_subdev_pad_config) (f : v4l2_subdev_format) (w : hw) :
  pad f = 0 -> which f = V4L2_SUBDEV_FORMAT_ACTIVE ->
  (forall cfg' w',
     sf_sensor (fst (gc2145_set_fmt
                       (sf_sensor (fst (gc2145_set_fmt sensor cfg f w)))
                       cfg' f w'))
     = sf_sensor (fst (gc2145_set_fmt sensor cfg f w))) /\
  (nth_error gc2145_format_list 0
   = Some (gc2145_find_pixfmt (code (format f))) ->
   sf_sensor (fst (gc2145_set_fmt (gc2145_mode_set_default sensor) cfg f w))
   = gc2145_mode_set_default sensor).
Proof.
  intros Hp Ha. split.
  - intros cfg' w'.
    destruct (set_fmt_active_run sensor cfg f w Hp Ha) as (_ & _ & Hs & _).
    rewrite Hs.
    destruct (set_fmt_active_run
                (committed sensor
                   (resolved_fmt (gc2145_find_pixfmt (code (format f)))))
                cfg' f w' Hp Ha) as (_ & _ & Hs' & _).
    rewrite Hs'. reflexivity.
  - intros H0. cbn [nth_error gc2145_format_list] in H0. injection H0 as H0.
    destruct (set_fmt_active_run (gc2145_mode_set_default sensor) cfg f w Hp Ha)
      as (_ & _ & Hs & _).
    rewrite Hs, <- H0. reflexivity.
Qed.

Lemma set_fmt_active_idempotent_witness :
  sf_sensor (fst (gc2145_set_fmt (probed nak_client) (mk_cfg blank_fmt)
                    (request V4L2_SUBDEV_FORMAT_ACTIVE 640 480 0x9999) hw0))
  = probed nak_client.
Proof.
  apply (proj2 (set_fmt_active_idempotent
                  (mk_dev blank_fmt nak_client true true None None 0)
                  (mk_cfg blank_fmt)
                  (request V4L2_SUBDEV_FORMAT_ACTIVE 640 480 0x9999) hw0
                  eq_refl eq_refl)).
  reflexivity.
Defined.

Lemma init_regs_writes_length : length (writes_of gc2145_init_regs) = 637%nat.
Proof. vm_compute. reflexivity. Qed.

Lemma catalog_patch_register (p : gc2145_pixfmt) :
  In p gc2145_format_list ->
  addr (hd (R 0 0) (fmt_reg p)) = GC2145_REG_OUTPUT_FORMAT.
Proof.
  intros Hin. simpl in Hin.
  repeat (destruct Hin as [<- | Hin]; [reflexivity |]). contradiction.
Qed.

(** X15.  When the transport accepts every write, [gc2145_params_set]
    returns 0 after exactly 639 messages: the 637 writes of the init
    program in order, then the page-0 select, then one write to the
    output-format register [GC2145_REG_OUTPUT_FORMAT], whose value is the
    patch of the catalog entry found for the stored code. *)
Theorem params_set_success_writes (sensor : gc2145_dev)
    (f : v4l2_mbus_framefmt) (w : hw) :
  accepts_all (client_of sensor) (bus w)
              (params_writes (gc2145_find_pixfmt (code (fmt sensor)))) ->
  fst (gc2145_params_set sensor f w) = 0 /\
  bus (snd (gc2145_params_set sensor f w))
  = bus w ++ writes_of gc2145_init_regs
          ++ [XWrite GC2145_REG_PAGE_SELECT 0x00;
              XWrite GC2145_REG_OUTPUT_FORMAT
                (val (hd (R 0 0)
                        (fmt_reg (gc2145_find_pixfmt (code (fmt sensor))))))] /\
  length (bus (snd (gc2145_params_set sensor f w)))
  = (length (bus w) + 639)%nat.
Proof.
  intros Hacc.
  destruct (params_set_dispatch sensor f w) as (Hr & Hb). cbv zeta in Hr, Hb.
  rewrite (dispatch_accepts_ret _ _ _ Hacc) in Hr.
  rewrite (dispatch_accepts_bus _ _ _ Hacc) in Hb.
  split; [exact Hr |]. rewrite Hb. unfold params_writes.
  rewrite (catalog_patch_register _ (find_pixfmt_in _)).
  split; [reflexivity |].
  rewrite !length_app, init_regs_writes_length. simpl length. lia.
Qed.

Lemma params_set_success_writes_witness :
  fst (gc2145_params_set (probed (ack_client (fun _ => 0)))
                         (fmt (probed (ack_client (fun _ => 0)))) hw0) = 0.
Proof.
  apply (proj1 (params_set_success_writes (probed (ack_client (fun _ => 0)))
                  (fmt (probed (ack_client (fun _ => 0)))) hw0
                  ltac:(intros j x _; simpl; lia))).
Defined.

(** ** Power sequencing *)



(** X17.  The failures of [gc2145_set_power_on].  Without a power-down
    line it returns -1 and touches nothing.  With the power-down line but
    without a reset line it also returns -1, but only after it has pulsed
    power-down: the line is left deasserted and the device was never
    reset.  A NULL sensor gives -1. *)
Theorem set_power_on_failures (sensor : gc2145_dev) (w : hw) :
  (pwdn_gpio sensor = false ->
   gc2145_set_power_on (Some sensor) w = (-1, w)) /\
  (pwdn_gpio sensor = true -> reset_gpio sensor = false ->
   fst (gc2145_set_power_on (Some sensor) w) = -1 /\
   gpio_trace (snd (gc2145_set_power_on (Some sensor) w))
   = gpio_trace w ++ [(PWDN, 1); (PWDN, 0)] /\
   pwdn_level (snd (gc2145_set_power_on (Some sensor) w)) = 0 /\
   reset_level (snd (gc2145_set_power_on (Some sensor) w)) = reset_level w) /\
  gc2145_set_power_on None w = (-1, w).
Proof.
  split; [| split].
  - intros Hp. unfold gc2145_set_power_on, gc2145_power. rewrite Hp.
    reflexivity.
  - intros Hp Hr. unfold gc2145_set_power_on, gc2145_power, gc2145_reset.
    rewrite Hp, Hr. cbn. rewrite <- !app_assoc. repeat split.
  - reflexivity.
Qed.

Lemma set_power_on_failures_witness :
  fst (gc2145_set_power_on (Some (no_reset nak_client)) hw0) = -1 /\
  gpio_trace (snd (gc2145_set_power_on (Some (no_reset nak_client)) hw0))
  = gpio_trace hw0 ++ [(PWDN, 1); (PWDN, 0)] /\
  pwdn_level (snd (gc2145_set_power_on (Some (no_reset nak_client)) hw0)) = 0 /\
  reset_level (snd (gc2145_set_power_on (Some (no_reset nak_client)) hw0))
  = reset_level hw0.
Proof.
  apply (proj1 (proj2 (set_power_on_failures (no_reset nak_client) hw0))).
  - reflexivity.
  - reflexivity.
Defined.

(** X18.  [gc2145_set_power_off] with a power-down line asserts it, waits
    100 us, releases one reference of the clock and returns 0, without
    touching the reset line or the bus.  Without a power-down line it
    returns -1 and the clock stays enabled. *)
Theorem set_power_off_effects (sensor : gc2145_dev) (w : hw) :
  (pwdn_gpio sensor = true ->
   fst (gc2145_set_power_off sensor w) = 0 /\
   pwdn_level (snd (gc2145_set_power_off sensor w)) = 1 /\
   gpio_trace (snd (gc2145_set_power_off sensor w))
   = gpio_trace w ++ [(PWDN, 1)] /\
   xclk_enabled (snd (gc2145_set_power_off sensor w)) = xclk_enabled w - 1 /\
   slept_us (snd (gc2145_set_power_off sensor w)) = slept_us w + 100 /\
   reset_level (snd (gc2145_set_power_off sensor w)) = reset_level w /\
   bus (snd (gc2145_set_power_off sensor w)) = bus w) /\
  (pwdn_gpio sensor = false -> gc2145_set_power_off sensor w = (-1, w)).
Proof.
  split; intros Hp; unfold gc2145_set_power_off, gc2145_power; rewrite Hp.
  - cbn. repeat split.
  - reflexivity.
Qed.

Lemma set_power_off_effects_witness :
  gc2145_set_power_off (no_gpio nak_client) hw0 = (-1, hw0).
Proof.
  apply (proj2 (set_power_off_effects (no_gpio nak_client) hw0)).
  reflexivity.
Defined.

Lemma s_power_hw_frame (sensor : gc2145_dev) (on : Z) (w : hw) :
  bus (snd (gc2145_s_power sensor on w)) = bus w /\
  slept_ms (snd (gc2145_s_power sensor on w)) = slept_ms w.
Proof.
  unfold gc2145_s_power, gc2145_set_power_on, gc2145_power, gc2145_reset.
  destruct (power_count sensor =? c_not on);
    destruct (pwdn_gpio sensor); destruct (reset_gpio sensor); split;
    reflexivity.
Qed.

(** X19.  One [gc2145_s_power] call.  It returns 0 or -1.  When it returns
    0 the power count has moved by exactly one (up for a nonzero [on],
    down for 0) and nothing else of the driver state has changed; when it
    returns -1 the guard [power_count == !on] held, a GPIO line is missing,
    and the driver state is unchanged.  In both cases the I2C bus, the
    millisecond delays and the reference clock are untouched. *)
Theorem s_power_step (sensor : gc2145_dev) (on : Z) (w : hw) :
  - 2 ^ 31 < power_count sensor < 2 ^ 31 - 1 ->
  ((fst (fst (gc2145_s_power sensor on w)) = 0 /\
    snd (fst (gc2145_s_power sensor on w))
    = set_power_count sensor
        (if on =? 0 then power_count sensor - 1 else power_count sensor + 1)) \/
   (fst (fst (gc2145_s_power sensor on w)) = -1 /\
    snd (fst (gc2145_s_power sensor on w)) = sensor /\
    power_count sensor = c_not on /\
    (pwdn_gpio sensor = false \/ reset_gpio sensor = false))) /\
  bus (snd (gc2145_s_power sensor on w)) = bus w /\
  slept_ms (snd (gc2145_s_power sensor on w)) = slept_ms w /\
  xclk_enabled (snd (gc2145_s_power sensor on w)) = xclk_enabled w.
Proof.
  intros Hrange.
  destruct (s_power_hw_frame sensor on w) as (Hb & Hs).
  split; [| split; [exact Hb | split; [exact Hs | apply s_power_keeps_clock]]].
  destruct (s_power_cases sensor on w) as [(Hr & E) | H]; [left | right; exact H].
  split; [exact Hr |]. rewrite E. f_equal.
  unfold wrap_int. destruct (on =? 0); cbn [negb];
    rewrite Z.mod_small by lia; lia.
Qed.

Lemma s_power_step_witness :
  ((fst (fst (gc2145_s_power (probed nak_client) 1 hw0)) = 0 /\
    snd (fst (gc2145_s_power (probed nak_client) 1 hw0))
    = set_power_count (probed nak_client)
        (if 1 =? 0 then power_count (probed nak_client) - 1
         else power_count (probed nak_client) + 1)) \/
   (fst (fst (gc2145_s_power (probed nak_client) 1 hw0)) = -1 /\
    snd (fst (gc2145_s_power (probed nak_client) 1 hw0)) = probed nak_client /\
    power_count (probed nak_client) = c_not 1 /\
    (pwdn_gpio (probed nak_client) = false \/
     reset_gpio (probed nak_client) = false))) /\
  bus (snd (gc2145_s_power (probed nak_client) 1 hw0)) = bus hw0 /\
  slept_ms (snd (gc2145_s_power (probed nak_client) 1 hw0)) = slept_ms hw0 /\
  xclk_enabled (snd (gc2145_s_power (probed nak_client) 1 hw0))
  = xclk_enabled hw0.
Proof.
  apply (s_power_step (probed nak_client) 1 hw0). simpl. lia.
Defined.

(** X20.  Reference-count underflow is not an error return.  A power-off
    call when the count is already 0 or below returns 0, takes the count
    one further down, hits [WARN_ON] once, and drives no GPIO line. *)
Theorem s_power_underflow (sensor : gc2145_dev) (w : hw) :
  - 2 ^ 31 < power_count sensor <= 0 ->
  fst (fst (gc2145_s_power sensor 0 w)) = 0 /\
  power_count (snd (fst (gc2145_s_power sensor 0 w)))
  = power_count sensor - 1 /\
  warnings (snd (gc2145_s_power sensor 0 w)) = warnings w + 1 /\
  gpio_trace (snd (gc2145_s_power sensor 0 w)) = gpio_trace w /\
  pwdn_level (snd (gc2145_s_power sensor 0 w)) = pwdn_level w.
Proof.
  intros Hrange. unfold gc2145_s_power, c_not.
  change (0 =? 0) with true. cbv iota.
  destruct (Z.eqb_spec (power_count sensor) 1) as [E | E]; [lia |].
  unfold mbind, mret, WARN_ON. cbn [fst snd negb power_count set_power_count
    warnings gpio_trace pwdn_level].
  assert (Hw : wrap_int (power_count sensor + -1) = power_count sensor - 1).
  { unfold wrap_int. rewrite Z.mod_small by lia. lia. }
  rewrite Hw.
  assert (Hneg : (power_count sensor - 1 <? 0) = true) by (apply Z.ltb_lt; lia).
  rewrite Hneg. repeat split.
Qed.

Lemma s_power_underflow_witness :
  fst (fst (gc2145_s_power (probed nak_client) 0 hw0)) = 0 /\
  power_count (snd (fst (gc2145_s_power (probed nak_client) 0 hw0)))
  = power_count (probed nak_client) - 1 /\
  warnings (snd (gc2145_s_power (probed nak_client) 0 hw0))
  = warnings hw0 + 1 /\
  gpio_trace (snd (gc2145_s_power (probed nak_client) 0 hw0))
  = gpio_trace hw0 /\
  pwdn_level (snd (gc2145_s_power (probed nak_client) 0 hw0))
  = pwdn_level hw0.
Proof.
  apply (s_power_underflow (probed nak_client) hw0). simpl. lia.
Defined.

(** ** Flip controls, continued *)

Lemma testbit_one (i : Z) : Z.testbit 1 i = (i =? 0).
Proof.
  change 1 with (2 ^ 0). destruct (Z.eqb_spec i 0) as [-> | H].
  - reflexivity.
  - destruct (Z.lt_ge_cases i 0) as [Hn | Hp].
    + apply Z.testbit_neg_r. exact Hn.
    + apply Z.pow2_bits_false. congruence.
Qed.

Lemma testbit_0xfe (i : Z) : 0 <= i < 8 -> Z.testbit 0xfe i = negb (i =? 0).
Proof.
  intros H.
  assert (E : i = 0 \/ i = 1 \/ i = 2 \/ i = 3 \/ i = 4 \/ i = 5 \/ i = 6 \/ i = 7)
    by lia.
  repeat (destruct E as [-> | E]; [reflexivity |]). subst i. reflexivity.
Qed.

Lemma vflip_value_bits (value x i : Z) :
  value = 0 \/ value = 1 ->
  Z.testbit (vflip_value value (wrap_u8 x)) i
  = (if i =? 1 then value =? 1 else Z.testbit (wrap_u8 x) i).
Proof.
  intros [-> | ->]; unfold vflip_value;
    [change (0 =? 0) with true | change (1 =? 0) with false]; cbv iota.
  - destruct (clear_bit1_spec x) as (H1 & Hrest).
    destruct (Z.eqb_spec i 1) as [-> | Hi]; [exact H1 | apply (Hrest i Hi)].
  - destruct (set_bit1_spec x) as (H1 & Hrest).
    destruct (Z.eqb_spec i 1) as [-> | Hi]; [exact H1 | apply (Hrest i Hi)].
Qed.

Lemma hflip_value_bits (value x i : Z) :
  value = 0 \/ value = 1 ->
  Z.testbit (hflip_value value (wrap_u8 x)) i
  = (if i =? 0 then value =? 1 else Z.testbit (wrap_u8 x) i).
Proof.
  intros Hv. rewrite (wrap_u8_testbit x).
  destruct Hv as [-> | ->]; unfold hflip_value;
    [change (0 =? 0) with true | change (1 =? 0) with false]; cbv iota;
    rewrite wrap_u8_testbit.
  - rewrite Z.land_spec, (wrap_u8_testbit x).
    destruct (Z.leb_spec 0 i) as [H0 | H0]; cbn [andb].
    + destruct (Z.ltb_spec i 8) as [H8 | H8].
      * rewrite testbit_0xfe by lia.
        destruct (Z.eqb_spec i 0) as [-> | Hi]; cbn [negb].
        -- apply andb_false_r.
        -- apply andb_true_r.
      * destruct (Z.eqb_spec i 0); [lia | reflexivity].
    + destruct (Z.eqb_spec i 0); [lia | reflexivity].
  - rewrite Z.lor_spec, testbit_one, (wrap_u8_testbit x).
    destruct (Z.leb_spec 0 i) as [H0 | H0]; cbn [andb].
    + destruct (Z.ltb_spec i 8) as [H8 | H8].
      * destruct (Z.eqb_spec i 0) as [-> | Hi].
        -- apply orb_true_r.
        -- apply orb_false_r.
      * destruct (Z.eqb_spec i 0); [lia | reflexivity].
    + destruct (Z.eqb_spec i 0); [lia | reflexivity].
Qed.

Lemma s_hflip_eq (c : i2c_client) (value : Z) (w : hw) :
  0 <= adapter_ret c (bus w) (XWrite 0xfe 0x00) ->
  0 <= adapter_ret c (bus w ++ [XWrite 0xfe 0x00]) (XRead 0x17) ->
  let w2 := mk_hw (bus w ++ [XWrite 0xfe 0x00; XRead 0x17]) (slept_ms w)
                  (slept_us w) (pwdn_level w) (reset_level w) (gpio_trace w)
                  (xclk_enabled w) (warnings w) in
  gc2145_s_hflip c value w
  = (if value =? 0
     then (ret <- gc2145_write_reg c 0x17
                    (wrap_u8 (Z.land (flip_read c w) 0xfe)) ;;
           if ret <? 0 then mret ret else mdelay 20 ;;; mret 0) w2
     else if value =? 1
     then (ret <- gc2145_write_reg c 0x17
                    (wrap_u8 (Z.lor (flip_read c w) 0x01)) ;;
           if ret <? 0 then mret ret else mdelay 20 ;;; mret 0) w2
     else (- EINVAL, w2)).
Proof.
  intros H1 H2. cbn zeta.
  unfold gc2145_s_hflip, gc2145_read_reg, i2c_transfer_rx, flip_read.
  unfold mbind at 1. unfold gc2145_write_reg at 1. unfold mbind at 1.
  unfold i2c_transfer at 1. cbn [fst snd bus slept_ms slept_us pwdn_level
    reset_level gpio_trace xclk_enabled warnings].
  apply Z.ltb_ge in H1, H2. rewrite H1. unfold mret at 1.
  change (0 <? 0) with false. cbv iota.
  unfold mbind at 1. unfold mbind at 1. unfold i2c_transfer.
  cbn [fst snd bus slept_ms slept_us pwdn_level reset_level gpio_trace
       xclk_enabled warnings].
  rewrite H2. unfold mret at 1. change (0 <? 0) with false. cbv iota.
  rewrite <- app_assoc. cbn [app].
  destruct (value =? 0); [reflexivity |].
  destruct (value =? 1); reflexivity.
Qed.

(** Both flip controls with a valid value, once the page select and the
    read are accepted: the message sequence and the result. *)
Lemma s_vflip_valid (c : i2c_client) (value : Z) (w : hw) :
  0 <= adapter_ret c (bus w) (XWrite 0xfe 0x00) ->
  0 <= adapter_ret c (bus w ++ [XWrite 0xfe 0x00]) (XRead 0x17) ->
  value = 0 \/ value = 1 ->
  bus (snd (gc2145_s_vflip c value w))
  = bus w ++ [XWrite 0xfe 0x00; XRead 0x17;
              XWrite 0x17 (vflip_value value (flip_read c w))] /\
  (0 <= adapter_ret c (bus w ++ [XWrite 0xfe 0x00; XRead 0x17])
          (XWrite 0x17 (vflip_value value (flip_read c w))) ->
   fst (gc2145_s_vflip c value w) = 0 /\
   slept_ms (snd (gc2145_s_vflip c value w)) = slept_ms w + 20) /\
  (adapter_ret c (bus w ++ [XWrite 0xfe 0x00; XRead 0x17])
     (XWrite 0x17 (vflip_value value (flip_read c w))) < 0 ->
   fst (gc2145_s_vflip c value w)
   = adapter_ret c (bus w ++ [XWrite 0xfe 0x00; XRead 0x17])
       (XWrite 0x17 (vflip_value value (flip_read c w)))).
Proof.
  intros H1 H2 Hv. rewrite (s_vflip_eq c value w H1 H2). cbn zeta.
  unfold vflip_value.
  destruct Hv as [-> | ->];
    [change (0 =? 0) with true
    | change (1 =? 0) with false; change (1 =? 1) with true]; cbv iota;
    match goal with |- context [mbind (gc2145_write_reg c 0x17 ?v) ?k ?w2] =>
      destruct (flip_write_back_run c v w2) as (Hb & Hok & Hko) end;
    cbn [bus slept_ms] in Hb, Hok, Hko;
    (split; [rewrite Hb, <- app_assoc; reflexivity | split; assumption]).
Qed.

Lemma s_hflip_valid (c : i2c_client) (value : Z) (w : hw) :
  0 <= adapter_ret c (bus w) (XWrite 0xfe 0x00) ->
  0 <= adapter_ret c (bus w ++ [XWrite 0xfe 0x00]) (XRead 0x17) ->
  value = 0 \/ value = 1 ->
  bus (snd (gc2145_s_hflip c value w))
  = bus w ++ [XWrite 0xfe 0x00; XRead 0x17;
              XWrite 0x17 (hflip_value value (flip_read c w))] /\
  (0 <= adapter_ret c (bus w ++ [XWrite 0xfe 0x00; XRead 0x17])
          (XWrite 0x17 (hflip_value value (flip_read c w))) ->
   fst (gc2145_s_hflip c value w) = 0 /\
   slept_ms (snd (gc2145_s_hflip c value w)) = slept_ms w + 20) /\
  (adapter_ret c (bus w ++ [XWrite 0xfe 0x00; XRead 0x17])
     (XWrite 0x17 (hflip_value value (flip_read c w))) < 0 ->
   fst (gc2145_s_hflip c value w)
   = adapter_ret c (bus w ++ [XWrite 0xfe 0x00; XRead 0x17])
       (XWrite 0x17 (hflip_value value (flip_read c w)))).
Proof.
  intros H1 H2 Hv. rewrite (s_hflip_eq c value w H1 H2). cbn zeta.
  unfold hflip_value.
  destruct Hv as [-> | ->];
    [change (0 =? 0) with true
    | change (1 =? 0) with false; change (1 =? 1) with true]; cbv iota;
    match goal with |- context [mbind (gc2145_write_reg c 0x17 ?v) ?k ?w2] =>
      destruct (flip_write_back_run c v w2) as (Hb & Hok & Hko) end;
    cbn [bus slept_ms] in Hb, Hok, Hko;
    (split; [rewrite Hb, <- app_assoc; reflexivity | split; assumption]).
Qed.



Lemma s_hflip_invalid_value (c : i2c_client) (value : Z) (w : hw) :
  value <> 0 -> value <> 1 ->
  fst (gc2145_s_hflip c value w) < 0 /\
  (bus (snd (gc2145_s_hflip c value w)) = bus w ++ [XWrite 0xfe 0x00] \/
   bus (snd (gc2145_s_hflip c value w))
   = bus w ++ [XWrite 0xfe 0x00; XRead 0x17]).
Proof.
  intros N0 N1.
  destruct (Z.ltb_spec (adapter_ret c (bus w) (XWrite 0xfe 0x00)) 0)
    as [H1 | H1].
  - unfold gc2145_s_hflip, mbind.
    destruct (write_reg_run c 0xfe 0x00 w) as (Hb & _ & _ & _ & Hko).
    specialize (Hko H1).
    destruct (gc2145_write_reg c 0xfe 0x00 w) as [ret w1].
    cbn [fst snd] in *. subst ret.
    apply Z.ltb_lt in H1. rewrite H1. unfold mret. cbn [fst snd].
    apply Z.ltb_lt in H1. auto.
  - destruct (Z.ltb_spec (adapter_ret c (bus w ++ [XWrite 0xfe 0x00])
                                      (XRead 0x17)) 0) as [H2 | H2].
    + unfold gc2145_s_hflip, mbind.
      destruct (write_reg_run c 0xfe 0x00 w) as (Hb & _ & _ & Hok & _).
      specialize (Hok H1).
      destruct (gc2145_write_reg c 0xfe 0x00 w) as [ret w1].
      cbn [fst snd] in *. subst ret. change (0 <? 0) with false. cbv iota.
      destruct (read_reg_run c 0x17 0x00 w1) as (Hb2 & Hko2 & _).
      rewrite Hb in Hb2, Hko2. specialize (Hko2 H2).
      destruct (gc2145_read_reg c 0x17 0x00 w1) as [[ret2 v] w2].
      cbn [fst snd] in *. destruct Hko2 as (-> & _).
      apply Z.ltb_lt in H2. rewrite H2. unfold mret. cbn [fst snd].
      apply Z.ltb_lt in H2. rewrite Hb2, <- app_assoc. auto.
    + rewrite (s_hflip_eq c value w H1 H2). cbn zeta.
      apply Z.eqb_neq in N0, N1. rewrite N0, N1. cbn [fst snd bus].
      split; [unfold EINVAL; lia | auto].
Qed.

Lemma no_flip_write (new : list xfer) (w : hw) :
  new = [XWrite 0xfe 0x00] \/ new = [XWrite 0xfe 0x00; XRead 0x17] ->
  forall v, ~ In (XWrite 0x17 v) new.
Proof.
  intros [-> | ->] v H; simpl in H;
    repeat (destruct H as [H | H]; [discriminate H |]); exact H.
Qed.

(** X22.  [gc2145_s_ctrl] serves the two flip controls only: any other
    control id is refused with [-EINVAL] without any hardware access.  For
    either flip control a value other than 0 and 1 makes the call fail, and
    no write to the flip-control register 0x17 is dispatched, whatever the
    transport does. *)
Theorem s_ctrl_rejects (c : i2c_client) (id value : Z) (w : hw) :
  (id <> V4L2_CID_VFLIP -> id <> V4L2_CID_HFLIP ->
   gc2145_s_ctrl c id value w = (- EINVAL, w)) /\
  (value <> 0 -> value <> 1 ->
   fst (gc2145_s_ctrl c id value w) < 0 /\
   exists new : list xfer,
     bus (snd (gc2145_s_ctrl c id value w)) = bus w ++ new /\
     forall v, ~ In (XWrite 0x17 v) new).
Proof.
  split.
  - intros Nv Nh. unfold gc2145_s_ctrl.
    apply Z.eqb_neq in Nv, Nh. rewrite Nv, Nh. reflexivity.
  - intros N0 N1. unfold gc2145_s_ctrl.
    destruct (id =? V4L2_CID_VFLIP).
    + destruct (s_vflip_invalid_value c value w N0 N1) as (Hr & Hb).
      split; [exact Hr |].
      destruct Hb as [Hb | Hb]; eexists; (split; [exact Hb |]);
        apply (no_flip_write _ w); auto.
    + destruct (id =? V4L2_CID_HFLIP).
      * destruct (s_hflip_invalid_value c value w N0 N1) as (Hr & Hb).
        split; [exact Hr |].
        destruct Hb as [Hb | Hb]; eexists; (split; [exact Hb |]);
          apply (no_flip_write _ w); auto.
      * unfold mret. cbn [fst snd]. split; [unfold EINVAL; lia |].
        exists []. rewrite app_nil_r. split; [reflexivity |].
        intros v H. exact H.
Qed.

Lemma s_ctrl_rejects_witness :
  gc2145_s_ctrl nak_client 0x009f0902 0 hw0 = (- EINVAL, hw0).
Proof.
  apply (proj1 (s_ctrl_rejects nak_client 0x009f0902 0 hw0)).
  - discriminate.
  - discriminate.
Defined.

(** ** Flip controls against a register file *)

Lemma last_written_app (l1 l2 : list xfer) (reg : Z) :
  forall init,
    last_written (l1 ++ l2) reg init
    = last_written l2 reg (last_written l1 reg init).
Proof.
  induction l1 as [| x l1 IH]; intros init; simpl; [reflexivity |].
  destruct x; apply IH.
Qed.

Lemma wrap_u8_idem (x : Z) : wrap_u8 (wrap_u8 x) = wrap_u8 x.
Proof. unfold wrap_u8. apply Z.mod_mod. lia. Qed.

Lemma vflip_value_byte (value old : Z) :
  wrap_u8 (vflip_value value old) = vflip_value value old.
Proof. unfold vflip_value. destruct (value =? 0); apply wrap_u8_idem. Qed.

Lemma hflip_value_byte (value old : Z) :
  wrap_u8 (hflip_value value old) = hflip_value value old.
Proof. unfold hflip_value. destruct (value =? 0); apply wrap_u8_idem. Qed.

Lemma reg17_byte (v0 : Z -> Z) (w : hw) : wrap_u8 (reg17 v0 w) = reg17 v0 w.
Proof. apply wrap_u8_idem. Qed.

Lemma mem_flip_read (v0 : Z -> Z) (w : hw) :
  flip_read (mem_client v0) w = reg17 v0 w.
Proof.
  unfold flip_read, reg17, mem_client. cbn [adapter_rx].
  rewrite last_written_app. reflexivity.
Qed.

Lemma mem_read_reg17 (v0 : Z -> Z) (old : Z) (w : hw) :
  fst (gc2145_read_reg (mem_client v0) 0x17 old w) = (0, reg17 v0 w).
Proof. reflexivity. Qed.

Lemma reg17_after_write (v0 : Z -> Z) (w w' : hw) (v : Z) :
  bus w' = bus w ++ [XWrite 0xfe 0x00; XRead 0x17; XWrite 0x17 v] ->
  reg17 v0 w' = wrap_u8 v.
Proof.
  intros Hb. unfold reg17. rewrite Hb, last_written_app. reflexivity.
Qed.

Lemma mem_vflip (v0 : Z -> Z) (value : Z) (w : hw) :
  value = 0 \/ value = 1 ->
  fst (gc2145_s_vflip (mem_client v0) value w) = 0 /\
  reg17 v0 (snd (gc2145_s_vflip (mem_client v0) value w))
  = vflip_value value (reg17 v0 w).
Proof.
  intros Hv.
  destruct (s_vflip_valid (mem_client v0) value w) as (Hb & Hok & _);
    [cbn; lia | cbn; lia | exact Hv |].
  rewrite mem_flip_read in Hb. split.
  - apply Hok. cbn. lia.
  - rewrite (reg17_after_write v0 w _ _ Hb). apply vflip_value_byte.
Qed.

Lemma mem_hflip (v0 : Z -> Z) (value : Z) (w : hw) :
  value = 0 \/ value = 1 ->
  fst (gc2145_s_hflip (mem_client v0) value w) = 0 /\
  reg17 v0 (snd (gc2145_s_hflip (mem_client v0) value w))
  = hflip_value value (reg17 v0 w).
Proof.
  intros Hv.
  destruct (s_hflip_valid (mem_client v0) value w) as (Hb & Hok & _);
    [cbn; lia | cbn; lia | exact Hv |].
  rewrite mem_flip_read in Hb. split.
  - apply Hok. cbn. lia.
  - rewrite (reg17_after_write v0 w _ _ Hb). apply hflip_value_byte.
Qed.

Lemma vflip_bits_of_byte (value y i : Z) :
  value = 0 \/ value = 1 -> wrap_u8 y = y ->
  Z.testbit (vflip_value value y) i
  = (if i =? 1 then value =? 1 else Z.testbit y i).
Proof.
  intros Hv Hy. rewrite <- Hy at 1. rewrite (vflip_value_bits _ _ _ Hv), Hy.
  reflexivity.
Qed.

Lemma hflip_bits_of_byte (value y i : Z) :
  value = 0 \/ value = 1 -> wrap_u8 y = y ->
  Z.testbit (hflip_value value y) i
  = (if i =? 0 then value =? 1 else Z.testbit y i).
Proof.
  intros Hv Hy. rewrite <- Hy at 1. rewrite (hflip_value_bits _ _ _ Hv), Hy.
  reflexivity.
Qed.

(** X23.  Read-back on a device whose registers hold what was last written
    to them.  After [gc2145_s_vflip] with value 0 or 1 (which returns 0),
    reading register 0x17 with [gc2145_read_reg] returns a byte whose bit 1
    is the value set and whose other bits are those the register had before
    the call; the same holds for [gc2145_s_hflip] and bit 0. *)
Theorem flip_read_back (v0 : Z -> Z) (value old : Z) (w : hw) :
  value = 0 \/ value = 1 ->
  (fst (gc2145_s_vflip (mem_client v0) value w) = 0 /\
   exists byte : Z,
     fst (gc2145_read_reg (mem_client v0) 0x17 old
            (snd (gc2145_s_vflip (mem_client v0) value w))) = (0, byte) /\
     Z.testbit byte 1 = (value =? 1) /\
     forall i, i <> 1 -> Z.testbit byte i = Z.testbit (reg17 v0 w) i) /\
  (fst (gc2145_s_hflip (mem_client v0) value w) = 0 /\
   exists byte : Z,
     fst (gc2145_read_reg (mem_client v0) 0x17 old
            (snd (gc2145_s_hflip (mem_client v0) value w))) = (0, byte) /\
     Z.testbit byte 0 = (value =? 1) /\
     forall i, i <> 0 -> Z.testbit byte i = Z.testbit (reg17 v0 w) i).
Proof.
  intros Hv. split.
  - destruct (mem_vflip v0 value w Hv) as (Hr & Hreg).
    split; [exact Hr |]. eexists. split; [apply mem_read_reg17 |].
    rewrite Hreg. split.
    + rewrite (vflip_bits_of_byte _ _ 1 Hv (reg17_byte v0 w)). reflexivity.
    + intros i Hi. rewrite (vflip_bits_of_byte _ _ i Hv (reg17_byte v0 w)).
      apply Z.eqb_neq in Hi. rewrite Hi. reflexivity.
  - destruct (mem_hflip v0 value w Hv) as (Hr & Hreg).
    split; [exact Hr |]. eexists. split; [apply mem_read_reg17 |].
    rewrite Hreg. split.
    + rewrite (hflip_bits_of_byte _ _ 0 Hv (reg17_byte v0 w)). reflexivity.
    + intros i Hi. rewrite (hflip_bits_of_byte _ _ i Hv (reg17_byte v0 w)).
      apply Z.eqb_neq in Hi. rewrite Hi. reflexivity.
Qed.

Lemma flip_read_back_witness :
  fst (gc2145_s_vflip (mem_client (fun _ => 0x14)) 1 hw0) = 0 /\
  exists byte : Z,
    fst (gc2145_read_reg (mem_client (fun _ => 0x14)) 0x17 0
           (snd (gc2145_s_vflip (mem_client (fun _ => 0x14)) 1 hw0)))
    = (0, byte) /\
    Z.testbit byte 1 = (1 =? 1) /\
    forall i, i <> 1 ->
      Z.testbit byte i = Z.testbit (reg17 (fun _ => 0x14) hw0) i.
Proof.
  apply (proj1 (flip_read_back (fun _ => 0x14) 1 0 hw0
                  (or_intror eq_refl))).
Defined.

(** X24.  On the same register-file device the two flip controls are
    independent and idempotent: setting VFLIP then HFLIP leaves register
    0x17 with the same content as setting HFLIP then VFLIP, and setting
    VFLIP twice to the same value leaves what setting it once leaves. *)
Theorem flips_commute (v0 : Z -> Z) (a b : Z) (w : hw) :
  a = 0 \/ a = 1 -> b = 0 \/ b = 1 ->
  reg17 v0 (snd (gc2145_s_hflip (mem_client v0) b
                   (snd (gc2145_s_vflip (mem_client v0) a w))))
  = reg17 v0 (snd (gc2145_s_vflip (mem_client v0) a
                     (snd (gc2145_s_hflip (mem_client v0) b w)))) /\
  reg17 v0 (snd (gc2145_s_vflip (mem_client v0) a
                   (snd (gc2145_s_vflip (mem_client v0) a w))))
  = reg17 v0 (snd (gc2145_s_vflip (mem_client v0) a w)).
Proof.
  intros Ha Hb.
  rewrite (proj2 (mem_hflip v0 b _ Hb)), !(proj2 (mem_vflip v0 a _ Ha)),
    (proj2 (mem_hflip v0 b w Hb)).
  split; apply Z.bits_inj'; intros i _.
  - rewrite (hflip_bits_of_byte _ _ i Hb (vflip_value_byte _ _)),
      (vflip_bits_of_byte _ _ i Ha (hflip_value_byte _ _)),
      (vflip_bits_of_byte _ _ i Ha (reg17_byte v0 w)),
      (hflip_bits_of_byte _ _ i Hb (reg17_byte v0 w)).
    destruct (Z.eqb_spec i 0) as [-> | H0]; [reflexivity |].
    destruct (i =? 1); reflexivity.
  - rewrite (vflip_bits_of_byte _ _ i Ha (vflip_value_byte _ _)),
      (vflip_bits_of_byte _ _ i Ha (reg17_byte v0 w)).
    destruct (i =? 1); reflexivity.
Qed.

Lemma flips_commute_witness :
  reg17 (fun _ => 0x14)
    (snd (gc2145_s_hflip (mem_client (fun _ => 0x14)) 1
            (snd (gc2145_s_vflip (mem_client (fun _ => 0x14)) 1 hw0))))
  = reg17 (fun _ => 0x14)
      (snd (gc2145_s_vflip (mem_client (fun _ => 0x14)) 1
              (snd (gc2145_s_hflip (mem_client (fun _ => 0x14)) 1 hw0)))).
Proof.
  apply (proj1 (flips_commute (fun _ => 0x14) 1 1 hw0
                  (or_intror eq_refl) (or_intror eq_refl))).
Defined.

(** ** Identification, continued *)

Lemma set_power_on_run (sensor : gc2145_dev) (w : hw) :
  pwdn_gpio sensor = true -> reset_gpio sensor = true ->
  fst (gc2145_set_power_on (Some sensor) w) = 0 /\
  bus (snd (gc2145_set_power_on (Some sensor) w)) = bus w /\
  pwdn_level (snd (gc2145_set_power_on (Some sensor) w)) = 0 /\
  xclk_enabled (snd (gc2145_set_power_on (Some sensor) w)) = xclk_enabled w /\
  gpio_trace (snd (gc2145_set_power_on (Some sensor) w))
  = gpio_trace w ++ power_on_trace.
Proof.
  intros Hp Hr. unfold gc2145_set_power_on, gc2145_power, gc2145_reset.
  rewrite Hp, Hr. cbn. rewrite <- !app_assoc. repeat split.
Qed.

Lemma set_power_on_bus (sensor : option gc2145_dev) (w : hw) :
  bus (snd (gc2145_set_power_on sensor w)) = bus w.
Proof.
  destruct sensor as [s |]; [| reflexivity].
  unfold gc2145_set_power_on, gc2145_power, gc2145_reset.
  destruct (pwdn_gpio s); destruct (reset_gpio s); reflexivity.
Qed.

Lemma set_power_on_ret (sensor : gc2145_dev) (w : hw) :
  pwdn_gpio sensor = false \/ reset_gpio sensor = false ->
  fst (gc2145_set_power_on (Some sensor) w) = -1.
Proof.
  unfold gc2145_set_power_on, gc2145_power, gc2145_reset.
  destruct (pwdn_gpio sensor); destruct (reset_gpio sensor);
    intros [H | H]; try discriminate H; reflexivity.
Qed.

Lemma set_power_off_run (sensor : gc2145_dev) (w : hw) :
  pwdn_gpio sensor = true ->
  bus (snd (gc2145_set_power_off sensor w)) = bus w /\
  pwdn_level (snd (gc2145_set_power_off sensor w)) = 1 /\
  xclk_enabled (snd (gc2145_set_power_off sensor w)) = xclk_enabled w - 1 /\
  gpio_trace (snd (gc2145_set_power_off sensor w)) = gpio_trace w ++ [(PWDN, 1)].
Proof.
  intros Hp. unfold gc2145_set_power_off, gc2145_power. rewrite Hp.
  cbn. repeat split.
Qed.

Lemma set_power_off_bus (sensor : gc2145_dev) (w : hw) :
  bus (snd (gc2145_set_power_off sensor w)) = bus w.
Proof.
  unfold gc2145_set_power_off, gc2145_power.
  destruct (pwdn_gpio sensor); reflexivity.
Qed.

Lemma read_reg_frame (c : i2c_client) (reg old : Z) (w : hw) :
  same_lines w (snd (gc2145_read_reg c reg old w)) /\
  slept_ms (snd (gc2145_read_reg c reg old w)) = slept_ms w.
Proof.
  unfold gc2145_read_reg, mbind, i2c_transfer_rx, i2c_transfer, mret,
    same_lines.
  cbn [fst snd]. destruct (adapter_ret c (bus w) (XRead reg) <? 0);
    cbn; repeat split.
Qed.

(** X25.  [gc2145_check_chip_id] ignores the return codes of its two
    register reads.  On a bus that refuses every read, the verdict is
    computed from whatever the uninitialised local array [chip_id] held:
    [-ENXIO] when its first byte differs from 0x21 and its second from
    0xF1, success otherwise. *)
Theorem check_chip_id_reads_unchecked (sensor : gc2145_dev)
    (chip_id : Z * Z) (w : hw) :
  pwdn_gpio sensor = true -> reset_gpio sensor = true ->
  (forall log reg, adapter_ret (client_of sensor) log (XRead reg) < 0) ->
  fst (gc2145_check_chip_id sensor chip_id w)
  = (if negb (fst chip_id =? 0x21) && negb (snd chip_id =? 0xF1)
     then - ENXIO else 0).
Proof.
  intros Hp Hr Hnak. unfold gc2145_check_chip_id, mbind.
  pose proof (set_power_on_ok sensor w Hp Hr) as H0.
  destruct (gc2145_set_power_on (Some sensor) w) as [r w1].
  cbn [fst] in H0. subst r. change (negb (0 =? 0)) with false. cbv iota.
  destruct (read_reg_run (client_of sensor) GC2145_REG_CHIP_ID_H
              (fst chip_id) w1) as (_ & Hko0 & _).
  specialize (Hko0 (Hnak _ _)).
  destruct (gc2145_read_reg (client_of sensor) GC2145_REG_CHIP_ID_H
              (fst chip_id) w1) as [[e0 v0] w2].
  cbn [fst snd] in Hko0. destruct Hko0 as (_ & ->).
  destruct (read_reg_run (client_of sensor) GC2145_REG_CHIP_ID_L
              (snd chip_id) w2) as (_ & Hko1 & _).
  specialize (Hko1 (Hnak _ _)).
  destruct (gc2145_read_reg (client_of sensor) GC2145_REG_CHIP_ID_L
              (snd chip_id) w2) as [[e1 v1] w3].
  cbn [fst snd] in Hko1. destruct Hko1 as (_ & ->). cbn [fst snd].
  change (Z.land (Z.shiftr GC2145_CHIP_ID 8) 0xFF) with 0x21.
  change (Z.land GC2145_REG_CHIP_ID_L 0xFF) with 0xF1.
  destruct (negb (fst chip_id =? 0x21) && negb (snd chip_id =? 0xF1));
    [| reflexivity].
  destruct (gc2145_set_power_off sensor w3). reflexivity.
Qed.

Lemma check_chip_id_reads_unchecked_witness :
  fst (gc2145_check_chip_id (probed deaf_client) (0x21, 0x99) hw0)
  = (if negb (fst (0x21, 0x99) =? 0x21) && negb (snd (0x21, 0x99) =? 0xF1)
     then - ENXIO else 0).
Proof.
  apply (check_chip_id_reads_unchecked (probed deaf_client) (0x21, 0x99) hw0).
  - reflexivity.
  - reflexivity.
  - intros log reg. simpl. lia.
Defined.

(** X26.  Identification only reads.  With both GPIO lines present,
    [gc2145_check_chip_id] dispatches exactly two messages, the reads of
    registers 0xF0 and 0xF1 in this order, whatever the transport answers
    and whatever the verdict; when a GPIO line is missing it returns -1
    without any bus traffic. *)
Theorem check_chip_id_bus_traffic (sensor : gc2145_dev) (chip_id : Z * Z)
    (w : hw) :
  (pwdn_gpio sensor = true -> reset_gpio sensor = true ->
   bus (snd (gc2145_check_chip_id sensor chip_id w))
   = bus w ++ [XRead GC2145_REG_CHIP_ID_H; XRead GC2145_REG_CHIP_ID_L]) /\
  (pwdn_gpio sensor = false \/ reset_gpio sensor = false ->
   fst (gc2145_check_chip_id sensor chip_id w) = -1 /\
   bus (snd (gc2145_check_chip_id sensor chip_id w)) = bus w).
Proof.
  split.
  - intros Hp Hr. unfold gc2145_check_chip_id, mbind.
    pose proof (set_power_on_ok sensor w Hp Hr) as H0.
    pose proof (set_power_on_bus (Some sensor) w) as Hb0.
    destruct (gc2145_set_power_on (Some sensor) w) as [r w1].
    cbn [fst snd] in H0, Hb0. subst r.
    change (negb (0 =? 0)) with false. cbv iota.
    destruct (read_reg_run (client_of sensor) GC2145_REG_CHIP_ID_H
                (fst chip_id) w1) as (Hb1 & _).
    destruct (gc2145_read_reg (client_of sensor) GC2145_REG_CHIP_ID_H
                (fst chip_id) w1) as [r0 w2].
    destruct (read_reg_run (client_of sensor) GC2145_REG_CHIP_ID_L
                (snd chip_id) w2) as (Hb2 & _).
    destruct (gc2145_read_reg (client_of sensor) GC2145_REG_CHIP_ID_L
                (snd chip_id) w2) as [r1 w3].
    cbn [fst snd] in *.
    assert (Hb3 : bus w3 = bus w ++ [XRead GC2145_REG_CHIP_ID_H;
                                     XRead GC2145_REG_CHIP_ID_L]).
    { rewrite Hb2, Hb1, Hb0, <- app_assoc. reflexivity. }
    destruct (negb (snd r0 =? _) && negb (snd r1 =? _)); [| exact Hb3].
    pose proof (set_power_off_bus sensor w3) as Hb4.
    destruct (gc2145_set_power_off sensor w3) as [r4 w4].
    unfold mret. cbn [fst snd] in *. rewrite Hb4. exact Hb3.
  - intros Hmiss. unfold gc2145_check_chip_id, mbind.
    pose proof (set_power_on_ret sensor w Hmiss) as H0.
    pose proof (set_power_on_bus (Some sensor) w) as Hb0.
    destruct (gc2145_set_power_on (Some sensor) w) as [r w1].
    cbn [fst snd] in H0, Hb0. subst r.
    change (negb (-1 =? 0)) with true. cbv iota. auto.
Qed.

Lemma check_chip_id_bus_traffic_witness :
  bus (snd (gc2145_check_chip_id (probed nak_client) (0, 0) hw0))
  = bus hw0 ++ [XRead GC2145_REG_CHIP_ID_H; XRead GC2145_REG_CHIP_ID_L].
Proof.
  apply (proj1 (check_chip_id_bus_traffic (probed nak_client) (0, 0) hw0)).
  - reflexivity.
  - reflexivity.
Defined.

(** X27.  A device that acknowledges every transfer and answers with a
    high byte other than 0x21 and a low byte other than 0xF1 is refused
    with [-ENXIO] and powered back down: after the power-on sequence the
    power-down line is asserted again and one clock reference is
    released. *)
Theorem check_chip_id_rejects (sensor : gc2145_dev) (rx : Z -> Z)
    (chip_id : Z * Z) (w : hw) :
  client_of sensor = ack_client rx ->
  pwdn_gpio sensor = true -> reset_gpio sensor = true ->
  wrap_u8 (rx GC2145_REG_CHIP_ID_H) <> 0x21 ->
  wrap_u8 (rx GC2145_REG_CHIP_ID_L) <> 0xF1 ->
  fst (gc2145_check_chip_id sensor chip_id w) = - ENXIO /\
  pwdn_level (snd (gc2145_check_chip_id sensor chip_id w)) = 1 /\
  xclk_enabled (snd (gc2145_check_chip_id sensor chip_id w))
  = xclk_enabled w - 1 /\
  gpio_trace (snd (gc2145_check_chip_id sensor chip_id w))
  = gpio_trace w ++ power_on_trace ++ [(PWDN, 1)].
Proof.
  intros Hc Hp Hr Hh Hl. unfold gc2145_check_chip_id, mbind.
  destruct (set_power_on_run sensor w Hp Hr) as (H0 & _ & _ & Hx1 & Hg1).
  destruct (gc2145_set_power_on (Some sensor) w) as [r w1].
  cbn [fst snd] in *. subst r. change (negb (0 =? 0)) with false. cbv iota.
  rewrite Hc.
  pose proof (read_reg_ack rx GC2145_REG_CHIP_ID_H (fst chip_id) w1) as E0.
  destruct (read_reg_frame (ack_client rx) GC2145_REG_CHIP_ID_H
              (fst chip_id) w1) as (Hl2 & _).
  destruct (gc2145_read_reg (ack_client rx) GC2145_REG_CHIP_ID_H
              (fst chip_id) w1) as [r0 w2].
  cbn [fst snd] in *. subst r0.
  pose proof (read_reg_ack rx GC2145_REG_CHIP_ID_L (snd chip_id) w2) as E1.
  destruct (read_reg_frame (ack_client rx) GC2145_REG_CHIP_ID_L
              (snd chip_id) w2) as (Hl3 & _).
  destruct (gc2145_read_reg (ack_client rx) GC2145_REG_CHIP_ID_L
              (snd chip_id) w2) as [r1 w3].
  cbn [fst snd] in *. subst r1. cbn [snd].
  change (Z.land (Z.shiftr GC2145_CHIP_ID 8) 0xFF) with 0x21.
  change (Z.land GC2145_REG_CHIP_ID_L 0xFF) with 0xF1.
  apply Z.eqb_neq in Hh, Hl. rewrite Hh, Hl. cbn [negb andb].
  destruct (set_power_off_run sensor w3 Hp) as (_ & Hpw & Hx4 & Hg4).
  destruct (gc2145_set_power_off sensor w3) as [r4 w4].
  unfold mret. cbn [fst snd] in *.
  pose proof (same_lines_trans _ _ _ Hl2 Hl3) as (_ & _ & _ & Hg & Hx & _).
  split; [reflexivity |]. split; [exact Hpw |].
  split; [rewrite Hx4, Hx, Hx1; reflexivity |].
  rewrite Hg4, Hg, Hg1, <- app_assoc. reflexivity.
Qed.

Lemma check_chip_id_rejects_witness :
  fst (gc2145_check_chip_id (probed (ack_client (chip_answers 0x00 0x45)))
                            (0, 0) hw0) = - ENXIO /\
  pwdn_level (snd (gc2145_check_chip_id
                     (probed (ack_client (chip_answers 0x00 0x45)))
                     (0, 0) hw0)) = 1 /\
  xclk_enabled (snd (gc2145_check_chip_id
                       (probed (ack_client (chip_answers 0x00 0x45)))
                       (0, 0) hw0)) = xclk_enabled hw0 - 1 /\
  gpio_trace (snd (gc2145_check_chip_id
                     (probed (ack_client (chip_answers 0x00 0x45)))
                     (0, 0) hw0))
  = gpio_trace hw0 ++ power_on_trace ++ [(PWDN, 1)].
Proof.
  apply (check_chip_id_rejects (probed (ack_client (chip_answers 0x00 0x45)))
           (chip_answers 0x00 0x45) (0, 0) hw0).
  - reflexivity.
  - reflexivity.
  - reflexivity.
  - vm_compute. discriminate.
  - vm_compute. discriminate.
Defined.

(** ** Stored formats *)

(** X28.  The active format and the try format are separate stores.  After
    an active [gc2145_set_fmt] on pad 0, whatever its register writes
    returned, an active [gc2145_get_fmt] returns exactly the format the
    call handed back, and the try format of any file handle reads as
    before; after a trial [gc2145_set_fmt] the active format reads as
    before. *)
Theorem set_get_stores (sensor : gc2145_dev) (cfg : v4l2_subdev_pad_config)
    (f : v4l2_subdev_format) (w : hw) :
  pad f = 0 ->
  (which f = V4L2_SUBDEV_FORMAT_ACTIVE ->
   (forall cfg' q,
      pad q = 0 -> which q = V4L2_SUBDEV_FORMAT_ACTIVE ->
      gc2145_get_fmt (sf_sensor (fst (gc2145_set_fmt sensor cfg f w))) cfg' q
      = (0, mk_format (which q) (pad q)
              (format (sf_format (fst (gc2145_set_fmt sensor cfg f w)))))) /\
   (forall q,
      which q = V4L2_SUBDEV_FORMAT_TRY ->
      gc2145_get_fmt (sf_sensor (fst (gc2145_set_fmt sensor cfg f w)))
                     (sf_cfg (fst (gc2145_set_fmt sensor cfg f w))) q
      = gc2145_get_fmt sensor cfg q)) /\
  (which f = V4L2_SUBDEV_FORMAT_TRY ->
   forall q,
     which q <> V4L2_SUBDEV_FORMAT_TRY ->
     gc2145_get_fmt (sf_sensor (fst (gc2145_set_fmt sensor cfg f w)))
                    (sf_cfg (fst (gc2145_set_fmt sensor cfg f w))) q
     = gc2145_get_fmt sensor cfg q).
Proof.
  intros Hp. split.
  - intros Ha.
    destruct (set_fmt_active_run sensor cfg f w Hp Ha)
      as (_ & _ & Hs & Hc & Hf).
    rewrite Hs, Hc, Hf. split.
    + intros cfg' q Hq Hwq. unfold gc2145_get_fmt. rewrite Hq, Hwq.
      reflexivity.
    + intros q Hwq. unfold gc2145_get_fmt. rewrite Hwq.
      change (V4L2_SUBDEV_FORMAT_TRY =? V4L2_SUBDEV_FORMAT_TRY) with true.
      reflexivity.
  - intros Ht q Hwq. rewrite (set_fmt_try_eq _ _ _ _ Hp Ht). cbn zeta.
    cbn [fst sf_sensor sf_cfg]. unfold gc2145_get_fmt.
    apply Z.eqb_neq in Hwq. rewrite Hwq. reflexivity.
Qed.

Lemma set_get_stores_witness :
  gc2145_get_fmt
    (sf_sensor (fst (gc2145_set_fmt (probed nak_client) (mk_cfg blank_fmt)
                       (request V4L2_SUBDEV_FORMAT_TRY 640 480
                                MEDIA_BUS_FMT_YUYV8_2X8) hw0)))
    (sf_cfg (fst (gc2145_set_fmt (probed nak_client) (mk_cfg blank_fmt)
                    (request V4L2_SUBDEV_FORMAT_TRY 640 480
                             MEDIA_BUS_FMT_YUYV8_2X8) hw0))) query_active
  = gc2145_get_fmt (probed nak_client) (mk_cfg blank_fmt) query_active.
Proof.
  apply (proj2 (set_get_stores (probed nak_client) (mk_cfg blank_fmt)
                  (request V4L2_SUBDEV_FORMAT_TRY 640 480
                           MEDIA_BUS_FMT_YUYV8_2X8) hw0 eq_refl)).
  - reflexivity.
  - discriminate.
Defined.
